(** * Prometheus Gym Suite: derived-state logic

    A shallow embedding of the member activity / aggregate recomputation
    logic of the gym dashboard:

    - [Sql]: the tables, triggers and functions of [supabase-schema.sql];
    - [JsDate]: the part of the JavaScript [Date] object the services use;
    - [JsNumber]: JavaScript numbers, for the amounts the services add up;
    - [Supabase]: the client the services talk through (responses that
      carry [data] and [error], lazy request builders, [rpc] dispatch);
    - [paymentsService], [membersService], [sessionsService] and
      [dashboardService]: the services of the web client;
    - [AnalyticsReports]: what the analytics page computes from them.

    Conventions.  A [uuid] is a string.  A [TIMESTAMPTZ] is an integer number
    of microseconds since the epoch, a JavaScript time value an integer
    number of milliseconds.  Local time is UTC plus one offset [tza], in
    milliseconds, that does not change: a zone without daylight saving.  A
    [DECIMAL(10,2)] amount is an integer number of cents in the database; in
    JavaScript it is the binary64 number nearest to it, and the sums of the
    services are binary64 sums, in the order the rows come in.  A nullable
    column is an [option].  Rows carry the columns the logic reads or writes,
    and [name] for the rest.  Of row-level security the model has the one
    policy that tells the staff apart, the write policy of [coaches]; the
    tables [gyms] and [profiles] and the foreign keys into them are outside
    it: every statement runs for a profile of the gym, for a gym that
    exists. *)

From Stdlib Require Import SpecFloat.
From stdpp Require Import base option numbers strings pretty list sorting gmap fin_maps.

Local Open Scope string_scope.
Local Open Scope Z_scope.

(* ===================================================================== *)
(** ** The database: [supabase-schema.sql]                                *)
(* ===================================================================== *)

Module Sql.

(** *** Scalar types *)

Definition uuid : Type := string.
Definition timestamptz : Type := Z.

Inductive membership_type := basic | premium | vip | trial.
Inductive activity_status := active | moderate | inactive.
Inductive payment_status := paid | pending | overdue.
Inductive session_status := scheduled | completed | cancelled | no_show.
(** [staff_role]; its value ['coach'] is [coach_role] here, [coach] being the
    type of the rows of [coaches]. *)
Inductive staff_role := owner | admin | manager | coach_role | receptionist.

#[global] Instance activity_status_eq_dec : EqDecision activity_status.
Proof. solve_decision. Defined.
#[global] Instance payment_status_eq_dec : EqDecision payment_status.
Proof. solve_decision. Defined.
#[global] Instance session_status_eq_dec : EqDecision session_status.
Proof. solve_decision. Defined.
#[global] Instance membership_type_eq_dec : EqDecision membership_type.
Proof. solve_decision. Defined.

(** What a statement or a request can fail with. *)
Inductive failure :=
  | integer_out_of_range
  | foreign_key_violation
  | unique_violation
  | invalid_text_representation
  | undefined_column
  | undefined_function
  | insufficient_privilege
  | fetch_failed
  | TypeError.

Inductive result (A : Type) :=
  | Ok (a : A)
  | Err (e : failure).
Arguments Ok {A} a.
Arguments Err {A} e.

(** [INTEGER] is a 32-bit signed integer; arithmetic that leaves the range
    raises instead of wrapping. *)
Definition int4_min : Z := -2147483648.
Definition int4_max : Z := 2147483647.

Definition int4 (z : Z) : result Z :=
  if bool_decide (int4_min ≤ z ≤ int4_max) then Ok z else Err integer_out_of_range.

(** [a + b] and [a - b] on nullable [INTEGER]s: NULL is absorbing. *)
Definition int4_add (a : option Z) (b : Z) : result (option Z) :=
  match a with
  | None => Ok None
  | Some x => match int4 (x + b) with Ok r => Ok (Some r) | Err e => Err e end
  end.

Definition int4_sub (a : option Z) (b : Z) : result (option Z) :=
  match a with
  | None => Ok None
  | Some x => match int4 (x - b) with Ok r => Ok (Some r) | Err e => Err e end
  end.

(** [GREATEST(a, b)] skips NULL arguments. *)
Definition GREATEST (a : Z) (b : option Z) : option Z :=
  match b with
  | None => Some a
  | Some y => Some (Z.max a y)
  end.

(** Three-valued logic: [None] is NULL. *)
Definition tri : Type := option bool.

Definition sql_ge (a b : option Z) : tri :=
  match a, b with
  | Some x, Some y => Some (bool_decide (y ≤ x))
  | _, _ => None
  end.

Definition sql_eq (a b : option uuid) : tri :=
  match a, b with
  | Some x, Some y => Some (bool_decide (x = y))
  | _, _ => None
  end.

Definition sql_neq (a b : option uuid) : tri :=
  match a, b with
  | Some x, Some y => Some (bool_decide (x ≠ y))
  | _, _ => None
  end.

Definition sql_is_not_null {A} (a : option A) : tri :=
  match a with
  | Some _ => Some true
  | None => Some false
  end.

Definition sql_and (a b : tri) : tri :=
  match a, b with
  | Some false, _ => Some false
  | _, Some false => Some false
  | Some true, Some true => Some true
  | _, _ => None
  end.

(** A [WHEN], [IF] or [WHERE] condition holds only when it is true: NULL
    counts as not taken. *)
Definition holds (t : tri) : bool :=
  match t with
  | Some true => true
  | _ => false
  end.

(** [INTERVAL 'n days'], in microseconds (the session time zone is UTC,
    where every day has 24 hours). *)
Definition microseconds_per_day : Z := 86400000000.
Definition INTERVAL_days (n : Z) : Z := n * microseconds_per_day.

(** *** Rows *)

Record coach := mkCoach {
  c_id : uuid;
  c_gym_id : uuid;
  c_name : string;
  c_is_active : option bool;
  c_client_count : option Z;
  c_updated_at : timestamptz
}.

Record member := mkMember {
  m_id : uuid;
  m_gym_id : uuid;
  m_coach_id : option uuid;
  m_name : string;
  m_membership_type : option membership_type;
  m_monthly_fee : option Z;
  m_activity_status : option activity_status;
  m_last_visit : option timestamptz;
  m_total_visits : option Z;
  m_updated_at : timestamptz
}.

Record member_visit := mkVisit {
  v_id : uuid;
  v_member_id : uuid;
  v_gym_id : uuid;
  v_check_in : option timestamptz;
  v_check_out : option timestamptz
}.

Record session := mkSession {
  s_id : uuid;
  s_gym_id : uuid;
  s_coach_id : uuid;
  s_member_id : option uuid;
  s_start_time : timestamptz;
  s_status : option session_status;
  s_max_participants : option Z;
  s_current_participants : option Z;
  s_updated_at : timestamptz
}.

Record session_participant := mkParticipant {
  sp_id : uuid;
  sp_session_id : uuid;
  sp_member_id : uuid;
  sp_attended : option bool
}.

Record payment := mkPayment {
  p_id : uuid;
  p_gym_id : uuid;
  p_member_id : uuid;
  p_amount : Z;
  p_status : option payment_status;
  p_paid_date : option timestamptz;
  p_updated_at : timestamptz
}.

Record alert := mkAlert {
  a_id : uuid;
  a_gym_id : uuid;
  a_title : string;
  a_is_read : option bool;
  a_created_at : timestamptz
}.

(** The tables, each keyed by its primary key [id], as one connection works
    on them.  [auth_role] is [profiles.role] of the user the connection is
    authenticated as (the row of [profiles] with [id = auth.uid()] that the
    policies look up); the column is nullable.  No statement of the model
    changes it. *)
Record database := mkDatabase {
  coaches : gmap uuid coach;
  members : gmap uuid member;
  member_visits : gmap uuid member_visit;
  sessions : gmap uuid session;
  session_participants : gmap uuid session_participant;
  payments : gmap uuid payment;
  alerts : gmap uuid alert;
  auth_role : option staff_role
}.

(** No rows, on the connection of the owner of the gym. *)
Definition empty_database : database :=
  mkDatabase ∅ ∅ ∅ ∅ ∅ ∅ ∅ (Some owner).

Definition with_coaches (cs : gmap uuid coach) (db : database) : database :=
  mkDatabase cs (members db) (member_visits db) (sessions db)
             (session_participants db) (payments db) (alerts db) (auth_role db).

Definition with_members (ms : gmap uuid member) (db : database) : database :=
  mkDatabase (coaches db) ms (member_visits db) (sessions db)
             (session_participants db) (payments db) (alerts db) (auth_role db).

Definition with_member_visits (vs : gmap uuid member_visit) (db : database) : database :=
  mkDatabase (coaches db) (members db) vs (sessions db)
             (session_participants db) (payments db) (alerts db) (auth_role db).

Definition with_sessions (ss : gmap uuid session) (db : database) : database :=
  mkDatabase (coaches db) (members db) (member_visits db) ss
             (session_participants db) (payments db) (alerts db) (auth_role db).

Definition with_session_participants (ps : gmap uuid session_participant)
    (db : database) : database :=
  mkDatabase (coaches db) (members db) (member_visits db) (sessions db)
             ps (payments db) (alerts db) (auth_role db).

(** The same tables on the connection of a user with another role. *)
Definition with_auth_role (r : option staff_role) (db : database) : database :=
  mkDatabase (coaches db) (members db) (member_visits db) (sessions db)
             (session_participants db) (payments db) (alerts db) r.

Definition with_payments (ps : gmap uuid payment) (db : database) : database :=
  mkDatabase (coaches db) (members db) (member_visits db) (sessions db)
             (session_participants db) ps (alerts db) (auth_role db).

(** Column assignments. *)
Definition set_c_client_count (n : option Z) (c : coach) : coach :=
  mkCoach (c_id c) (c_gym_id c) (c_name c) (c_is_active c) n (c_updated_at c).

Definition set_c_updated_at (t : timestamptz) (c : coach) : coach :=
  mkCoach (c_id c) (c_gym_id c) (c_name c) (c_is_active c) (c_client_count c) t.

Definition set_m_coach_id (c : option uuid) (m : member) : member :=
  mkMember (m_id m) (m_gym_id m) c (m_name m) (m_membership_type m)
           (m_monthly_fee m) (m_activity_status m) (m_last_visit m)
           (m_total_visits m) (m_updated_at m).

Definition set_m_activity_status (s : option activity_status) (m : member) : member :=
  mkMember (m_id m) (m_gym_id m) (m_coach_id m) (m_name m) (m_membership_type m)
           (m_monthly_fee m) s (m_last_visit m) (m_total_visits m) (m_updated_at m).

Definition set_m_last_visit (t : option timestamptz) (m : member) : member :=
  mkMember (m_id m) (m_gym_id m) (m_coach_id m) (m_name m) (m_membership_type m)
           (m_monthly_fee m) (m_activity_status m) t (m_total_visits m) (m_updated_at m).

Definition set_m_total_visits (n : option Z) (m : member) : member :=
  mkMember (m_id m) (m_gym_id m) (m_coach_id m) (m_name m) (m_membership_type m)
           (m_monthly_fee m) (m_activity_status m) (m_last_visit m) n (m_updated_at m).

Definition set_m_updated_at (t : timestamptz) (m : member) : member :=
  mkMember (m_id m) (m_gym_id m) (m_coach_id m) (m_name m) (m_membership_type m)
           (m_monthly_fee m) (m_activity_status m) (m_last_visit m)
           (m_total_visits m) t.

Definition set_s_member_id (x : option uuid) (s : session) : session :=
  mkSession (s_id s) (s_gym_id s) (s_coach_id s) x (s_start_time s) (s_status s)
            (s_max_participants s) (s_current_participants s) (s_updated_at s).

Definition set_s_current_participants (n : option Z) (s : session) : session :=
  mkSession (s_id s) (s_gym_id s) (s_coach_id s) (s_member_id s) (s_start_time s)
            (s_status s) (s_max_participants s) n (s_updated_at s).

Definition set_s_updated_at (t : timestamptz) (s : session) : session :=
  mkSession (s_id s) (s_gym_id s) (s_coach_id s) (s_member_id s) (s_start_time s)
            (s_status s) (s_max_participants s) (s_current_participants s) t.

(** *** Triggers *)

(** [update_updated_at], [BEFORE UPDATE] on coaches, members and sessions:
    [NEW.updated_at = NOW()]. *)
Definition update_coaches_updated_at (now : timestamptz) (NEW : coach) : coach :=
  set_c_updated_at now NEW.
Definition update_members_updated_at (now : timestamptz) (NEW : member) : member :=
  set_m_updated_at now NEW.
Definition update_sessions_updated_at (now : timestamptz) (NEW : session) : session :=
  set_s_updated_at now NEW.

(** The activity tier of [update_member_activity_status]:
    [CASE WHEN last_visit >= NOW() - INTERVAL '7 days' THEN 'active'
          WHEN last_visit >= NOW() - INTERVAL '30 days' THEN 'moderate'
          ELSE 'inactive' END]. *)
Definition activity_case (now : timestamptz) (last_visit : option timestamptz)
    : activity_status :=
  if holds (sql_ge last_visit (Some (now - INTERVAL_days 7))) then active
  else if holds (sql_ge last_visit (Some (now - INTERVAL_days 30))) then moderate
  else inactive.

(** [SELECT COUNT( * ) FROM members WHERE coach_id = c]: the comparison is
    true only of a row whose [coach_id] is not NULL and equals [c]. *)
Definition count_members_of_coach (c : uuid) (ms : gmap uuid member) : Z :=
  Z.of_nat (size (filter (λ kv : uuid * member, m_coach_id (kv.2) = Some c) ms)).

(** The policy ["Admins can manage coaches"], the only one for writing
    [coaches]: [USING (gym_id IN (SELECT gym_id FROM profiles
    WHERE id = auth.uid() AND role IN ('owner', 'admin', 'manager')))].  The
    gym is taken for granted (see the conventions); the role is not. *)
Definition may_manage_coaches (role : option staff_role) : bool :=
  match role with
  | Some owner | Some admin | Some manager => true
  | Some coach_role | Some receptionist | None => false
  end.

(** [UPDATE coaches SET client_count = (SELECT COUNT( * ) ...) WHERE id = c].
    A NULL [c] matches no row.  The trigger function that runs it is not
    [SECURITY DEFINER]: the statement runs as the caller, and for a caller
    the policy does not admit it matches no row either, without an error. *)
Definition UPDATE_coaches_client_count (now : timestamptz) (c : option uuid)
    (db : database) : database :=
  match c with
  | None => db
  | Some c =>
      if may_manage_coaches (auth_role db) then
        let n := count_members_of_coach c (members db) in
        with_coaches
          (alter (λ co, update_coaches_updated_at now (set_c_client_count (Some n) co))
                 c (coaches db))
          db
      else db
  end.

Inductive TG_OP := INSERT | UPDATE | DELETE.

#[global] Instance TG_OP_eq_dec : EqDecision TG_OP.
Proof. solve_decision. Defined.

(** A column of [OLD] or [NEW]; the record is NULL when the operation has
    none. *)
Definition coach_id_of (r : option member) : option uuid := r ≫= m_coach_id.

(** [update_coach_client_count], [AFTER INSERT OR UPDATE OR DELETE ON members
    FOR EACH ROW]. *)
Definition update_coach_client_count (now : timestamptz) (op : TG_OP)
    (OLD NEW : option member) (db : database) : database :=
  if bool_decide (op = INSERT) || bool_decide (op = UPDATE) then
    let db1 :=
      if holds (sql_is_not_null (coach_id_of NEW))
      then UPDATE_coaches_client_count now (coach_id_of NEW) db
      else db in
    if holds (sql_and (Some (bool_decide (op = UPDATE)))
               (sql_and (sql_is_not_null (coach_id_of OLD))
                        (sql_neq (coach_id_of OLD) (coach_id_of NEW))))
    then UPDATE_coaches_client_count now (coach_id_of OLD) db1
    else db1
  else if bool_decide (op = DELETE) then
    if holds (sql_is_not_null (coach_id_of OLD))
    then UPDATE_coaches_client_count now (coach_id_of OLD) db
    else db
  else db.

(** [INSERT INTO coaches VALUES (NEW)]; no trigger runs on it.  The policy
    is checked on the new row before the row is stored. *)
Definition INSERT_coach (NEW : coach) (db : database) : result database :=
  if negb (may_manage_coaches (auth_role db)) then Err insufficient_privilege
  else if bool_decide (is_Some (coaches db !! c_id NEW)) then Err unique_violation
  else Ok (with_coaches (<[c_id NEW := NEW]> (coaches db)) db).

(** *** Statements on [members] *)

(** The foreign key [members.coach_id REFERENCES coaches(id)]. *)
Definition coach_fk_ok (c : option uuid) (db : database) : bool :=
  match c with
  | None => true
  | Some c => bool_decide (is_Some (coaches db !! c))
  end.

(** [INSERT INTO members VALUES (NEW)]; the row trigger [update_coach_clients]
    runs after it. *)
Definition INSERT_member (now : timestamptz) (NEW : member) (db : database)
    : result database :=
  if bool_decide (is_Some (members db !! m_id NEW)) then Err unique_violation
  else if negb (coach_fk_ok (m_coach_id NEW) db) then Err foreign_key_violation
  else
    Ok (update_coach_client_count now INSERT None (Some NEW)
          (with_members (<[m_id NEW := NEW]> (members db)) db)).

(** [UPDATE members SET ... WHERE id = x], for assignments [set_] that leave
    [id] alone: [update_members_updated_at] runs before the row is written,
    [update_coach_clients] after.  The foreign key is checked when
    [coach_id] changes. *)
Definition UPDATE_members_by_id (now : timestamptz) (x : uuid)
    (set_ : member → result member) (db : database) : result database :=
  match members db !! x with
  | None => Ok db
  | Some OLD =>
      match set_ OLD with
      | Err e => Err e
      | Ok NEW0 =>
          let NEW := update_members_updated_at now NEW0 in
          if bool_decide (m_coach_id NEW ≠ m_coach_id OLD)
             && negb (coach_fk_ok (m_coach_id NEW) db)
          then Err foreign_key_violation
          else
            Ok (update_coach_client_count now UPDATE (Some OLD) (Some NEW)
                  (with_members (<[x := NEW]> (members db)) db))
      end
  end.

(** [UPDATE members SET coach_id = c WHERE id = x]. *)
Definition UPDATE_member_coach (now : timestamptz) (x : uuid) (c : option uuid)
    (db : database) : result database :=
  UPDATE_members_by_id now x (λ m, Ok (set_m_coach_id c m)) db.

(** [DELETE FROM members WHERE id = x].  Visits, participations and payments
    of the member go with it ([ON DELETE CASCADE]), its sessions keep a NULL
    [member_id] ([ON DELETE SET NULL]); [update_coach_clients] runs after. *)
Definition DELETE_member (now : timestamptz) (x : uuid) (db : database) : database :=
  match members db !! x with
  | None => db
  | Some OLD =>
      let db1 := with_members (delete x (members db)) db in
      let db2 :=
        with_member_visits
          (filter (λ kv : uuid * member_visit, v_member_id (kv.2) ≠ x) (member_visits db1))
          db1 in
      let db3 :=
        with_session_participants
          (filter (λ kv : uuid * session_participant, sp_member_id (kv.2) ≠ x)
                  (session_participants db2))
          db2 in
      let db4 :=
        with_payments
          (filter (λ kv : uuid * payment, p_member_id (kv.2) ≠ x) (payments db3)) db3 in
      let db5 :=
        with_sessions
          ((λ s, if bool_decide (s_member_id s = Some x)
                 then update_sessions_updated_at now (set_s_member_id None s)
                 else s) <$> sessions db4)
          db4 in
      update_coach_client_count now DELETE (Some OLD) None db5
  end.

(** *** Visits *)

(** [update_member_activity_status], [AFTER INSERT ON member_visits FOR EACH
    ROW]: [UPDATE members SET activity_status = CASE ... END
    WHERE id = NEW.member_id]. *)
Definition update_member_activity_status (now : timestamptz) (NEW : member_visit)
    (db : database) : result database :=
  UPDATE_members_by_id now (v_member_id NEW)
    (λ m, Ok (set_m_activity_status (Some (activity_case now (m_last_visit m))) m))
    db.

(** [INSERT INTO member_visits VALUES (NEW)], with its trigger
    [update_activity_on_visit]. *)
Definition INSERT_member_visit (now : timestamptz) (NEW : member_visit)
    (db : database) : result database :=
  if bool_decide (is_Some (member_visits db !! v_id NEW)) then Err unique_violation
  else if bool_decide (members db !! v_member_id NEW = None) then Err foreign_key_violation
  else
    update_member_activity_status now NEW
      (with_member_visits (<[v_id NEW := NEW]> (member_visits db)) db).

(** [increment_visits(member_uuid)]:
    [UPDATE members SET total_visits = total_visits + 1, last_visit = NOW()
     WHERE id = member_uuid RETURNING total_visits INTO new_count]. *)
Definition increment_visits (now : timestamptz) (member_uuid : uuid) (db : database)
    : result (database * option Z) :=
  match
    UPDATE_members_by_id now member_uuid
      (λ m, match int4_add (m_total_visits m) 1 with
            | Err e => Err e
            | Ok n => Ok (set_m_last_visit (Some now) (set_m_total_visits n m))
            end)
      db
  with
  | Err e => Err e
  | Ok db' => Ok (db', members db' !! member_uuid ≫= m_total_visits)
  end.

(** *** Session participants *)

(** [UPDATE sessions SET ... WHERE id = x], with [update_sessions_updated_at]. *)
Definition UPDATE_sessions_by_id (now : timestamptz) (x : uuid)
    (set_ : session → result session) (db : database) : result database :=
  match sessions db !! x with
  | None => Ok db
  | Some OLD =>
      match set_ OLD with
      | Err e => Err e
      | Ok NEW0 =>
          Ok (with_sessions
                (<[x := update_sessions_updated_at now NEW0]> (sessions db)) db)
      end
  end.

(** [increment_session_participants(session_uuid)]:
    [SET current_participants = current_participants + 1]. *)
Definition increment_session_participants (now : timestamptz) (session_uuid : uuid)
    (db : database) : result database :=
  UPDATE_sessions_by_id now session_uuid
    (λ s, match int4_add (s_current_participants s) 1 with
          | Err e => Err e
          | Ok n => Ok (set_s_current_participants n s)
          end)
    db.

(** [decrement_session_participants(session_uuid)]:
    [SET current_participants = GREATEST(0, current_participants - 1)]. *)
Definition decrement_session_participants (now : timestamptz) (session_uuid : uuid)
    (db : database) : result database :=
  UPDATE_sessions_by_id now session_uuid
    (λ s, match int4_sub (s_current_participants s) 1 with
          | Err e => Err e
          | Ok n => Ok (set_s_current_participants (GREATEST 0 n) s)
          end)
    db.

(** *** Alerts *)

Definition with_alerts (als : gmap uuid alert) (db : database) : database :=
  mkDatabase (coaches db) (members db) (member_visits db) (sessions db)
             (session_participants db) (payments db) als (auth_role db).

Definition set_a_is_read (b : option bool) (a : alert) : alert :=
  mkAlert (a_id a) (a_gym_id a) (a_title a) b (a_created_at a).

(** [UPDATE alerts SET is_read = true WHERE id = x]; no trigger is defined on
    [alerts]. *)
Definition UPDATE_alert_read (x : uuid) (db : database) : database :=
  with_alerts (alter (set_a_is_read (Some true)) x (alerts db)) db.

(** [UPDATE alerts SET is_read = true WHERE gym_id = g]. *)
Definition UPDATE_alerts_read_of_gym (g : uuid) (db : database) : database :=
  with_alerts
    ((λ a, if bool_decide (a_gym_id a = g) then set_a_is_read (Some true) a else a)
       <$> alerts db)
    db.

End Sql.

(* ===================================================================== *)
(** ** JavaScript [Date]                                                  *)
(* ===================================================================== *)

(** A [Date] is its time value: milliseconds since the epoch, UTC.  The
    local-time methods work on [t + tza], where [tza] is the offset of the
    local time zone in milliseconds, taken constant (a zone without
    daylight-saving changes over the period looked at). *)
Module JsDate.

Definition msPerDay : Z := 86400000.

Definition Day (t : Z) : Z := t `div` msPerDay.
Definition TimeWithinDay (t : Z) : Z := t `mod` msPerDay.
Definition MakeDate (day time : Z) : Z := day * msPerDay + time.

(** Day number of the civil date [y]-[m]-[d] ([m] from 1 to 12) in the
    proleptic Gregorian calendar, day 0 being 1970-01-01. *)
Definition days_from_civil (y m d : Z) : Z :=
  let y' := if m <=? 2 then y - 1 else y in
  let era := y' `div` 400 in
  let yoe := y' - era * 400 in
  let mp := if 2 <? m then m - 3 else m + 9 in
  let doy := (153 * mp + 2) `div` 5 + d - 1 in
  let doe := yoe * 365 + yoe `div` 4 - yoe `div` 100 + doy in
  era * 146097 + doe - 719468.

(** The civil date (year, month from 1 to 12, day of month) of a day number,
    from the day of the 400-year era [doe]. *)
Definition civil_of_doe (era doe : Z) : Z * Z * Z :=
  let yoe := (doe - doe `div` 1460 + doe `div` 36524 - doe `div` 146096) `div` 365 in
  let y := yoe + era * 400 in
  let doy := doe - (365 * yoe + yoe `div` 4 - yoe `div` 100) in
  let mp := (5 * doy + 2) `div` 153 in
  let d := doy - (153 * mp + 2) `div` 5 + 1 in
  let m := if mp <? 10 then mp + 3 else mp - 9 in
  (if m <=? 2 then y + 1 else y, m, d).

Definition civil_from_days (z : Z) : Z * Z * Z :=
  let z' := z + 719468 in
  civil_of_doe (z' `div` 146097) (z' `mod` 146097).

Definition YearFromTime (t : Z) : Z := (civil_from_days (Day t)).1.1.
(** Months count from 0. *)
Definition MonthFromTime (t : Z) : Z := (civil_from_days (Day t)).1.2 - 1.
Definition DateFromTime (t : Z) : Z := (civil_from_days (Day t)).2.

(** [MakeDay(year, month, date)]: [month] may lie outside 0..11 and [date]
    outside the month; both carry over. *)
Definition MakeDay (year month date : Z) : Z :=
  let ym := year + month `div` 12 in
  let mn := month `mod` 12 in
  days_from_civil ym (mn + 1) 1 + date - 1.

(** Local time and back, for a zone whose offset [tza] from UTC is the same
    at every instant.  Where the offset changes with daylight saving, [Date]
    takes the offset in force at the instant converted; a result stated
    with [tza] below is a result for a zone without such changes. *)
Definition LocalTime (tza t : Z) : Z := t + tza.
Definition UTC (tza t : Z) : Z := t - tza.

Definition getFullYear (tza t : Z) : Z := YearFromTime (LocalTime tza t).
Definition getMonth (tza t : Z) : Z := MonthFromTime (LocalTime tza t).
Definition getDate (tza t : Z) : Z := DateFromTime (LocalTime tza t).

(** [d.setDate(date)] *)
Definition setDate (tza date t : Z) : Z :=
  let lt := LocalTime tza t in
  UTC tza (MakeDate (MakeDay (YearFromTime lt) (MonthFromTime lt) date)
                    (TimeWithinDay lt)).

(** [d.setMonth(month)] *)
Definition setMonth (tza month t : Z) : Z :=
  let lt := LocalTime tza t in
  UTC tza (MakeDate (MakeDay (YearFromTime lt) month (DateFromTime lt))
                    (TimeWithinDay lt)).

(** [d.setHours(0, 0, 0, 0)] *)
Definition setHours0 (tza t : Z) : Z :=
  let lt := LocalTime tza t in
  UTC tza (MakeDate (Day lt) 0).

(** [new Date(s)] for the ISO text of a [TIMESTAMPTZ]: the microseconds
    below the millisecond are dropped. *)
Definition Date_of_timestamptz (us : Z) : Z := us `div` 1000.

(** [d.toISOString()] read back by the database as a [TIMESTAMPTZ]. *)
Definition timestamptz_of_Date (ms : Z) : Z := ms * 1000.

(** [String(n)] for an integer. *)
Definition String_of (n : Z) : string := pretty n.

(** [s.padStart(2, '0')] *)
Definition padStart2 (s : string) : string :=
  match String.length s with
  | O => "00"
  | S O => "0" +:+ s
  | _ => s
  end.

Definition msPerHour : Z := 3600000.

(** [d.getHours()] *)
Definition getHours (tza t : Z) : Z := TimeWithinDay (LocalTime tza t) `div` msPerHour.

(** [new Date(s)] for a timestamp or null; [new Date(null)] is the epoch. *)
Definition Date_of_nullable (s : option Z) : Z :=
  match s with
  | Some us => Date_of_timestamptz us
  | None => 0
  end.

End JsDate.

(* ===================================================================== *)
(** ** JavaScript numbers                                                 *)
(* ===================================================================== *)

Module JsNumber.

(** A number is an IEEE 754 binary64 value; there is one NaN. *)
Definition number : Type := spec_float.

Definition prec : Z := 53.
Definition emax : Z := 1024.

(** [0] *)
Definition zero : number := S754_zero false.

(** [x + y], rounded to nearest, ties to even. *)
Definition add (x y : number) : number := SFadd prec emax x y.

(** The number nearest to an integer. *)
Definition of_Z (z : Z) : number := binary_normalize prec emax z 0 false.

(** The number that [JSON.parse] makes of a [DECIMAL(10,2)] column of [cents]
    hundredths, which PostgREST writes as a numeral with two decimals: the
    number nearest to [cents / 100].  The column keeps [cents] below 10^10 in
    absolute value, so [cents] and 100 are numbers and their quotient is
    rounded once. *)
Definition of_decimal (cents : Z) : number := SFdiv prec emax (of_Z cents) (of_Z 100).

(** [ToBoolean]: [0], [-0] and [NaN] are falsy. *)
Definition truthy (x : number) : bool :=
  match x with
  | S754_zero _ | S754_nan => false
  | S754_infinity _ | S754_finite _ _ _ => true
  end.

End JsNumber.

(* ===================================================================== *)
(** ** The Supabase client                                                *)
(* ===================================================================== *)

Module Supabase.
Import Sql JsNumber.

(** What awaiting a query yields: a failed request is reported in [error],
    with [data] null; the awaited query itself does not throw. *)
Record response (A : Type) := mkResponse {
  data : option A;
  error : option failure
}.
Arguments mkResponse {A} data error.
Arguments data {A} r.
Arguments error {A} r.

(** A settled promise. *)
Inductive promise (A : Type) :=
  | Fulfilled (a : A)
  | Rejected (e : failure).
Arguments Fulfilled {A} a.
Arguments Rejected {A} e.

(** The rows of a table, in the order the server returns them.  Without an
    [ORDER BY] that order is the server's choice: the model takes the order
    of the map, and a sum of numbers is stated over the rows in the order
    read. *)
Definition rows {A} (t : gmap uuid A) : list A := (map_to_list t).*2.

(** [await supabase.from(table).select(...)...]: the rows asked for, or the
    failure of the request. *)
Definition select {A} (fault : option failure) (rs : list A) : response (list A) :=
  match fault with
  | Some e => mkResponse None (Some e)
  | None => mkResponse (Some rs) None
  end.

(** [supabase.rpc(fn, args)] builds a request; nothing is sent until the
    builder is awaited. *)
Inductive rpc_builder :=
  | Rpc (fn : string) (args : list (string * string)).

(** Values of the properties of an object passed to [update]. *)
Inductive jsval :=
  | JNull
  | JNumber (n : Z)
  | JString (s : string)
  (** [d.toISOString()] of the time value [ms] *)
  | JIsoString (ms : Z)
  (** a request builder, serialised as the JSON object of its properties *)
  | JBuilder (b : rpc_builder).

(** Awaiting an [rpc] builder: the server looks the function up by its name
    and by the names of the arguments sent. *)
Definition await_rpc (now : timestamptz) (b : rpc_builder) (db : database)
    : database * response jsval :=
  match b with
  | Rpc fn [(arg, x)] =>
      if bool_decide (fn = "increment_visits" ∧ arg = "member_uuid") then
        match increment_visits now x db with
        | Ok (db', Some n) => (db', mkResponse (Some (JNumber n)) None)
        | Ok (db', None) => (db', mkResponse (Some JNull) None)
        | Err e => (db, mkResponse None (Some e))
        end
      else if bool_decide (fn = "increment_session_participants" ∧ arg = "session_uuid") then
        match increment_session_participants now x db with
        | Ok db' => (db', mkResponse (Some JNull) None)
        | Err e => (db, mkResponse None (Some e))
        end
      else if bool_decide (fn = "decrement_session_participants" ∧ arg = "session_uuid") then
        match decrement_session_participants now x db with
        | Ok db' => (db', mkResponse (Some JNull) None)
        | Err e => (db, mkResponse None (Some e))
        end
      else (db, mkResponse None (Some undefined_function))
  | Rpc _ _ => (db, mkResponse None (Some undefined_function))
  end.

(** One property of an [update] payload for [members], converted to the type
    of its column. *)
Definition assign_member_column (col : string) (v : jsval) (m : member)
    : result member :=
  if bool_decide (col = "last_visit") then
    match v with
    | JNull => Ok (set_m_last_visit None m)
    | JIsoString ms => Ok (set_m_last_visit (Some (JsDate.timestamptz_of_Date ms)) m)
    | _ => Err invalid_text_representation
    end
  else if bool_decide (col = "total_visits") then
    match v with
    | JNull => Ok (set_m_total_visits None m)
    | JNumber n =>
        match int4 n with
        | Ok n => Ok (set_m_total_visits (Some n) m)
        | Err e => Err e
        end
    | _ => Err invalid_text_representation
    end
  else if bool_decide (col = "updated_at") then
    match v with
    | JIsoString ms => Ok (set_m_updated_at (JsDate.timestamptz_of_Date ms) m)
    | _ => Err invalid_text_representation
    end
  else if bool_decide (col = "coach_id") then
    match v with
    | JNull => Ok (set_m_coach_id None m)
    | JString c => Ok (set_m_coach_id (Some c) m)
    | _ => Err invalid_text_representation
    end
  else Err undefined_column.

Fixpoint assign_member_columns (payload : list (string * jsval)) (m : member)
    : result member :=
  match payload with
  | [] => Ok m
  | (col, v) :: payload =>
      match assign_member_column col v m with
      | Err e => Err e
      | Ok m' => assign_member_columns payload m'
      end
  end.

(** [await supabase.from('members').update(payload).eq('id', x)]: one
    [UPDATE] statement; when it fails nothing is written. *)
Definition update_members (now : timestamptz) (payload : list (string * jsval))
    (x : uuid) (db : database) : database * response unit :=
  match UPDATE_members_by_id now x (assign_member_columns payload) db with
  | Ok db' => (db', mkResponse None None)
  | Err e => (db, mkResponse None (Some e))
  end.

(** [Promise.all] of five settled promises: rejected as soon as one of them
    is (here: with the reason of the leftmost rejected one). *)
Definition Promise_all5 {A B C D E} (a : promise A) (b : promise B) (c : promise C)
    (d : promise D) (e : promise E) : promise (A * B * C * D * E) :=
  match a, b, c, d, e with
  | Fulfilled a, Fulfilled b, Fulfilled c, Fulfilled d, Fulfilled e =>
      Fulfilled (a, b, c, d, e)
  | Rejected r, _, _, _, _ => Rejected r
  | _, Rejected r, _, _, _ => Rejected r
  | _, _, Rejected r, _, _ => Rejected r
  | _, _, _, Rejected r, _ => Rejected r
  | _, _, _, _, Rejected r => Rejected r
  end.

(** [x || 0] for a count or undefined: the counts are integers far below
    2^53, on which the numbers are exact. *)
Definition or_0 (x : option Z) : Z :=
  match x with
  | None => 0
  | Some n => if bool_decide (n = 0) then 0 else n
  end.

(** [x || 0] for a number, null or undefined. *)
Definition number_or_0 (x : option number) : number :=
  match x with
  | None => zero
  | Some n => if truthy n then n else zero
  end.

(** [xs.reduce((sum, x) => sum + f(x), 0)] *)
Definition reduce_sum {A} (f : A → number) (xs : list A) : number :=
  fold_left (λ sum x, add sum (f x)) xs zero.

(** [xs.length] *)
Definition length_of {A} (xs : list A) : Z := Z.of_nat (length xs).

End Supabase.

(* ===================================================================== *)
(** ** The services of the web client                                     *)
(* ===================================================================== *)

Module paymentsService.
Import Sql JsNumber Supabase JsDate.

Record stats := mkStats {
  revenueThisMonth : number;
  pendingAmount : number;
  overdueAmount : number;
  totalPaid : number
}.

(** [const startOfMonth = new Date(); startOfMonth.setDate(1);
     startOfMonth.setHours(0, 0, 0, 0)] *)
Definition startOfMonth (tza now : Z) : Z := setHours0 tza (setDate tza 1 now).

(** [p.status === st] *)
Definition has_status (st : payment_status) (p : payment) : bool :=
  bool_decide (p_status p = Some st).

(** [p.status === 'paid' && p.paid_date && new Date(p.paid_date) >= start] *)
Definition paid_since (start : Z) (p : payment) : bool :=
  has_status paid p &&
  match p_paid_date p with
  | None => false
  | Some d => bool_decide (start ≤ Date_of_timestamptz d)
  end.

(** [p.amount || 0] *)
Definition amount_or_0 (p : payment) : number :=
  number_or_0 (Some (of_decimal (p_amount p))).

(** [.from('payments').select('amount, status, paid_date').eq('gym_id', gymId)] *)
Definition payments_of_gym (gymId : uuid) (db : database) : list payment :=
  List.filter (λ p, bool_decide (p_gym_id p = gymId)) (rows (payments db)).

Definition stats_of (start : Z) (allPayments : list payment) : stats :=
  let thisMonthPaid := reduce_sum amount_or_0 (List.filter (paid_since start) allPayments) in
  let pending := reduce_sum amount_or_0 (List.filter (has_status Sql.pending) allPayments) in
  let overdue := reduce_sum amount_or_0 (List.filter (has_status Sql.overdue) allPayments) in
  mkStats thisMonthPaid pending overdue
          (reduce_sum amount_or_0 (List.filter (has_status paid) allPayments)).

Definition getStats (tza now : Z) (fault : option failure) (gymId : uuid)
    (db : database) : promise stats :=
  let startOfMonth := startOfMonth tza now in
  let r := select fault (payments_of_gym gymId db) in
  match error r with
  | Some e => Rejected e
  | None =>
      match data r with
      | None => Rejected TypeError
      | Some allPayments => Fulfilled (stats_of startOfMonth allPayments)
      end
  end.

(** The key of a month:
    [`${date.getFullYear()}-${String(date.getMonth() + 1).padStart(2, '0')}`] *)
Definition month_key (tza date : Z) : string :=
  String_of (getFullYear tza date) +:+ "-" +:+ padStart2 (String_of (getMonth tza date + 1)).

(** The body of the [forEach] of [getRevenueByMonth]. *)
Definition add_to_month (tza : Z) (revenueByMonth : gmap string number)
    (payment : Sql.payment) : gmap string number :=
  match p_paid_date payment with
  | None => revenueByMonth
  | Some d =>
      let date := Date_of_timestamptz d in
      let key := month_key tza date in
      <[key := add (number_or_0 (revenueByMonth !! key)) (amount_or_0 payment)]>
        revenueByMonth
  end.

Definition group_by_month (tza : Z) (data : list payment) : gmap string number :=
  fold_left (add_to_month tza) data ∅.

(** [ORDER BY paid_date ASC]: NULLs last. *)
Definition paid_date_asc (a b : payment) : Prop :=
  match p_paid_date a, p_paid_date b with
  | Some x, Some y => x ≤ y
  | _, None => True
  | None, Some _ => False
  end.

#[global] Instance paid_date_asc_dec a b : Decision (paid_date_asc a b).
Proof. unfold paid_date_asc. destruct (p_paid_date a), (p_paid_date b); apply _. Defined.

(** [.select('amount, paid_date').eq('gym_id', gymId).eq('status', 'paid')
     .gte('paid_date', startDate.toISOString()).order('paid_date', ...)] *)
Definition paid_payments_since (startDate : Z) (gymId : uuid) (db : database)
    : list payment :=
  merge_sort paid_date_asc
    (List.filter
       (λ p, bool_decide (p_gym_id p = gymId)
             && has_status paid p
             && holds (sql_ge (p_paid_date p) (Some (timestamptz_of_Date startDate))))
       (rows (payments db))).

Definition getRevenueByMonth (tza now : Z) (fault : option failure) (gymId : uuid)
    (months : Z) (db : database) : promise (gmap string number) :=
  let startDate :=
    setHours0 tza (setDate tza 1 (setMonth tza (getMonth tza now - months) now)) in
  let r := select fault (paid_payments_since startDate gymId db) in
  match error r with
  | Some e => Rejected e
  | None =>
      match data r with
      | None => Rejected TypeError
      | Some data => Fulfilled (group_by_month tza data)
      end
  end.

End paymentsService.

Module membersService.
Import Sql Supabase JsDate.

(** What [checkIn] reads from its surroundings: the id the database gives the
    new visit, the three readings of the browser clock ([new Date()]), and
    [NOW()] in the two statements it sends. *)
Record checkIn_env := mkCheckInEnv {
  visit_id : uuid;
  date_check_in : Z;
  date_last_visit : Z;
  date_updated_at : Z;
  now_insert : timestamptz;
  now_update : timestamptz
}.

(** The object passed to [update] by [checkIn].  [total_visits] holds the
    builder returned by [supabase.rpc], which is not awaited. *)
Definition checkIn_payload (env : checkIn_env) (memberId : uuid)
    : list (string * jsval) :=
  [ ("last_visit", JIsoString (date_last_visit env));
    ("total_visits", JBuilder (Rpc "increment_visits" [("member_id", memberId)]));
    ("updated_at", JIsoString (date_updated_at env)) ].

Definition checkIn (env : checkIn_env) (memberId gymId : uuid) (db : database)
    : database * promise member_visit :=
  let NEW :=
    mkVisit (visit_id env) memberId gymId
            (Some (timestamptz_of_Date (date_check_in env))) None in
  match INSERT_member_visit (now_insert env) NEW db with
  | Err error => (db, Rejected error)
  | Ok db1 =>
      let data := NEW in
      (* Update member's last_visit and total_visits *)
      let '(db2, _) :=
        update_members (now_update env) (checkIn_payload env memberId) memberId db1 in
      (db2, Fulfilled data)
  end.

(** The result of [getStats]; [n_total] is its [total], [n_active] its
    [active] and so on, [by_basic] is [byMembership.basic] and so on. *)
Record member_stats := mkMemberStats {
  n_total : Z;
  n_active : Z;
  n_moderate : Z;
  n_inactive : Z;
  by_basic : Z;
  by_premium : Z;
  by_vip : Z;
  by_trial : Z
}.

(** [m.activity_status === st] and [m.membership_type === ty] *)
Definition has_activity (st : activity_status) (m : member) : bool :=
  bool_decide (m_activity_status m = Some st).
Definition has_membership (ty : membership_type) (m : member) : bool :=
  bool_decide (m_membership_type m = Some ty).

Definition stats_of (data : list member) : member_stats :=
  mkMemberStats
    (length_of data)
    (length_of (List.filter (has_activity active) data))
    (length_of (List.filter (has_activity moderate) data))
    (length_of (List.filter (has_activity inactive) data))
    (length_of (List.filter (has_membership basic) data))
    (length_of (List.filter (has_membership premium) data))
    (length_of (List.filter (has_membership vip) data))
    (length_of (List.filter (has_membership trial) data)).

Definition getStats (fault : option failure) (gymId : uuid) (db : database)
    : promise member_stats :=
  let r :=
    select fault (List.filter (λ m, bool_decide (m_gym_id m = gymId)) (rows (members db))) in
  match error r with
  | Some e => Rejected e
  | None =>
      match data r with
      | None => Rejected TypeError
      | Some data => Fulfilled (stats_of data)
      end
  end.

End membersService.

Module sessionsService.
Import Sql Supabase.

Definition addParticipant (now : timestamptz) (participant_id : uuid)
    (sessionId memberId : uuid) (db : database)
    : database * promise session_participant :=
  let NEW := mkParticipant participant_id sessionId memberId (Some false) in
  if bool_decide (is_Some (session_participants db !! participant_id))
     || bool_decide (Exists (λ sp, sp_session_id sp = sessionId ∧ sp_member_id sp = memberId)
                            (rows (session_participants db)))
  then (db, Rejected unique_violation)
  else if bool_decide (sessions db !! sessionId = None)
          || bool_decide (members db !! memberId = None)
  then (db, Rejected foreign_key_violation)
  else
    let db1 :=
      with_session_participants (<[participant_id := NEW]> (session_participants db)) db in
    (* Increment participant count *)
    let '(db2, _) :=
      await_rpc now (Rpc "increment_session_participants" [("session_id", sessionId)]) db1 in
    (db2, Fulfilled NEW).

Definition removeParticipant (now : timestamptz) (fault : option failure)
    (sessionId memberId : uuid) (db : database) : database * promise unit :=
  match fault with
  | Some error => (db, Rejected error)
  | None =>
      let db1 :=
        with_session_participants
          (filter (λ kv : uuid * session_participant,
                     ¬ (sp_session_id (kv.2) = sessionId ∧ sp_member_id (kv.2) = memberId))
                  (session_participants db))
          db in
      (* Decrement participant count *)
      let '(db2, _) :=
        await_rpc now (Rpc "decrement_session_participants" [("session_id", sessionId)]) db1 in
      (db2, Fulfilled ())
  end.

(** [ORDER BY start_time ASC] *)
Definition start_time_asc (a b : session) : Prop := s_start_time a ≤ s_start_time b.

#[global] Instance start_time_asc_dec a b : Decision (start_time_asc a b).
Proof. unfold start_time_asc. apply _. Defined.

(** [const today = new Date(); today.setHours(0, 0, 0, 0)] *)
Definition today (tza now : Z) : Z := JsDate.setHours0 tza now.

(** [const tomorrow = new Date(today); tomorrow.setDate(tomorrow.getDate() + 1)] *)
Definition tomorrow (tza now : Z) : Z :=
  JsDate.setDate tza (JsDate.getDate tza (today tza now) + 1) (today tza now).

(** [.eq('gym_id', gymId).gte('start_time', today.toISOString())
     .lt('start_time', tomorrow.toISOString()).order('start_time', ...)] *)
Definition sessions_of_today (tza now : Z) (gymId : uuid) (db : database) : list session :=
  merge_sort start_time_asc
    (List.filter
       (λ s, bool_decide (s_gym_id s = gymId)
             && bool_decide (JsDate.timestamptz_of_Date (today tza now) ≤ s_start_time s)
             && bool_decide (s_start_time s < JsDate.timestamptz_of_Date (tomorrow tza now)))
       (rows (sessions db))).

Definition getTodaySessions (tza now : Z) (fault : option failure) (gymId : uuid)
    (db : database) : promise (option (list session)) :=
  let r := select fault (sessions_of_today tza now gymId db) in
  match error r with
  | Some e => Rejected e
  | None => Fulfilled (data r)
  end.

(** [.eq('gym_id', gymId).eq('status', 'scheduled')
     .gte('start_time', new Date().toISOString())
     .order('start_time', { ascending: true }).limit(limit)] *)
Definition upcoming_sessions (now : Z) (gymId : uuid) (limit : nat) (db : database)
    : list session :=
  take limit
    (merge_sort start_time_asc
       (List.filter
          (λ s, bool_decide (s_gym_id s = gymId)
                && bool_decide (s_status s = Some scheduled)
                && bool_decide (JsDate.timestamptz_of_Date now ≤ s_start_time s))
          (rows (sessions db)))).

(** [getUpcoming(gymId, limit = 10)]; [limit] is a count of rows. *)
Definition getUpcoming (now : Z) (fault : option failure) (gymId : uuid) (limit : nat)
    (db : database) : promise (option (list session)) :=
  let r := select fault (upcoming_sessions now gymId limit db) in
  match error r with
  | Some e => Rejected e
  | None => Fulfilled (data r)
  end.

End sessionsService.

Module dashboardService.
Import Sql JsNumber Supabase JsDate.

Record overview := mkOverview {
  totalMembers : Z;
  activeMembers : Z;
  moderateMembers : Z;
  inactiveMembers : Z;
  totalCoaches : Z;
  activeCoaches : Z;
  mrr : number;
  revenueThisMonth : number;
  pendingPayments : Z;
  overduePayments : Z;
  overdueAmount : number;
  todaySessionsCount : Z;
  totalSessions : Z;
  alerts : list alert
}.

(** The five results [Promise.all] waits for. *)
Record reads := mkReads {
  read_members : promise (response (list member));
  read_coaches : promise (response (list coach));
  read_payments : promise (response (list payment));
  read_sessions : promise (response (list session));
  read_alerts : promise (response (list alert))
}.

(** [m.activity_status === st] *)
Definition has_activity (st : activity_status) (m : member) : bool :=
  bool_decide (m_activity_status m = Some st).

(** [c.is_active] as a condition *)
Definition is_active (c : coach) : bool :=
  match c_is_active c with
  | Some true => true
  | _ => false
  end.

(** [m.monthly_fee || 0] *)
Definition monthly_fee_or_0 (m : member) : number :=
  number_or_0 (of_decimal <$> m_monthly_fee m).

(** What [getOverview] computes once the five reads have settled. *)
Definition compose (tza now_month now_today : Z)
    (members : response (list member)) (coaches : response (list coach))
    (payments : response (list payment)) (sessions : response (list session))
    (alerts : response (list alert)) : overview :=
  let startOfMonth := paymentsService.startOfMonth tza now_month in
  let membersData := default [] (data members) in
  let coachesData := default [] (data coaches) in
  let paymentsData := default [] (data payments) in
  let sessionsData := default [] (data sessions) in
  (* Calculate MRR *)
  let mrr := reduce_sum monthly_fee_or_0 membersData in
  (* Calculate revenue this month *)
  let revenueThisMonth :=
    reduce_sum paymentsService.amount_or_0
      (List.filter (paymentsService.paid_since startOfMonth) paymentsData) in
  (* Today's sessions *)
  let today := setHours0 tza now_today in
  let tomorrow := setDate tza (getDate tza today + 1) today in
  let todaySessions :=
    List.filter
      (λ s, let startTime := Date_of_timestamptz (s_start_time s) in
            bool_decide (today ≤ startTime) && bool_decide (startTime < tomorrow))
      sessionsData in
  mkOverview
    (length_of membersData)
    (length_of (List.filter (has_activity active) membersData))
    (length_of (List.filter (has_activity moderate) membersData))
    (length_of (List.filter (has_activity inactive) membersData))
    (length_of coachesData)
    (length_of (List.filter is_active coachesData))
    mrr
    revenueThisMonth
    (length_of (List.filter (paymentsService.has_status pending) paymentsData))
    (length_of (List.filter (paymentsService.has_status overdue) paymentsData))
    (reduce_sum paymentsService.amount_or_0
       (List.filter (paymentsService.has_status overdue) paymentsData))
    (length_of todaySessions)
    (length_of sessionsData)
    (default [] (data alerts)).

Definition getOverview_of (tza now_month now_today : Z) (rs : reads) : promise overview :=
  match
    Promise_all5 (read_members rs) (read_coaches rs) (read_payments rs)
                 (read_sessions rs) (read_alerts rs)
  with
  | Rejected e => Rejected e
  | Fulfilled (members, coaches, payments, sessions, alerts) =>
      Fulfilled (compose tza now_month now_today members coaches payments sessions alerts)
  end.

(** Which of the five requests fail, and with what. *)
Record faults := mkFaults {
  fault_members : option failure;
  fault_coaches : option failure;
  fault_payments : option failure;
  fault_sessions : option failure;
  fault_alerts : option failure
}.

Definition no_fault : faults := mkFaults None None None None None.

(** [ORDER BY created_at DESC] *)
Definition created_at_desc (a b : alert) : Prop := a_created_at b ≤ a_created_at a.

#[global] Instance created_at_desc_dec a b : Decision (created_at_desc a b).
Proof. unfold created_at_desc. apply _. Defined.

(** [.from('alerts').select('*').eq('gym_id', gymId).eq('is_read', false)
     .order('created_at', { ascending: false }).limit(5)] *)
Definition unread_alerts (gymId : uuid) (db : database) : list alert :=
  take 5
    (merge_sort created_at_desc
       (List.filter (λ a, bool_decide (a_gym_id a = gymId)
                          && bool_decide (a_is_read a = Some false))
                    (rows (Sql.alerts db)))).

(** The five queries of [getOverview] against the database; an awaited query
    is always fulfilled, with its failure in [error]. *)
Definition queries (fs : faults) (gymId : uuid) (db : database) : reads :=
  mkReads
    (Fulfilled (select (fault_members fs)
       (List.filter (λ m, bool_decide (m_gym_id m = gymId)) (rows (members db)))))
    (Fulfilled (select (fault_coaches fs)
       (List.filter (λ c, bool_decide (c_gym_id c = gymId)) (rows (coaches db)))))
    (Fulfilled (select (fault_payments fs) (paymentsService.payments_of_gym gymId db)))
    (Fulfilled (select (fault_sessions fs)
       (List.filter (λ s, bool_decide (s_gym_id s = gymId)) (rows (sessions db)))))
    (Fulfilled (select (fault_alerts fs) (unread_alerts gymId db))).

Definition getOverview (tza now_month now_today : Z) (fs : faults) (gymId : uuid)
    (db : database) : promise overview :=
  getOverview_of tza now_month now_today (queries fs gymId db).

(** [getUpcomingSessions(gymId, limit = 5)]: the query of
    [sessionsService.getUpcoming]. *)
Definition getUpcomingSessions (now : Z) (fault : option failure) (gymId : uuid)
    (limit : nat) (db : database) : promise (option (list session)) :=
  let r := select fault (sessionsService.upcoming_sessions now gymId limit db) in
  match error r with
  | Some e => Rejected e
  | None => Fulfilled (data r)
  end.

(** One element of the result of [getOccupancyData]. *)
Record occupancy := mkOccupancy {
  hour : string;
  visits : Z
}.

(** [Math.round(a / b)] for integers [a ≥ 0] and [b > 0]: the quotient
    rounded to the nearest integer, a half going up.  (For [b = 7] the
    quotient is never closer than 1/14 to a half, so rounding the floating
    quotient gives the same integer.) *)
Definition Math_round_quotient (a b : Z) : Z := (2 * a + b) `div` (2 * b).

(** [hourlyData]: the counters of the hours 6 to 22, in the order in which
    [Object.entries] lists them (the order of insertion, which is also the
    ascending order of the keys). *)
Definition hourlyData_init : list (Z * Z) := (λ i, (i, 0)) <$> seqZ 6 17.

(** The body of the [forEach] of [getOccupancyData]. *)
Definition count_visit (tza : Z) (hourlyData : list (Z * Z)) (visit : member_visit)
    : list (Z * Z) :=
  let hour := getHours tza (Date_of_nullable (v_check_in visit)) in
  if bool_decide (6 ≤ hour) && bool_decide (hour ≤ 22)
  then (λ kc : Z * Z, if bool_decide (kc.1 = hour) then (kc.1, kc.2 + 1) else kc)
         <$> hourlyData
  else hourlyData.

(** [.from('member_visits').select('check_in').eq('gym_id', gymId)
     .gte('check_in', weekAgo.toISOString())] *)
Definition visits_since (weekAgo : Z) (gymId : uuid) (db : database) : list member_visit :=
  List.filter
    (λ v, bool_decide (v_gym_id v = gymId)
          && holds (sql_ge (v_check_in v) (Some (timestamptz_of_Date weekAgo))))
    (rows (member_visits db)).

Definition occupancy_of (tza : Z) (data : list member_visit) : list occupancy :=
  (λ kc : Z * Z, mkOccupancy (String_of kc.1 +:+ ":00") (Math_round_quotient kc.2 7))
    <$> fold_left (count_visit tza) data hourlyData_init.

Definition getOccupancyData (tza now : Z) (fault : option failure) (gymId : uuid)
    (db : database) : promise (list occupancy) :=
  let today := setHours0 tza now in
  (* Get visits for the last 7 days *)
  let weekAgo := setDate tza (getDate tza today - 7) today in
  let r := select fault (visits_since weekAgo gymId db) in
  match error r with
  | Some e => Rejected e
  | None =>
      match data r with
      | None => Rejected TypeError
      | Some data => Fulfilled (occupancy_of tza data)
      end
  end.

(** [markAlertAsRead(alertId)] *)
Definition markAlertAsRead (fault : option failure) (alertId : uuid) (db : database)
    : database * promise unit :=
  match fault with
  | Some error => (db, Rejected error)
  | None => (UPDATE_alert_read alertId db, Fulfilled ())
  end.

(** [dismissAllAlerts(gymId)] *)
Definition dismissAllAlerts (fault : option failure) (gymId : uuid) (db : database)
    : database * promise unit :=
  match fault with
  | Some error => (db, Rejected error)
  | None => (UPDATE_alerts_read_of_gym gymId db, Fulfilled ())
  end.

End dashboardService.

(* ===================================================================== *)
(** ** The analytics page: [AnalyticsReports.tsx]                         *)
(* ===================================================================== *)

Module AnalyticsReports.
Import Sql Supabase dashboardService.

(** The peak time of the quick stats, from the result of
    [getOccupancyData]:
    [occupancyData.reduce((max, d) => (d.visits > max.visits ? d : max),
                          { hour: "18:00", visits: 0 })] *)
Definition peakHour (occupancyData : list occupancy) : occupancy :=
  fold_left (λ max d, if bool_decide (visits max < visits d) then d else max)
            occupancyData (mkOccupancy "18:00" 0).

(** One entry of the membership pie chart. *)
Record slice := mkSlice {
  name : string;
  value : Z
}.

(** [m.membership_type] as the key of an object: the text of the type, and
    ["null"] for null. *)
Definition type_key (t : option membership_type) : string :=
  match t with
  | Some basic => "basic"
  | Some premium => "premium"
  | Some vip => "vip"
  | Some trial => "trial"
  | None => "null"
  end.

(** [counts[k] = (counts[k] || 0) + 1] on an object whose keys are kept in
    the order in which they were added, the order of [Object.entries]. *)
Fixpoint bump (k : string) (counts : list (string * Z)) : list (string * Z) :=
  match counts with
  | [] => [(k, or_0 None + 1)]
  | (k', n) :: counts' =>
      if bool_decide (k' = k) then (k', or_0 (Some n) + 1) :: counts'
      else (k', n) :: bump k counts'
  end.

(** [labels[type] || type] *)
Definition label (type : string) : string :=
  if bool_decide (type = "basic") then "Basic"
  else if bool_decide (type = "premium") then "Premium"
  else if bool_decide (type = "vip") then "VIP"
  else if bool_decide (type = "trial") then "Trial"
  else type.

(** The membership distribution, from the list of the members. *)
Definition membershipData (members : list Sql.member) : list slice :=
  let counts :=
    fold_left (λ counts m, bump (type_key (Sql.m_membership_type m)) counts) members [] in
  (λ tc : string * Z, mkSlice (label tc.1) tc.2) <$> counts.

End AnalyticsReports.

(* ===================================================================== *)
(** ** Stated properties and sample data                                  *)
(* ===================================================================== *)

Module Spec.
Import Sql JsNumber Supabase JsDate.

(** The sum of [f] over a list of rows, for counts. *)
Definition sum_of {A} (f : A → Z) (xs : list A) : Z :=
  foldr (λ x acc, f x + acc) 0 xs.

(** The numbers [xs] added to [acc], one after the other in the order of the
    list, each addition rounded. *)
Fixpoint add_in_order (acc : number) (xs : list number) : number :=
  match xs with
  | [] => acc
  | x :: xs => add_in_order (add acc x) xs
  end.

(** The sum of [f] over a list of rows, for amounts: the values are added to
    0 in the order of the rows. *)
Definition number_sum {A} (f : A → number) (xs : list A) : number :=
  add_in_order zero (f <$> xs).

(** An amount of [cents] hundredths as the services count it: the number
    nearest to it, and 0 for one that is not a number other than 0. *)
Definition counted (cents : Z) : number :=
  match of_decimal cents with
  | S754_zero _ | S754_nan => zero
  | x => x
  end.

(** The amount of a payment. *)
Definition amount (p : payment) : number := counted (p_amount p).

(** Every session holds a participant count that is a non-negative
    [INTEGER]. *)
Definition participants_nonneg (db : database) : Prop :=
  ∀ x s, sessions db !! x = Some s →
         ∃ c, s_current_participants s = Some c ∧ 0 ≤ c ≤ int4_max.

(** 1 when member [m] references coach [c], 0 otherwise. *)
Definition refs (c : uuid) (m : member) : Z :=
  if decide (m_coach_id m = Some c) then 1 else 0.

(** [.from('members')....eq('gym_id', gymId)]: the members of a gym. *)
Definition members_of_gym (gymId : uuid) (db : database) : list member :=
  List.filter (λ m, bool_decide (m_gym_id m = gymId)) (rows (members db)).

(** The monthly fee of a member, a missing fee counting as 0. *)
Definition fee (m : member) : number :=
  match m_monthly_fee m with
  | Some cents => counted cents
  | None => zero
  end.

(** MRR as stated: the sum of the monthly fees of the gym's members whose
    activity status is ['active']. *)
Definition fees_of_active_members (gymId : uuid) (db : database) : number :=
  number_sum fee
    (List.filter (λ m, bool_decide (m_activity_status m = Some active))
                 (members_of_gym gymId db)).

(** The sum of the monthly fees of all the gym's members. *)
Definition fees_of_all_members (gymId : uuid) (db : database) : number :=
  number_sum fee (members_of_gym gymId db).

(** Paid, with a [paid_date] at or after [start] (a time value). *)
Definition paid_from (start : Z) (p : payment) : bool :=
  bool_decide (p_status p = Some paid)
  && match p_paid_date p with
     | Some d => bool_decide (timestamptz_of_Date start ≤ d)
     | None => false
     end.




(** What is checked of every day [doe] of a 400-year era: its civil date
    [(y, m, d)] has the day number [doe], a month from 1 to 12 and a day from
    1 on, and the day [d - 1] days earlier is the first of the same month. *)
Definition doe_ok (doe : Z) : bool :=
  let '(y, m, d) := civil_of_doe 0 doe in
  let '(y1, m1, d1) := civil_of_doe 0 (doe - d + 1) in
  (days_from_civil y m d =? doe - 719468)
  && (1 <=? m) && (m <=? 12)
  && (1 <=? d)
  && (0 <=? doe - d + 1)
  && (y1 =? y) && (m1 =? m) && (d1 =? 1).

(** [f] holds of the [n] integers from [start] on. *)
Fixpoint all_from (f : Z → bool) (start : Z) (n : nat) : bool :=
  match n with
  | O => true
  | S n => f start && all_from f (start + 1) n
  end.

(** The payment has a [paid_date] that falls in the month with key [key]. *)
Definition in_month (tza : Z) (key : string) (q : payment) : bool :=
  match p_paid_date q with
  | Some d => bool_decide (paymentsService.month_key tza (Date_of_timestamptz d) = key)
  | None => false
  end.

(** The numbers [xs] added to [acc] in the order of the list, as a month of
    [getRevenueByMonth] adds them: a running sum that is [0], [-0] or [NaN]
    is taken for 0 before the next amount is added. *)
Fixpoint add_to_bucket (acc : number) (xs : list number) : number :=
  match xs with
  | [] => acc
  | x :: xs => add_to_bucket (add (if truthy acc then acc else zero) x) xs
  end.

(** A number that [x || 0] leaves as it is: any but [-0] and [NaN]. *)
Definition kept_by_or_0 (x : number) : bool :=
  match x with
  | S754_zero true | S754_nan => false
  | S754_zero false | S754_infinity _ | S754_finite _ _ _ => true
  end.

(** The sum of [amount] over the payments dated in the month [key], in the
    order of the rows. *)
Definition month_revenue (tza : Z) (key : string) (data : list payment) : number :=
  add_to_bucket zero (amount <$> List.filter (in_month tza key) data).

(** One of the five promises that [getOverview] waits for is rejected with
    the reason [e]. *)
Definition rejected_with (rs : dashboardService.reads) (e : failure) : Prop :=
  dashboardService.read_members rs = Rejected e
  ∨ dashboardService.read_coaches rs = Rejected e
  ∨ dashboardService.read_payments rs = Rejected e
  ∨ dashboardService.read_sessions rs = Rejected e
  ∨ dashboardService.read_alerts rs = Rejected e.

(** Every coach row stores the number of members that reference it. *)
Definition client_counts_accurate (db : database) : Prop :=
  ∀ c co, coaches db !! c = Some co →
          c_client_count co = Some (count_members_of_coach c (members db)).

(** The tiers in order: the higher, the more recent the last visit. *)
Definition tier_rank (s : activity_status) : Z :=
  match s with
  | inactive => 0
  | moderate => 1
  | active => 2
  end.

(** Dated in the same month of the same year as the time value [date],
    local time. *)
Definition same_month (tza date : Z) (p : payment) : bool :=
  match p_paid_date p with
  | Some d =>
      bool_decide (getFullYear tza (Date_of_timestamptz d) = getFullYear tza date)
      && bool_decide (getMonth tza (Date_of_timestamptz d) = getMonth tza date)
  | None => false
  end.

(** What is checked of every month [ym] of a 400-year era (months counted
    from January of year 0): the first 28 days from its first day on are
    its days 1 to 28. *)
Definition month_ok (ym : Z) : bool :=
  let y := ym `div` 12 in
  let m := ym `mod` 12 + 1 in
  all_from
    (λ k, let '(y', m', d') := civil_from_days (days_from_civil y m 1 + k) in
          (y' =? y) && (m' =? m) && (d' =? k + 1))
    0 28.

(** A run of [checkIn] calls, one after the other, each with its own
    surroundings, member and gym. *)
Definition checkIns (calls : list (membersService.checkIn_env * uuid * uuid))
    (db : database) : database :=
  fold_left (λ db call, (membersService.checkIn call.1.1 call.1.2 call.2 db).1) calls db.

End Spec.

Module Sample.
Import Sql JsNumber Supabase JsDate.

(** Times. *)

(** 2024-02-29T00:00:00Z as a time value. *)
Definition leap_day : Z := 1709164800000.

(** 2024-02-10T00:00:00Z as a timestamp. *)
Definition feb_10_us : timestamptz := 1707523200000000.

(** Members and visits. *)

Definition example_visit : member_visit :=
  mkVisit "v1" "m1" "g" (Some 1000) None.

Definition example_member (last_visit : option timestamptz) : member :=
  mkMember "m1" "g" None "Mia" (Some basic) (Some 4900) (Some active)
           last_visit (Some 12) 0.

Definition example_members_db (last_visit : option timestamptz) : database :=
  with_members {[ "m1" := example_member last_visit ]} empty_database.

Definition other_member : member :=
  mkMember "m2" "g" None "Noor" (Some premium) (Some 7900) (Some inactive)
           (Some 0) (Some 3) 0.

Definition two_members_db : database :=
  with_members (<[ "m2" := other_member ]> {[ "m1" := example_member None ]})
               empty_database.

(** A check-in one day after the epoch. *)
Definition checkIn_env_1 : membersService.checkIn_env :=
  membersService.mkCheckInEnv "v1" 86400000 86400001 86400001
                              86400000500 86400001500.

(** Sessions. *)

Definition empty_session : session :=
  mkSession "s1" "g" "A" None 0 (Some scheduled) (Some 8) (Some 0) 0.

Definition empty_session_db : database :=
  with_sessions {[ "s1" := empty_session ]} empty_database.

(** Coaches and their clients. *)

Definition coach_A : coach := mkCoach "A" "g" "Ada" (Some true) (Some 0) 0.
Definition coach_B : coach := mkCoach "B" "g" "Ben" (Some true) (Some 0) 0.

(** A coach row created with a client count already filled in. *)
Definition coach_B_with_count : coach := mkCoach "B" "g" "Ben" (Some true) (Some 3) 0.

Definition client (id : uuid) (c : option uuid) : member :=
  mkMember id "g" c id (Some basic) (Some 4900) (Some active) None (Some 0) 0.

Definition coaches_db : database :=
  with_coaches (<[ "B" := coach_B ]> {[ "A" := coach_A ]}) empty_database.

(** Coach A with one client, coach B with none; both counts accurate. *)
Definition one_client_db : database :=
  mkDatabase
    (<[ "B" := coach_B ]> {[ "A" := set_c_client_count (Some 1) coach_A ]})
    {[ "m1" := client "m1" (Some "A") ]} ∅ ∅ ∅ ∅ ∅ (Some owner).

(** Payments. *)

(** A payment of 100.00, marked paid, dated 2024-03-05T00:00:00Z. *)
Definition payment_dated_ahead : payment :=
  mkPayment "p1" "g" "m1" 10000 (Some paid) (Some 1709596800000000) 0.


(** A payment marked paid that has no [paid_date]. *)
Definition payment_undated : payment :=
  mkPayment "p2" "g" "m1" 2500 (Some paid) None 0.

(** A payment of 100.00, paid on 2024-02-10. *)
Definition payment_this_month : payment :=
  mkPayment "p1" "g" "m1" 10000 (Some paid) (Some feb_10_us) 0.

(** Payments of 100.00 paid this month, 50.00 pending and 30.00 overdue. *)
Definition three_payments_db : database :=
  with_payments
    (<[ "p3" := mkPayment "p3" "g" "m1" 3000 (Some overdue) None 0 ]>
       (<[ "p2" := mkPayment "p2" "g" "m1" 5000 (Some pending) None 0 ]>
          {[ "p1" := payment_this_month ]}))
    empty_database.

(** The overview. *)

(** A gym with two coaches, two members and one payment paid this month. *)
Definition gym_db : database :=
  mkDatabase
    (<[ "B" := coach_B ]> {[ "A" := coach_A ]})
    (<[ "m2" := other_member ]> {[ "m1" := example_member None ]})
    ∅ ∅ ∅
    {[ "p1" := payment_this_month ]}
    ∅ (Some owner).

(** The members request fails, the other four go through. *)
Definition members_fail : dashboardService.faults :=
  dashboardService.mkFaults (Some fetch_failed) None None None None.

(** Five reads of which the first is rejected. *)
Definition members_rejected : dashboardService.reads :=
  dashboardService.mkReads (Rejected fetch_failed)
    (Fulfilled (select None [])) (Fulfilled (select None []))
    (Fulfilled (select None [])) (Fulfilled (select None [])).

(** Coach A stores a client count of 2 while only [m2] references it. *)
Definition stale_count_db : database :=
  mkDatabase
    {[ "A" := set_c_client_count (Some 2) coach_A ]}
    (<[ "m2" := client "m2" (Some "A") ]> {[ "m1" := client "m1" None ]})
    ∅ ∅ ∅ ∅ ∅ (Some owner).

(** A session with three participants. *)
Definition busy_session_db : database :=
  with_sessions
    {[ "s1" := mkSession "s1" "g" "A" None 0 (Some scheduled) (Some 8) (Some 3) 0 ]}
    empty_database.

(** Member [m1] with a visit, a payment, a participation and a session. *)
Definition member_with_rows_db : database :=
  mkDatabase
    {[ "A" := set_c_client_count (Some 1) coach_A ]}
    {[ "m1" := client "m1" (Some "A") ]}
    {[ "v1" := mkVisit "v1" "m1" "g" (Some 1000) None ]}
    {[ "s1" := mkSession "s1" "g" "A" (Some "m1") 0 (Some scheduled) (Some 8) (Some 1) 0 ]}
    {[ "sp1" := mkParticipant "sp1" "s1" "m1" (Some false) ]}
    {[ "p1" := payment_this_month ]}
    ∅ (Some owner).

(** A member whose [activity_status] and [membership_type] are NULL. *)
Definition member_without_status : member :=
  mkMember "m3" "g" None "Olu" None (Some 2900) None None (Some 0) 0.

Definition three_members_db : database :=
  with_members
    (<[ "m3" := member_without_status ]>
       (<[ "m2" := other_member ]> {[ "m1" := example_member None ]}))
    empty_database.

(** Two unread alerts of gym [g] and one of another gym. *)
Definition alerts_db : database :=
  with_alerts
    (<[ "a3" := mkAlert "a3" "h" "Other gym" (Some false) 30 ]>
       (<[ "a2" := mkAlert "a2" "g" "Payment overdue" (Some false) 20 ]>
          {[ "a1" := mkAlert "a1" "g" "Member inactive" (Some false) 10 ]}))
    empty_database.

End Sample.

(* ===================================================================== *)
(** ** Properties                                                         *)
(* ===================================================================== *)

Import Sql JsNumber Supabase JsDate Spec Sample.

(** An [rpc] request whose function or argument name matches none of the
    functions of the schema. *)
Ltac no_such_function :=
  unfold await_rpc;
  repeat (rewrite bool_decide_eq_false_2 by (intros [? ?]; discriminate));
  done.

(** *** The coach recount leaves every table but [coaches] alone *)

Lemma members_UPDATE_coaches_client_count now c db :
  members (UPDATE_coaches_client_count now c db) = members db.
Proof. unfold UPDATE_coaches_client_count. by repeat case_match. Qed.

Lemma members_update_coach_client_count now op OLD NEW db :
  members (update_coach_client_count now op OLD NEW db) = members db.
Proof.
  unfold update_coach_client_count.
  repeat case_match; rewrite ?members_UPDATE_coaches_client_count; done.
Qed.

Lemma sessions_UPDATE_coaches_client_count now c db :
  sessions (UPDATE_coaches_client_count now c db) = sessions db.
Proof. unfold UPDATE_coaches_client_count. by repeat case_match. Qed.

Lemma sessions_update_coach_client_count now op OLD NEW db :
  sessions (update_coach_client_count now op OLD NEW db) = sessions db.
Proof.
  unfold update_coach_client_count.
  repeat case_match; rewrite ?sessions_UPDATE_coaches_client_count; done.
Qed.

Lemma member_visits_UPDATE_coaches_client_count now c db :
  member_visits (UPDATE_coaches_client_count now c db) = member_visits db.
Proof. unfold UPDATE_coaches_client_count. by repeat case_match. Qed.

Lemma member_visits_update_coach_client_count now op OLD NEW db :
  member_visits (update_coach_client_count now op OLD NEW db) = member_visits db.
Proof.
  unfold update_coach_client_count.
  repeat case_match; rewrite ?member_visits_UPDATE_coaches_client_count; done.
Qed.

Lemma auth_role_UPDATE_coaches_client_count now c db :
  auth_role (UPDATE_coaches_client_count now c db) = auth_role db.
Proof. unfold UPDATE_coaches_client_count. by repeat case_match. Qed.

Lemma auth_role_update_coach_client_count now op OLD NEW db :
  auth_role (update_coach_client_count now op OLD NEW db) = auth_role db.
Proof.
  unfold update_coach_client_count.
  repeat case_match; rewrite ?auth_role_UPDATE_coaches_client_count; done.
Qed.

(** For a caller that the policy on [coaches] does not admit, the recount
    writes nothing. *)
Lemma UPDATE_coaches_client_count_refused now c db :
  may_manage_coaches (auth_role db) = false →
  UPDATE_coaches_client_count now c db = db.
Proof. intros Hr. unfold UPDATE_coaches_client_count. rewrite Hr. by destruct c. Qed.

Lemma update_coach_client_count_refused now op OLD NEW db :
  may_manage_coaches (auth_role db) = false →
  update_coach_client_count now op OLD NEW db = db.
Proof.
  intros Hr.
  assert (H : ∀ c, UPDATE_coaches_client_count now c db = db)
    by (intros c; by apply UPDATE_coaches_client_count_refused).
  unfold update_coach_client_count. cbn zeta.
  repeat case_match; rewrite ?H; done.
Qed.

(** *** Activity status *)

(** The tier as a function of [last_visit] and [NOW()]. *)
Lemma activity_case_spec (now : Z) (v : option Z) :
  (activity_case now v = active ↔ ∃ t, v = Some t ∧ now - t ≤ INTERVAL_days 7)
  ∧ (activity_case now v = moderate ↔
       ∃ t, v = Some t ∧ INTERVAL_days 7 < now - t ≤ INTERVAL_days 30)
  ∧ (activity_case now v = inactive ↔
       v = None ∨ ∃ t, v = Some t ∧ INTERVAL_days 30 < now - t).
Proof.
  unfold activity_case, INTERVAL_days, microseconds_per_day.
  destruct v as [t|]; simpl.
  - repeat case_bool_decide; simpl.
    all: repeat split; intros; try done.
    all: repeat match goal with
           | H : ∃ _, _ |- _ => destruct H as [? [[= <-] ?]]
           | H : _ ∨ _ |- _ => destruct H as [?|?]; [done|]
           end; try lia.
    all: try (eexists; split; [done|lia]).
    all: try (right; eexists; split; [done|lia]).
  - repeat split; intros; try done.
    all: try match goal with H : ∃ _, _ |- _ => by destruct H as [? [? ?]] end.
    by left.
Qed.

(** A statement on [members] that leaves [coach_id] alone goes through. *)
Lemma UPDATE_members_by_id_same_coach now x set_ db OLD NEW0 :
  members db !! x = Some OLD →
  set_ OLD = Ok NEW0 →
  m_coach_id NEW0 = m_coach_id OLD →
  UPDATE_members_by_id now x set_ db =
    Ok (update_coach_client_count now UPDATE (Some OLD)
          (Some (update_members_updated_at now NEW0))
          (with_members (<[x := update_members_updated_at now NEW0]> (members db)) db)).
Proof.
  intros Hx Hset Hc. unfold UPDATE_members_by_id. rewrite Hx, Hset. simpl.
  rewrite Hc. rewrite bool_decide_eq_false_2 by (intros H; by apply H). done.
Qed.

(** C1.  On a visit of member [m], [update_member_activity_status] goes
    through and stores for [m] the tier of its [last_visit] [v]: ['active']
    iff [v] is at most 7 days before [NOW()], ['moderate'] iff more than 7
    and at most 30 days before, ['inactive'] otherwise or when [v] is NULL. *)
Theorem update_member_activity_status_classifies
    (now : timestamptz) (NEW : member_visit) (db : database) (m : member) :
  members db !! v_member_id NEW = Some m →
  ∃ db' m',
    update_member_activity_status now NEW db = Ok db'
    ∧ members db' !! v_member_id NEW = Some m'
    ∧ m_last_visit m' = m_last_visit m
    ∧ (m_activity_status m' = Some active ↔
         ∃ v, m_last_visit m = Some v ∧ now - v ≤ INTERVAL_days 7)
    ∧ (m_activity_status m' = Some moderate ↔
         ∃ v, m_last_visit m = Some v ∧ INTERVAL_days 7 < now - v ≤ INTERVAL_days 30)
    ∧ (m_activity_status m' = Some inactive ↔
         m_last_visit m = None
         ∨ ∃ v, m_last_visit m = Some v ∧ INTERVAL_days 30 < now - v).
Proof.
  intros Hm. unfold update_member_activity_status.
  erewrite UPDATE_members_by_id_same_coach by (try done).
  eexists _, _. split; [done|].
  rewrite members_update_coach_client_count. simpl.
  rewrite lookup_insert_eq. split; [done|]. simpl. split; [done|].
  destruct (activity_case_spec now (m_last_visit m)) as (Ha & Hmod & Hi).
  rewrite <- Ha, <- Hmod, <- Hi.
  repeat split; intros; simplify_eq; congruence.
Qed.

Lemma update_member_activity_status_classifies_witness :
  ∃ db' m',
    update_member_activity_status (INTERVAL_days 45) example_visit
      (example_members_db (Some (INTERVAL_days 25))) = Ok db'
    ∧ members db' !! "m1" = Some m'
    ∧ m_activity_status m' = Some moderate.
Proof.
  destruct (update_member_activity_status_classifies (INTERVAL_days 45) example_visit
              (example_members_db (Some (INTERVAL_days 25)))
              (example_member (Some (INTERVAL_days 25))))
    as (db' & m' & Hrun & Hm' & _ & _ & Hmod & _).
  - reflexivity.
  - exists db', m'. split; [exact Hrun|]. split; [exact Hm'|].
    apply Hmod. exists (INTERVAL_days 25). split; [reflexivity|].
    unfold INTERVAL_days, microseconds_per_day. lia.
Defined.

(** *** Visits *)

(** C9.  Inserting a visit of member [M] (a fresh visit id, [M] in
    [members]) goes through, recomputes the activity status of [M] from its
    [last_visit], and leaves the row of every other member as it was. *)
Theorem visit_recomputes_only_its_member
    (now : timestamptz) (NEW : member_visit) (db : database) (m : member) :
  member_visits db !! v_id NEW = None →
  members db !! v_member_id NEW = Some m →
  ∃ db',
    INSERT_member_visit now NEW db = Ok db'
    ∧ members db' !! v_member_id NEW
        = Some (update_members_updated_at now
                  (set_m_activity_status
                     (Some (activity_case now (m_last_visit m))) m))
    ∧ ∀ y, y ≠ v_member_id NEW → members db' !! y = members db !! y.
Proof.
  intros Hfresh Hm. unfold INSERT_member_visit.
  rewrite bool_decide_eq_false_2 by (rewrite Hfresh; by intros [? ?]).
  rewrite bool_decide_eq_false_2 by (rewrite Hm; done).
  unfold update_member_activity_status.
  erewrite UPDATE_members_by_id_same_coach; [|exact Hm|done|done].
  eexists. split; [done|].
  rewrite members_update_coach_client_count. simpl. split.
  - by rewrite lookup_insert_eq.
  - intros y Hy. by rewrite lookup_insert_ne.
Qed.

Lemma visit_recomputes_only_its_member_witness :
  ∃ db',
    INSERT_member_visit 5000 example_visit two_members_db = Ok db'
    ∧ members db' !! "m2" = members two_members_db !! "m2".
Proof.
  destruct (visit_recomputes_only_its_member 5000 example_visit two_members_db
              (example_member None))
    as (db' & Hrun & _ & Hframe).
  - reflexivity.
  - reflexivity.
  - exists db'. split; [exact Hrun|]. apply Hframe. discriminate.
Defined.

(** *** Session participants *)

Lemma participants_nonneg_insert x s c db :
  s_current_participants s = Some c → 0 ≤ c ≤ int4_max →
  participants_nonneg db →
  participants_nonneg (with_sessions (<[x := s]> (sessions db)) db).
Proof.
  intros Hs Hc Hinv y s'. simpl. destruct (decide (x = y)) as [->|Hne].
  - rewrite lookup_insert_eq. intros [= <-]. eauto.
  - rewrite lookup_insert_ne by done. apply Hinv.
Qed.

Lemma decrement_session_participants_run now x db s c :
  sessions db !! x = Some s →
  s_current_participants s = Some c →
  0 ≤ c ≤ int4_max →
  decrement_session_participants now x db =
    Ok (with_sessions
          (<[x := update_sessions_updated_at now
                    (set_s_current_participants (Some (Z.max 0 (c - 1))) s)]>
             (sessions db)) db).
Proof.
  intros Hx Hs Hc. unfold decrement_session_participants, UPDATE_sessions_by_id.
  rewrite Hx, Hs. simpl. unfold int4.
  rewrite bool_decide_eq_true_2 by (unfold int4_min, int4_max in *; lia).
  done.
Qed.

Lemma increment_session_participants_run now x db s c :
  sessions db !! x = Some s →
  s_current_participants s = Some c →
  0 ≤ c ≤ int4_max →
  increment_session_participants now x db =
    if bool_decide (c = int4_max) then Err integer_out_of_range
    else Ok (with_sessions
               (<[x := update_sessions_updated_at now
                         (set_s_current_participants (Some (c + 1)) s)]>
                  (sessions db)) db).
Proof.
  intros Hx Hs Hc. unfold increment_session_participants, UPDATE_sessions_by_id.
  rewrite Hx, Hs. simpl. unfold int4.
  destruct (decide (c = int4_max)) as [->|Hmax].
  - rewrite (bool_decide_eq_true_2 (int4_max = int4_max)) by done.
    by rewrite bool_decide_eq_false_2 by (unfold int4_min, int4_max; lia).
  - rewrite (bool_decide_eq_false_2 (c = int4_max)) by done.
    by rewrite bool_decide_eq_true_2 by (unfold int4_min, int4_max in *; lia).
Qed.

(** The argument the services pass is named [session_id]; the functions of
    the schema take [session_uuid]. *)
Lemma await_rpc_session_id now fn x db :
  await_rpc now (Rpc fn [("session_id", x)]) db
  = (db, mkResponse None (Some undefined_function)).
Proof. no_such_function. Qed.

(** C10.  On a session whose [current_participants] is an [INTEGER] [c ≥ 0],
    [decrement_session_participants] stores [max(0, c - 1)]; both it and
    [increment_session_participants] keep every count non-negative (the
    increment raises at the top of the [INTEGER] range and then writes
    nothing); and [removeParticipant] on a session with count 0 leaves the
    count at 0. *)
Theorem session_participants_never_negative
    (now : timestamptz) (db : database) (x : uuid) :
  (∀ s c, sessions db !! x = Some s →
          s_current_participants s = Some c →
          0 ≤ c ≤ int4_max →
          ∃ db' s',
            decrement_session_participants now x db = Ok db'
            ∧ sessions db' !! x = Some s'
            ∧ s_current_participants s' = Some (Z.max 0 (c - 1)))
  ∧ (participants_nonneg db →
     ∃ db', decrement_session_participants now x db = Ok db'
            ∧ participants_nonneg db')
  ∧ (participants_nonneg db →
     match increment_session_participants now x db with
     | Ok db' => participants_nonneg db'
     | Err e => e = integer_out_of_range
     end)
  ∧ (∀ s fault memberId,
       sessions db !! x = Some s →
       s_current_participants s = Some 0 →
       ∃ s', sessions (sessionsService.removeParticipant now fault x memberId db).1 !! x
               = Some s'
             ∧ s_current_participants s' = Some 0).
Proof.
  repeat split.
  - intros s c Hx Hs Hc.
    erewrite decrement_session_participants_run by done.
    eexists _, _. split; [done|]. simpl. rewrite lookup_insert_eq. done.
  - intros Hinv. destruct (sessions db !! x) as [s|] eqn:Hx.
    + destruct (Hinv x s Hx) as (c & Hs & Hc).
      erewrite decrement_session_participants_run by done.
      eexists. split; [done|].
      apply participants_nonneg_insert with (c := Z.max 0 (c - 1)); [done|lia|done].
    + exists db. split; [|done].
      unfold decrement_session_participants, UPDATE_sessions_by_id. by rewrite Hx.
  - intros Hinv. destruct (sessions db !! x) as [s|] eqn:Hx.
    + destruct (Hinv x s Hx) as (c & Hs & Hc).
      erewrite increment_session_participants_run by done.
      case_bool_decide; [done|].
      apply participants_nonneg_insert with (c := c + 1); [done|lia|done].
    + unfold increment_session_participants, UPDATE_sessions_by_id. by rewrite Hx.
  - intros s fault memberId Hx Hs. exists s. split; [|done].
    unfold sessionsService.removeParticipant. destruct fault; [done|].
    rewrite await_rpc_session_id. done.
Qed.

Lemma session_participants_never_negative_witness :
  ∃ db' s',
    decrement_session_participants 7000 "s1" empty_session_db = Ok db'
    ∧ sessions db' !! "s1" = Some s'
    ∧ s_current_participants s' = Some 0.
Proof.
  destruct (session_participants_never_negative 7000 empty_session_db "s1")
    as (Hdec & _).
  destruct (Hdec empty_session 0) as (db' & s' & Hrun & Hs' & Hc).
  - reflexivity.
  - reflexivity.
  - unfold int4_max. lia.
  - exists db', s'. split; [exact Hrun|]. split; [exact Hs'|exact Hc].
Defined.

(** *** Check-in *)

Lemma INSERT_member_visit_run now NEW db m :
  member_visits db !! v_id NEW = None →
  members db !! v_member_id NEW = Some m →
  let m1 := update_members_updated_at now
              (set_m_activity_status (Some (activity_case now (m_last_visit m))) m) in
  let db0 := with_member_visits (<[v_id NEW := NEW]> (member_visits db)) db in
  INSERT_member_visit now NEW db =
    Ok (update_coach_client_count now UPDATE (Some m) (Some m1)
          (with_members (<[v_member_id NEW := m1]> (members db0)) db0)).
Proof.
  intros Hfresh Hm. simpl. unfold INSERT_member_visit.
  rewrite bool_decide_eq_false_2 by (rewrite Hfresh; by intros [? ?]).
  rewrite bool_decide_eq_false_2 by (rewrite Hm; done).
  unfold update_member_activity_status.
  erewrite UPDATE_members_by_id_same_coach; [done|exact Hm|done|done].
Qed.

(** The object [checkIn] passes to [update] is refused: its [total_visits]
    is a request builder, not a number. *)
Lemma checkIn_payload_refused env memberId m :
  assign_member_columns (membersService.checkIn_payload env memberId) m
  = Err invalid_text_representation.
Proof. reflexivity. Qed.

(** Had the builder been awaited, the call would still not reach
    [increment_visits]: the argument is named [member_id], the function
    takes [member_uuid]. *)
Lemma await_rpc_member_id now fn x db :
  await_rpc now (Rpc fn [("member_id", x)]) db
  = (db, mkResponse None (Some undefined_function)).
Proof. no_such_function. Qed.

(** The database function itself counts the visit and stamps it. *)
Lemma increment_visits_counts now x db m n :
  members db !! x = Some m →
  m_total_visits m = Some n →
  int4_min ≤ n < int4_max →
  ∃ db' m',
    increment_visits now x db = Ok (db', Some (n + 1))
    ∧ members db' !! x = Some m'
    ∧ m_total_visits m' = Some (n + 1)
    ∧ m_last_visit m' = Some now.
Proof.
  intros Hx Hn Hr. unfold increment_visits.
  rewrite (UPDATE_members_by_id_same_coach now x _ db m
             (set_m_last_visit (Some now) (set_m_total_visits (Some (n + 1)) m)));
    [|exact Hx| |done].
  - eexists _, _. split.
    + rewrite members_update_coach_client_count. simpl.
      by rewrite lookup_insert_eq.
    + rewrite members_update_coach_client_count. simpl.
      rewrite lookup_insert_eq. done.
  - rewrite Hn. simpl. unfold int4.
    by rewrite bool_decide_eq_true_2 by (unfold int4_min, int4_max in *; lia).
Qed.

(** What [checkIn] does for a member that exists: one visit row is added,
    with [check_in] the time read by the browser; the trigger recomputes the
    activity status from the stored [last_visit]; [total_visits] and
    [last_visit] stay as they were. *)
Lemma checkIn_effect env memberId gymId db m :
  member_visits db !! membersService.visit_id env = None →
  members db !! memberId = Some m →
  let NEW := mkVisit (membersService.visit_id env) memberId gymId
               (Some (timestamptz_of_Date (membersService.date_check_in env))) None in
  ∃ db' m',
    membersService.checkIn env memberId gymId db = (db', Fulfilled NEW)
    ∧ member_visits db' = <[membersService.visit_id env := NEW]> (member_visits db)
    ∧ members db' !! memberId = Some m'
    ∧ m_total_visits m' = m_total_visits m
    ∧ m_last_visit m' = m_last_visit m
    ∧ m_activity_status m'
      = Some (activity_case (membersService.now_insert env) (m_last_visit m)).
Proof.
  intros Hfresh Hm NEW. unfold membersService.checkIn. fold NEW.
  rewrite (INSERT_member_visit_run _ NEW db m Hfresh Hm).
  set (db1 := update_coach_client_count _ _ _ _ _).
  assert (Hm1 : members db1 !! memberId
                = Some (update_members_updated_at (membersService.now_insert env)
                          (set_m_activity_status
                             (Some (activity_case (membersService.now_insert env)
                                                  (m_last_visit m))) m))).
  { unfold db1. rewrite members_update_coach_client_count. simpl.
    by rewrite lookup_insert_eq. }
  unfold update_members, UPDATE_members_by_id. rewrite Hm1.
  rewrite checkIn_payload_refused.
  eexists _, _. split; [done|]. split; [|split; [exact Hm1|done]].
  unfold db1. by rewrite member_visits_update_coach_client_count.
Qed.

(** C3, on the code.  A member with 12 visits who last came at time 0 checks
    in: [checkIn] returns the new visit row and the table holds it, but the
    member still has 12 visits and the old [last_visit]. *)
Theorem checkIn_does_not_count_the_visit :
  ∃ db' visit m',
    membersService.checkIn checkIn_env_1 "m1" "g" (example_members_db (Some 0))
      = (db', Fulfilled visit)
    ∧ v_check_in visit = Some 86400000000
    ∧ size (member_visits db') = 1%nat
    ∧ members db' !! "m1" = Some m'
    ∧ m_total_visits m' = Some 12
    ∧ m_last_visit m' = Some 0.
Proof. eexists _, _, _. vm_compute. repeat split. Qed.

(** *** Coach client counts *)

Lemma count_members_delete c x (ms : gmap uuid member) :
  count_members_of_coach c (delete x ms)
  = count_members_of_coach c ms - from_option (refs c) 0 (ms !! x).
Proof.
  unfold count_members_of_coach. rewrite map_filter_delete.
  set (P := λ kv : uuid * member, m_coach_id kv.2 = Some c).
  destruct (ms !! x) as [m|] eqn:Hx; cbn [from_option].
  - unfold refs. destruct (decide (m_coach_id m = Some c)) as [Hc|Hc].
    + assert (Hf : filter P ms !! x = Some m)
        by (by apply map_lookup_filter_Some_2).
      rewrite map_size_delete_Some by by exists m.
      assert (size (filter P ms) ≠ 0%nat)
        by (apply map_size_ne_0_lookup; by exists x, m).
      lia.
    + rewrite map_size_delete_None; [lia|].
      apply map_lookup_filter_None_2. right. intros m0 Hm0. by simplify_eq.
  - rewrite map_size_delete_None; [lia|].
    apply map_lookup_filter_None_2. by left.
Qed.

Lemma count_members_insert c x m' (ms : gmap uuid member) :
  count_members_of_coach c (<[x := m']> ms)
  = count_members_of_coach c ms - from_option (refs c) 0 (ms !! x) + refs c m'.
Proof.
  rewrite <- count_members_delete.
  unfold count_members_of_coach. rewrite map_filter_insert. unfold refs.
  case_decide as Hc; simpl in Hc.
  - rewrite decide_True by done.
    rewrite <- insert_delete_eq, map_size_insert_None.
    + rewrite map_filter_delete. lia.
    + by rewrite lookup_delete_eq.
  - rewrite decide_False by done. lia.
Qed.

Lemma coaches_recount_eq now c db co :
  may_manage_coaches (auth_role db) = true →
  coaches db !! c = Some co →
  coaches (UPDATE_coaches_client_count now (Some c) db) !! c
  = Some (update_coaches_updated_at now
            (set_c_client_count (Some (count_members_of_coach c (members db))) co)).
Proof.
  intros Hr Hc. unfold UPDATE_coaches_client_count. rewrite Hr.
  simpl. by rewrite lookup_alter_eq, Hc.
Qed.

Lemma coaches_recount_ne now c db y :
  c ≠ y →
  coaches (UPDATE_coaches_client_count now (Some c) db) !! y = coaches db !! y.
Proof.
  intros Hne. unfold UPDATE_coaches_client_count.
  destruct (may_manage_coaches (auth_role db)); [|done].
  simpl. by rewrite lookup_alter_ne.
Qed.

(** Assigning member [M] to an existing coach [B] that it does not have yet:
    the statement goes through, then the trigger recounts [B] and, if [M] had
    a coach, that coach. *)
Lemma UPDATE_member_coach_assign now M B db m b :
  members db !! M = Some m →
  coaches db !! B = Some b →
  m_coach_id m ≠ Some B →
  let NEW := update_members_updated_at now (set_m_coach_id (Some B) m) in
  let db1 := with_members (<[M := NEW]> (members db)) db in
  UPDATE_member_coach now M (Some B) db =
    Ok (UPDATE_coaches_client_count now (m_coach_id m)
          (UPDATE_coaches_client_count now (Some B) db1)).
Proof.
  intros HM HB Hne. simpl. unfold UPDATE_member_coach, UPDATE_members_by_id.
  rewrite HM. simpl. rewrite HB.
  rewrite (bool_decide_eq_true_2 (is_Some (Some b))) by by eexists.
  rewrite andb_false_r. f_equal.
  unfold update_coach_client_count. simpl.
  destruct (m_coach_id m) as [A|] eqn:HA; simpl.
  - rewrite bool_decide_eq_true_2 by congruence. done.
  - done.
Qed.

(** Taking member [M] off its coach [A]: the statement goes through and the
    trigger writes nothing to [coaches], since [OLD.coach_id != NEW.coach_id]
    is NULL when [NEW.coach_id] is. *)
Lemma UPDATE_member_coach_unassign now M A db m :
  members db !! M = Some m →
  m_coach_id m = Some A →
  let NEW := update_members_updated_at now (set_m_coach_id None m) in
  UPDATE_member_coach now M None db
  = Ok (with_members (<[M := NEW]> (members db)) db).
Proof.
  intros HM HA. simpl. unfold UPDATE_member_coach, UPDATE_members_by_id.
  rewrite HM. simpl. rewrite andb_false_r.
  unfold update_coach_client_count. simpl. rewrite HA. done.
Qed.

(** C6, amended.  Member [M] of coach [A] is reassigned to a different coach
    [B], the stored counts of [A] and [B] being the numbers of members
    referencing them.  The update goes through.  When the caller is an
    owner, an admin or a manager, [A.client_count] is one less and
    [B.client_count] one more than before, and both are again the numbers of
    members referencing [A] and [B].  For any other caller the policy on
    [coaches] lets the trigger write nothing: the member has moved, and both
    coaches keep the counts they had. *)
Theorem reassignment_moves_one_client
    (now : timestamptz) (M A B : uuid) (db : database)
    (m : member) (a b : coach) :
  members db !! M = Some m →
  m_coach_id m = Some A →
  A ≠ B →
  coaches db !! A = Some a →
  coaches db !! B = Some b →
  c_client_count a = Some (count_members_of_coach A (members db)) →
  c_client_count b = Some (count_members_of_coach B (members db)) →
  (may_manage_coaches (auth_role db) = true →
   ∃ db' a' b' nA nB,
     UPDATE_member_coach now M (Some B) db = Ok db'
     ∧ c_client_count a = Some nA
     ∧ c_client_count b = Some nB
     ∧ coaches db' !! A = Some a'
     ∧ c_client_count a' = Some (nA - 1)
     ∧ coaches db' !! B = Some b'
     ∧ c_client_count b' = Some (nB + 1)
     ∧ count_members_of_coach A (members db') = nA - 1
     ∧ count_members_of_coach B (members db') = nB + 1)
  ∧ (may_manage_coaches (auth_role db) = false →
     ∃ db',
       UPDATE_member_coach now M (Some B) db = Ok db'
       ∧ members db' !! M
         = Some (update_members_updated_at now (set_m_coach_id (Some B) m))
       ∧ coaches db' = coaches db
       ∧ count_members_of_coach A (members db')
         = count_members_of_coach A (members db) - 1
       ∧ count_members_of_coach B (members db')
         = count_members_of_coach B (members db) + 1).
Proof.
  intros HM HmA Hne HA HB HnA HnB.
  rewrite (UPDATE_member_coach_assign now M B db m b HM HB)
    by (rewrite HmA; congruence).
  rewrite HmA.
  set (NEW := update_members_updated_at now (set_m_coach_id (Some B) m)).
  set (db1 := with_members (<[M := NEW]> (members db)) db).
  set (db2 := UPDATE_coaches_client_count now (Some B) db1).
  assert (HcA : count_members_of_coach A (members db1)
                = count_members_of_coach A (members db) - 1).
  { simpl. rewrite count_members_insert, HM. simpl. unfold refs. simpl.
    rewrite HmA. rewrite decide_True by done.
    rewrite decide_False by congruence. lia. }
  assert (HcB : count_members_of_coach B (members db1)
                = count_members_of_coach B (members db) + 1).
  { simpl. rewrite count_members_insert, HM. simpl. unfold refs. simpl.
    rewrite HmA. rewrite decide_False by congruence.
    rewrite decide_True by done. lia. }
  split; intros Hrole.
  - eexists _, _, _, _, _. split; [done|]. split; [exact HnA|]. split; [exact HnB|].
    split; [|split; [|split; [|split; [|split]]]].
    + apply coaches_recount_eq.
      * unfold db2. by rewrite auth_role_UPDATE_coaches_client_count.
      * unfold db2. rewrite coaches_recount_ne by congruence. exact HA.
    + simpl. f_equal. unfold db2.
      rewrite members_UPDATE_coaches_client_count. exact HcA.
    + rewrite coaches_recount_ne by done. unfold db2.
      apply coaches_recount_eq; [done|exact HB].
    + simpl. f_equal. exact HcB.
    + unfold db2. rewrite !members_UPDATE_coaches_client_count. exact HcA.
    + unfold db2. rewrite !members_UPDATE_coaches_client_count. exact HcB.
  - unfold db2.
    rewrite (UPDATE_coaches_client_count_refused now (Some B) db1) by done.
    rewrite (UPDATE_coaches_client_count_refused now (Some A) db1) by done.
    eexists. split; [done|]. split; [by apply lookup_insert_eq|].
    split; [done|]. split; [exact HcA|exact HcB].
Qed.

Lemma reassignment_moves_one_client_witness :
  ∃ db' a' b',
    UPDATE_member_coach 50 "m1" (Some "B") one_client_db = Ok db'
    ∧ coaches db' !! "A" = Some a' ∧ c_client_count a' = Some 0
    ∧ coaches db' !! "B" = Some b' ∧ c_client_count b' = Some 1.
Proof.
  destruct (reassignment_moves_one_client 50 "m1" "A" "B" one_client_db
              (client "m1" (Some "A")) (set_c_client_count (Some 1) coach_A) coach_B)
    as [Hmanager _].
  - reflexivity.
  - reflexivity.
  - discriminate.
  - reflexivity.
  - reflexivity.
  - reflexivity.
  - reflexivity.
  - destruct (Hmanager eq_refl)
      as (db' & a' & b' & nA & nB & Hrun & HnA & HnB & Ha' & Hca' & Hb' & Hcb' & _).
    injection HnA as <-. injection HnB as <-.
    exists db', a', b'. repeat split; assumption.
Defined.

(** C6 as stated fails on the code.  Coach B was created with a client count
    of 3 and has no member; [m1] moves from coach A to coach B: the count of
    B goes from 3 to 1, not to 4. *)
Lemma reassignment_counterexample :
  ∃ db1 db2 db3 db4 b3 b4,
    INSERT_coach coach_A empty_database = Ok db1
    ∧ INSERT_coach coach_B_with_count db1 = Ok db2
    ∧ INSERT_member 10 (client "m1" (Some "A")) db2 = Ok db3
    ∧ UPDATE_member_coach 20 "m1" (Some "B") db3 = Ok db4
    ∧ coaches db3 !! "B" = Some b3 ∧ c_client_count b3 = Some 3
    ∧ coaches db4 !! "B" = Some b4 ∧ c_client_count b4 = Some 1
    ∧ 1 ≠ 3 + 1.
Proof.
  eexists _, _, _, _, _, _.
  repeat (split; [vm_compute; reflexivity|]). lia.
Qed.

(** Where the trigger does recount, for a caller that may write [coaches]:
    after an insert with a coach, after a delete of a member that had a
    coach, and after an assignment to a coach (for the new coach and for a
    different old one), the stored count is the number of members
    referencing the coach. *)
Lemma INSERT_member_recounts now NEW db c co :
  may_manage_coaches (auth_role db) = true →
  members db !! m_id NEW = None →
  m_coach_id NEW = Some c →
  coaches db !! c = Some co →
  ∃ db' co',
    INSERT_member now NEW db = Ok db'
    ∧ coaches db' !! c = Some co'
    ∧ c_client_count co' = Some (count_members_of_coach c (members db')).
Proof.
  intros Hr Hfresh Hc Hco. unfold INSERT_member.
  rewrite bool_decide_eq_false_2 by (rewrite Hfresh; by intros [? ?]).
  rewrite Hc. simpl. rewrite Hco.
  rewrite (bool_decide_eq_true_2 (is_Some (Some co))) by by eexists.
  simpl. eexists _, _. split; [done|].
  unfold update_coach_client_count. simpl. rewrite Hc. simpl. rewrite Hr. simpl.
  rewrite lookup_alter_eq, Hco. done.
Qed.

Lemma DELETE_member_recounts now x db m c co :
  may_manage_coaches (auth_role db) = true →
  members db !! x = Some m →
  m_coach_id m = Some c →
  coaches db !! c = Some co →
  ∃ co',
    coaches (DELETE_member now x db) !! c = Some co'
    ∧ c_client_count co'
      = Some (count_members_of_coach c (members (DELETE_member now x db)))
    ∧ members (DELETE_member now x db) = delete x (members db).
Proof.
  intros Hr Hx Hc Hco. unfold DELETE_member. rewrite Hx.
  unfold update_coach_client_count. simpl. rewrite Hc. simpl. rewrite Hr. simpl.
  rewrite lookup_alter_eq, Hco. eexists. done.
Qed.

Lemma UPDATE_member_coach_recounts now M B db m b :
  may_manage_coaches (auth_role db) = true →
  members db !! M = Some m →
  coaches db !! B = Some b →
  m_coach_id m ≠ Some B →
  ∃ db' b',
    UPDATE_member_coach now M (Some B) db = Ok db'
    ∧ coaches db' !! B = Some b'
    ∧ c_client_count b' = Some (count_members_of_coach B (members db'))
    ∧ ∀ A a, m_coach_id m = Some A → coaches db !! A = Some a →
        ∃ a', coaches db' !! A = Some a'
              ∧ c_client_count a' = Some (count_members_of_coach A (members db')).
Proof.
  intros Hr HM HB Hne.
  rewrite (UPDATE_member_coach_assign now M B db m b HM HB Hne).
  eexists _, _. split; [done|].
  rewrite !members_UPDATE_coaches_client_count.
  destruct (m_coach_id m) as [A|] eqn:HmA.
  - assert (A ≠ B) by congruence.
    rewrite coaches_recount_ne by done. split; [by apply coaches_recount_eq|].
    split; [done|]. intros A' a [= <-] HA.
    eexists. split.
    + apply coaches_recount_eq;
        [by rewrite auth_role_UPDATE_coaches_client_count|].
      rewrite coaches_recount_ne by done. exact HA.
    + rewrite members_UPDATE_coaches_client_count. done.
  - split; [by apply coaches_recount_eq|]. split; [done|]. by intros.
Qed.

(** C5, on the code.  Coach A has two members; one of them is taken off the
    coach ([coach_id] set to NULL).  The update goes through, one member
    still references A, and [A.client_count] is still 2. *)
Theorem unassignment_keeps_old_client_count :
  ∃ db1 db2 db3 a,
    INSERT_member 10 (client "m1" (Some "A")) coaches_db = Ok db1
    ∧ INSERT_member 20 (client "m2" (Some "A")) db1 = Ok db2
    ∧ UPDATE_member_coach 30 "m1" None db2 = Ok db3
    ∧ coaches db3 !! "A" = Some a
    ∧ c_client_count a = Some 2
    ∧ count_members_of_coach "A" (members db3) = 1.
Proof.
  eexists _, _, _, _.
  repeat (split; [vm_compute; reflexivity|]). vm_compute. reflexivity.
Qed.

(** *** Sums over fetched rows *)

Lemma fold_left_add {A} (f : A → number) (xs : list A) (acc : number) :
  fold_left (λ sum x, add sum (f x)) xs acc = add_in_order acc (f <$> xs).
Proof.
  revert acc. induction xs as [|x xs IH]; intros acc; [done|].
  cbn [fold_left fmap list_fmap add_in_order]. apply IH.
Qed.

Lemma reduce_sum_number_sum {A} (f : A → number) (xs : list A) :
  reduce_sum f xs = number_sum f xs.
Proof. unfold reduce_sum, number_sum. apply fold_left_add. Qed.

Lemma number_sum_ext {A} (f g : A → number) (xs : list A) :
  (∀ x, f x = g x) → number_sum f xs = number_sum g xs.
Proof.
  intros Hfg. unfold number_sum. f_equal. apply list_fmap_ext. intros _ x _. apply Hfg.
Qed.

Lemma or_0_default (x : option Z) : or_0 x = default 0 x.
Proof. destruct x as [n|]; simpl; [|done]. by case_bool_decide. Qed.

Lemma number_or_0_counted (cents : Z) :
  number_or_0 (Some (of_decimal cents)) = counted cents.
Proof. unfold number_or_0, counted, truthy. by destruct (of_decimal cents). Qed.

Lemma amount_or_0_amount (p : payment) : paymentsService.amount_or_0 p = amount p.
Proof. apply number_or_0_counted. Qed.

Lemma monthly_fee_or_0_fee (m : member) : dashboardService.monthly_fee_or_0 m = fee m.
Proof.
  unfold dashboardService.monthly_fee_or_0, fee.
  destruct (m_monthly_fee m) as [cents|]; [apply number_or_0_counted|done].
Qed.

(** Numbers round: 49.90, 89.90 and 149.90 added in this order do not make
    the number nearest to 289.70, and added in the other order they do. *)
Example number_sum_rounds :
  number_sum counted [4990; 8990; 14990] ≠ of_decimal 28970
  ∧ number_sum counted [14990; 8990; 4990] = of_decimal 28970.
Proof. split; [vm_compute; discriminate|vm_compute; reflexivity]. Qed.

(** *** MRR *)

(** C4, amended.  When the read of the members goes through, whatever the
    other four reads do, [getOverview] is fulfilled and its [mrr] is the sum
    of the monthly fees of all the members of the gym, whatever their
    activity status; a missing fee counts as 0.  The sum is the one of the
    numbers: the fees are added to 0 in the order of the rows read, each
    addition rounded to binary64. *)
Theorem mrr_sums_all_members
    (tza now_month now_today : Z) (fc fp fs fa : option failure)
    (gymId : uuid) (db : database) :
  ∃ ov,
    dashboardService.getOverview tza now_month now_today
      (dashboardService.mkFaults None fc fp fs fa) gymId db = Fulfilled ov
    ∧ dashboardService.mrr ov = fees_of_all_members gymId db.
Proof.
  eexists. split; [reflexivity|]. simpl.
  rewrite reduce_sum_number_sum. unfold fees_of_all_members, members_of_gym.
  apply number_sum_ext, monthly_fee_or_0_fee.
Qed.

(** C4 as stated fails on the code.  A gym with an active member paying 49.00
    and an inactive member paying 79.00: [mrr] is 128.00, the fees of the
    active members are 49.00. *)
Lemma mrr_counterexample :
  ∃ ov,
    dashboardService.getOverview 0 leap_day leap_day dashboardService.no_fault
      "g" two_members_db = Fulfilled ov
    ∧ dashboardService.mrr ov = of_decimal 12800
    ∧ fees_of_active_members "g" two_members_db = of_decimal 4900
    ∧ dashboardService.mrr ov ≠ fees_of_active_members "g" two_members_db.
Proof.
  eexists. split; [reflexivity|]. split; [vm_compute; reflexivity|].
  split; [vm_compute; reflexivity|]. vm_compute. discriminate.
Qed.

(** *** The calendar *)

Lemma all_from_spec f start n :
  all_from f start n = true → ∀ z, start ≤ z < start + Z.of_nat n → f z = true.
Proof.
  revert start. induction n as [|n IH]; intros start Hall z Hz; [lia|].
  simpl in Hall. apply andb_true_iff in Hall as [Hs Hall].
  destruct (decide (z = start)) as [->|Hne]; [done|].
  apply (IH (start + 1)); [done|lia].
Qed.

Lemma doe_ok_era : all_from doe_ok 0 (Z.to_nat 146097) = true.
Proof. vm_cast_no_check (eq_refl true). Qed.

Lemma doe_ok_all (doe : Z) : 0 ≤ doe < 146097 → doe_ok doe = true.
Proof. intros Hdoe. apply (all_from_spec doe_ok 0 (Z.to_nat 146097) doe_ok_era). lia. Qed.

Lemma days_from_civil_shift (y m d k : Z) :
  days_from_civil (y + 400 * k) m d = days_from_civil y m d + 146097 * k.
Proof.
  unfold days_from_civil.
  set (y' := if m <=? 2 then y - 1 else y).
  replace (if m <=? 2 then y + 400 * k - 1 else y + 400 * k)
    with (y' + k * 400) by (unfold y'; destruct (m <=? 2); lia).
  rewrite Z.div_add by done.
  replace (y' + k * 400 - (y' `div` 400 + k) * 400)
    with (y' - y' `div` 400 * 400) by lia.
  lia.
Qed.

Lemma days_from_civil_day (y m d : Z) :
  days_from_civil y m d = days_from_civil y m 1 + d - 1.
Proof. unfold days_from_civil. lia. Qed.

Lemma civil_of_doe_shift (era doe : Z) :
  civil_of_doe era doe
  = ((civil_of_doe 0 doe).1.1 + 400 * era, (civil_of_doe 0 doe).1.2, (civil_of_doe 0 doe).2).
Proof.
  unfold civil_of_doe. cbn [fst snd]. rewrite Z.mul_0_l, Z.add_0_r.
  match goal with |- context [?a <=? 2] => destruct (a <=? 2) end;
    f_equal; f_equal; lia.
Qed.

(** A day number and its civil date. *)
Lemma civil_from_days_spec (z : Z) :
  let '(y, m, d) := civil_from_days z in
  days_from_civil y m d = z
  ∧ 1 ≤ m ≤ 12
  ∧ 1 ≤ d
  ∧ civil_from_days (z - d + 1) = (y, m, 1).
Proof.
  unfold civil_from_days.
  set (z' := z + 719468).
  pose proof (Z.div_mod z' 146097 ltac:(done)) as Hdm.
  pose proof (Z.mod_pos_bound z' 146097 ltac:(done)) as Hb.
  set (era := z' `div` 146097) in *. set (doe := z' `mod` 146097) in *.
  pose proof (doe_ok_all doe Hb) as Hok. unfold doe_ok in Hok.
  rewrite (civil_of_doe_shift era doe).
  destruct (civil_of_doe 0 doe) as [[y0 m] d] eqn:Hc. cbn [fst snd].
  destruct (civil_of_doe 0 (doe - d + 1)) as [[y1 m1] d1] eqn:Hc1.
  rewrite !andb_true_iff in Hok.
  destruct Hok as (((((((Hdfc & Hm1) & Hm12) & Hd) & Hfirst) & Hy1) & Hmm) & Hd1).
  split; [|split; [lia|split; [lia|]]].
  - rewrite days_from_civil_shift. lia.
  - assert (Hz : z - d + 1 + 719468 = 146097 * era + (doe - d + 1)) by lia.
    assert (Hr : 0 ≤ doe - d + 1 < 146097) by lia.
    rewrite Hz.
    replace ((146097 * era + (doe - d + 1)) `div` 146097) with era
      by (apply Z.div_unique with (r := doe - d + 1); lia).
    replace ((146097 * era + (doe - d + 1)) `mod` 146097) with (doe - d + 1)
      by (apply Z.mod_unique with (q := era); lia).
    rewrite civil_of_doe_shift, Hc1. cbn [fst snd].
    f_equal; [f_equal|]; lia.
Qed.

Lemma LocalTime_eq (tza t : Z) : LocalTime tza t = t + tza.
Proof. reflexivity. Qed.

Lemma MakeDay_first (y m : Z) :
  1 ≤ m ≤ 12 → MakeDay y (m - 1) 1 = days_from_civil y m 1.
Proof.
  intros Hm. unfold MakeDay.
  rewrite Z.div_small, Z.mod_small by lia.
  replace (y + 0) with y by lia. replace (m - 1 + 1) with m by lia. lia.
Qed.

Lemma Day_MakeDate (day time : Z) :
  0 ≤ time < msPerDay → Day (MakeDate day time) = day.
Proof.
  intros Ht. unfold Day, MakeDate. symmetry.
  apply Z.div_unique with (r := time); [by left|lia].
Qed.

Lemma TimeWithinDay_bound (t : Z) : 0 ≤ TimeWithinDay t < msPerDay.
Proof. unfold TimeWithinDay. by apply Z.mod_pos_bound. Qed.

Lemma MakeDate_Day_le (t : Z) : MakeDate (Day t) 0 ≤ t.
Proof.
  unfold MakeDate, Day.
  pose proof (Z.div_mod t msPerDay ltac:(done)) as Hdm.
  pose proof (Z.mod_pos_bound t msPerDay ltac:(done)) as Hb.
  lia.
Qed.


(** The first day of the month of a day: a valid date, not after the day. *)
Lemma first_of_month (z y m d : Z) :
  civil_from_days z = (y, m, d) →
  1 ≤ m ≤ 12
  ∧ days_from_civil y m 1 ≤ z
  ∧ civil_from_days (days_from_civil y m 1) = (y, m, 1).
Proof.
  intros Hc. pose proof (civil_from_days_spec z) as Hspec.
  rewrite Hc in Hspec. destruct Hspec as (Hdfc & Hm & Hd & Hfirst).
  rewrite (days_from_civil_day y m d) in Hdfc.
  replace (days_from_civil y m 1) with (z - d + 1) by lia.
  split; [done|]. split; [lia|done].
Qed.

(** [startOfMonth], in local time. *)
Lemma startOfMonth_local (tza now y m d : Z) :
  civil_from_days (Day (LocalTime tza now)) = (y, m, d) →
  1 ≤ m ≤ 12 →
  LocalTime tza (paymentsService.startOfMonth tza now)
  = MakeDate (days_from_civil y m 1) 0.
Proof.
  intros Hc Hm.
  unfold paymentsService.startOfMonth, setHours0, setDate.
  unfold YearFromTime, MonthFromTime. rewrite Hc. cbn [fst snd].
  rewrite MakeDay_first by done.
  set (D := days_from_civil y m 1). set (lt := LocalTime tza now).
  unfold LocalTime at 2, UTC at 2.
  replace (MakeDate D (TimeWithinDay lt) - tza + tza)
      with (MakeDate D (TimeWithinDay lt)) by lia.
  rewrite Day_MakeDate by apply TimeWithinDay_bound.
  unfold LocalTime, UTC. lia.
Qed.

(** It is the first day of the month [now] lies in ... *)
Lemma startOfMonth_date (tza now : Z) :
  getFullYear tza (paymentsService.startOfMonth tza now) = getFullYear tza now
  ∧ getMonth tza (paymentsService.startOfMonth tza now) = getMonth tza now
  ∧ getDate tza (paymentsService.startOfMonth tza now) = 1.
Proof.
  destruct (civil_from_days (Day (LocalTime tza now))) as [[y m] d] eqn:Hc.
  destruct (first_of_month _ _ _ _ Hc) as (Hm & Hle & Hfirst).
  pose proof (startOfMonth_local tza now y m d Hc Hm) as Hstart.
  unfold getFullYear, getMonth, getDate, YearFromTime, MonthFromTime, DateFromTime.
  rewrite Hstart, Hc. rewrite Day_MakeDate by (unfold msPerDay; lia).
  rewrite Hfirst. done.
Qed.

(** ... at midnight, local time ... *)
Lemma startOfMonth_midnight (tza now : Z) :
  TimeWithinDay (LocalTime tza (paymentsService.startOfMonth tza now)) = 0.
Proof.
  destruct (civil_from_days (Day (LocalTime tza now))) as [[y m] d] eqn:Hc.
  destruct (first_of_month _ _ _ _ Hc) as (Hm & Hle & Hfirst).
  rewrite (startOfMonth_local tza now y m d Hc Hm).
  unfold TimeWithinDay, MakeDate. rewrite Z.add_0_r. by apply Z.mod_mul.
Qed.


(** *** Revenue of the month *)



(** [getOverview] is always fulfilled, with what [compose] makes of the five
    responses. *)
Lemma getOverview_queries tza now_month now_today fs gymId db :
  dashboardService.getOverview tza now_month now_today fs gymId db
  = Fulfilled
      (dashboardService.compose tza now_month now_today
         (select (dashboardService.fault_members fs) (members_of_gym gymId db))
         (select (dashboardService.fault_coaches fs)
            (List.filter (λ c, bool_decide (c_gym_id c = gymId)) (rows (coaches db))))
         (select (dashboardService.fault_payments fs)
            (paymentsService.payments_of_gym gymId db))
         (select (dashboardService.fault_sessions fs)
            (List.filter (λ s, bool_decide (s_gym_id s = gymId)) (rows (sessions db))))
         (select (dashboardService.fault_alerts fs)
            (dashboardService.unread_alerts gymId db))).
Proof. reflexivity. Qed.



(** *** The overview when reads fail *)

(** Rejected promises reject [getOverview], with the reason of one of
    them. *)
Lemma getOverview_of_rejected tza now_month now_today rs e :
  rejected_with rs e →
  ∃ e', dashboardService.getOverview_of tza now_month now_today rs = Rejected e'
        ∧ rejected_with rs e'.
Proof.
  destruct rs as [rm rc rp rs ra]. unfold rejected_with. intros H.
  cbn [dashboardService.read_members dashboardService.read_coaches
       dashboardService.read_payments dashboardService.read_sessions
       dashboardService.read_alerts] in *.
  unfold dashboardService.getOverview_of.
  cbn [dashboardService.read_members dashboardService.read_coaches
       dashboardService.read_payments dashboardService.read_sessions
       dashboardService.read_alerts].
  destruct rm, rc, rp, rs, ra; cbn [Promise_all5]; eauto 10;
    destruct H as [H|[H|[H|[H|H]]]]; discriminate.
Qed.

(** C2, amended.  If one of the five promises is rejected, [getOverview] is
    rejected, and with the reason of a rejected one: with that reason when
    the rejected promises have one reason, as when one only is rejected.
    The awaited queries are not rejected: a failed query is fulfilled with
    [data] null and [error] set, [getOverview] does not look at [error], and
    it is fulfilled with the snapshot it would compute had the failed query
    returned no rows. *)
Theorem getOverview_failure_semantics (tza now_month now_today : Z) :
  (∀ rs e,
     rejected_with rs e →
     ∃ e', dashboardService.getOverview_of tza now_month now_today rs = Rejected e'
           ∧ rejected_with rs e')
  ∧ (∀ rs e,
       rejected_with rs e →
       (∀ e', rejected_with rs e' → e' = e) →
       dashboardService.getOverview_of tza now_month now_today rs = Rejected e)
  ∧ (∀ fs gymId db,
       ∃ ov, dashboardService.getOverview tza now_month now_today fs gymId db
             = Fulfilled ov)
  ∧ (∀ e members coaches payments sessions alerts,
       let compose := dashboardService.compose tza now_month now_today in
       compose (mkResponse None (Some e)) coaches payments sessions alerts
         = compose (mkResponse (Some []) None) coaches payments sessions alerts
       ∧ compose members (mkResponse None (Some e)) payments sessions alerts
         = compose members (mkResponse (Some []) None) payments sessions alerts
       ∧ compose members coaches (mkResponse None (Some e)) sessions alerts
         = compose members coaches (mkResponse (Some []) None) sessions alerts
       ∧ compose members coaches payments (mkResponse None (Some e)) alerts
         = compose members coaches payments (mkResponse (Some []) None) alerts
       ∧ compose members coaches payments sessions (mkResponse None (Some e))
         = compose members coaches payments sessions (mkResponse (Some []) None)).
Proof.
  split; [|split; [|split]].
  - apply getOverview_of_rejected.
  - intros rs e H Hone.
    destruct (getOverview_of_rejected tza now_month now_today rs e H) as (e' & -> & H').
    f_equal. by apply Hone.
  - intros fs gymId db. rewrite getOverview_queries. eauto.
  - intros e members coaches payments sessions alerts. cbn zeta.
    repeat split; reflexivity.
Qed.

Lemma getOverview_failure_semantics_witness :
  dashboardService.getOverview_of 0 leap_day leap_day members_rejected
  = Rejected fetch_failed.
Proof.
  destruct (getOverview_failure_semantics 0 leap_day leap_day) as (_ & Hrej & _).
  apply (Hrej members_rejected fetch_failed).
  - left. reflexivity.
  - intros e' [H|[H|[H|[H|H]]]]; vm_compute in H; congruence.
Defined.

(** C2 as stated fails on the code.  The members request fails and the other
    four go through: [getOverview] is fulfilled, with no members and the two
    coaches and the payment of the gym. *)
Lemma getOverview_counterexample :
  ∃ ov,
    dashboardService.getOverview 0 leap_day leap_day members_fail "g" gym_db
      = Fulfilled ov
    ∧ (∀ e, dashboardService.getOverview 0 leap_day leap_day members_fail "g" gym_db
            ≠ Rejected e)
    ∧ dashboardService.totalMembers ov = 0
    ∧ dashboardService.mrr ov = zero
    ∧ dashboardService.totalCoaches ov = 2
    ∧ dashboardService.revenueThisMonth ov = of_decimal 10000.
Proof.
  eexists. split; [reflexivity|]. split; [intros e; discriminate|].
  repeat split; vm_compute; reflexivity.
Qed.

(** *** Revenue by month *)

Lemma add_to_month_lookup tza acc q key :
  paymentsService.add_to_month tza acc q !! key
  = if in_month tza key q
    then Some (add (number_or_0 (acc !! key)) (amount q))
    else acc !! key.
Proof.
  unfold paymentsService.add_to_month, in_month.
  destruct (p_paid_date q) as [d|]; [|done].
  case_bool_decide as Hk.
  - subst key. rewrite lookup_insert_eq, amount_or_0_amount. done.
  - by rewrite lookup_insert_ne.
Qed.

Lemma add_to_bucket_snoc (acc : number) (xs : list number) (x : number) :
  add_to_bucket acc (xs ++ [x])
  = add (number_or_0 (Some (add_to_bucket acc xs))) x.
Proof.
  revert acc. induction xs as [|y xs IH]; intros acc; [done|].
  cbn [app add_to_bucket]. apply IH.
Qed.

(** A bucket is the plain sum in order as long as no running sum is [-0] or
    [NaN]. *)
Lemma add_to_bucket_add_in_order (acc : number) (xs : list number) :
  (∀ n, kept_by_or_0 (add_in_order acc (take n xs)) = true) →
  add_to_bucket acc xs = add_in_order acc xs.
Proof.
  revert acc. induction xs as [|x xs IH]; intros acc Hkept; [done|].
  cbn [add_to_bucket add_in_order].
  pose proof (Hkept 0%nat) as H0. cbn [take add_in_order] in H0.
  replace (if truthy acc then acc else zero) with acc
    by (by destruct acc as [[]| | |]).
  apply IH. intros n. apply (Hkept (S n)).
Qed.

Lemma filter_none {A} (f : A → bool) (xs : list A) :
  existsb f xs = false → List.filter f xs = [].
Proof.
  induction xs as [|x xs IH]; [done|].
  cbn [existsb List.filter]. intros [Hx Hxs]%orb_false_iff.
  rewrite Hx. by apply IH.
Qed.

(** Each bucket holds the sum of the amounts of the payments dated in its
    month, added in the order of the rows; a month without such a payment
    has no bucket. *)
Lemma group_by_month_lookup tza data key :
  paymentsService.group_by_month tza data !! key
  = if existsb (in_month tza key) data
    then Some (month_revenue tza key data)
    else None.
Proof.
  unfold paymentsService.group_by_month, month_revenue.
  induction data as [|q data IH] using rev_ind; [done|].
  rewrite fold_left_app. cbn [fold_left].
  rewrite add_to_month_lookup, IH.
  rewrite existsb_app, List.filter_app. cbn [existsb List.filter].
  rewrite orb_false_r.
  destruct (in_month tza key q) eqn:Hq.
  - rewrite orb_true_r, fmap_app. cbn [fmap list_fmap].
    rewrite add_to_bucket_snoc. do 2 f_equal.
    destruct (existsb (in_month tza key) data) eqn:He; [done|].
    by rewrite (filter_none _ _ He).
  - by rewrite orb_false_r, app_nil_r.
Qed.

Lemma getMonth_range (tza date : Z) : 1 ≤ getMonth tza date + 1 ≤ 12.
Proof.
  unfold getMonth, MonthFromTime.
  pose proof (civil_from_days_spec (Day (LocalTime tza date))) as Hspec.
  destruct (civil_from_days (Day (LocalTime tza date))) as [[y m] d].
  cbn [fst snd]. lia.
Qed.

Lemma padStart2_month (m : Z) :
  1 ≤ m ≤ 12 → String.length (padStart2 (String_of m)) = 2%nat.
Proof.
  intros Hm.
  assert (m = 1 ∨ m = 2 ∨ m = 3 ∨ m = 4 ∨ m = 5 ∨ m = 6 ∨ m = 7 ∨ m = 8
          ∨ m = 9 ∨ m = 10 ∨ m = 11 ∨ m = 12) as Hcases by lia.
  repeat (destruct Hcases as [->|Hcases]; [vm_compute; reflexivity|]).
  subst m. vm_compute. reflexivity.
Qed.

Lemma paid_since_undated start p :
  p_paid_date p = None → paymentsService.paid_since start p = false.
Proof.
  intros Hd. unfold paymentsService.paid_since. rewrite Hd. apply andb_false_r.
Qed.

Lemma filter_paid_since_undated start p l1 l2 :
  p_paid_date p = None →
  List.filter (paymentsService.paid_since start) (l1 ++ p :: l2)
  = List.filter (paymentsService.paid_since start) (l1 ++ l2).
Proof.
  intros Hd. rewrite !List.filter_app. cbn [List.filter].
  by rewrite (paid_since_undated start p Hd).
Qed.

(** C8.  A payment without [paid_date] (whatever its status, so also when it
    is paid) adds to no sum by month: [revenueThisMonth] of [getStats] and of
    [getOverview] is the same with and without it; the query of
    [getRevenueByMonth] does not return it, and the grouping would skip it;
    every bucket is the sum of the amounts of the payments dated in its
    month (the sum of the numbers, added in the order of the rows), under
    the key made of the year, a dash and the month in two digits, both of
    the local date of [paid_date]. *)
Theorem undated_payment_in_no_month (p : payment) :
  p_paid_date p = None →
  (∀ start (l1 l2 : list payment),
     paymentsService.revenueThisMonth (paymentsService.stats_of start (l1 ++ p :: l2)%list)
     = paymentsService.revenueThisMonth (paymentsService.stats_of start (l1 ++ l2)%list))
  ∧ (∀ tza now_month now_today members coaches sessions alerts
       (l1 l2 : list payment),
       dashboardService.revenueThisMonth
         (dashboardService.compose tza now_month now_today members coaches
            (mkResponse (Some (l1 ++ p :: l2)%list) None) sessions alerts)
       = dashboardService.revenueThisMonth
           (dashboardService.compose tza now_month now_today members coaches
              (mkResponse (Some (l1 ++ l2)%list) None) sessions alerts))
  ∧ (∀ startDate gymId db, p ∉ paymentsService.paid_payments_since startDate gymId db)
  ∧ (∀ tza (l1 l2 : list payment),
       paymentsService.group_by_month tza (l1 ++ p :: l2)%list
       = paymentsService.group_by_month tza (l1 ++ l2)%list)
  ∧ (∀ tza data key v,
       paymentsService.group_by_month tza data !! key = Some v →
       v = month_revenue tza key data
       ∧ in_month tza key p = false
       ∧ ∃ q d,
           q ∈ data
           ∧ p_paid_date q = Some d
           ∧ key = String_of (getFullYear tza (Date_of_timestamptz d)) +:+ "-"
                   +:+ padStart2 (String_of (getMonth tza (Date_of_timestamptz d) + 1))
           ∧ 1 ≤ getMonth tza (Date_of_timestamptz d) + 1 ≤ 12
           ∧ String.length
               (padStart2 (String_of (getMonth tza (Date_of_timestamptz d) + 1)))
             = 2%nat).
Proof.
  intros Hd. split; [|split; [|split; [|split]]].
  - intros start l1 l2. unfold paymentsService.stats_of.
    cbn [paymentsService.revenueThisMonth].
    by rewrite filter_paid_since_undated.
  - intros. unfold dashboardService.compose.
    cbn [dashboardService.revenueThisMonth data from_option id].
    by rewrite filter_paid_since_undated.
  - intros startDate gymId db Hin. unfold paymentsService.paid_payments_since in Hin.
    rewrite merge_sort_Permutation in Hin.
    apply list_elem_of_In, filter_In in Hin as [_ Hp].
    rewrite Hd in Hp. simpl in Hp. by rewrite andb_false_r in Hp.
  - intros tza l1 l2. unfold paymentsService.group_by_month.
    rewrite !fold_left_app. cbn [fold_left].
    unfold paymentsService.add_to_month at 2. by rewrite Hd.
  - intros tza data key v Hv. rewrite group_by_month_lookup in Hv.
    destruct (existsb (in_month tza key) data) eqn:He; [|done].
    injection Hv as <-. split; [done|]. split.
    { unfold in_month. by rewrite Hd. }
    apply existsb_exists in He as (q & Hq & Hkey).
    unfold in_month in Hkey. destruct (p_paid_date q) as [d|] eqn:Hqd; [|done].
    apply bool_decide_eq_true in Hkey.
    exists q, d. split; [by apply list_elem_of_In|]. split; [done|].
    split; [by rewrite <- Hkey|].
    split; [apply getMonth_range|apply padStart2_month, getMonth_range].
Qed.

Lemma undated_payment_in_no_month_witness :
  paymentsService.group_by_month 0 [payment_dated_ahead; payment_undated]
  = paymentsService.group_by_month 0 [payment_dated_ahead]
  ∧ paymentsService.group_by_month 0 [payment_dated_ahead] !! "2024-03"
    = Some (of_decimal 10000).
Proof.
  destruct (undated_payment_in_no_month payment_undated) as (_ & _ & _ & Hgroup & _).
  - reflexivity.
  - split.
    + exact (Hgroup 0 [payment_dated_ahead] []).
    + vm_compute. reflexivity.
Defined.

(** *** Worked examples *)

(** A last visit 3 days ago is active, 20 days ago moderate, 45 days ago
    inactive, and no visit at all inactive. *)
Example activity_case_examples :
  let now := INTERVAL_days 100 in
  activity_case now (Some (now - INTERVAL_days 3)) = active
  ∧ activity_case now (Some (now - INTERVAL_days 20)) = moderate
  ∧ activity_case now (Some (now - INTERVAL_days 45)) = inactive
  ∧ activity_case now None = inactive.
Proof. repeat split. Qed.

(** The edges: exactly 7 days ago is still active, exactly 30 days ago still
    moderate. *)
Example activity_case_edges :
  let now := INTERVAL_days 100 in
  activity_case now (Some (now - INTERVAL_days 7)) = active
  ∧ activity_case now (Some (now - INTERVAL_days 7 - 1)) = moderate
  ∧ activity_case now (Some (now - INTERVAL_days 30)) = moderate
  ∧ activity_case now (Some (now - INTERVAL_days 30 - 1)) = inactive.
Proof. repeat split. Qed.

(** Payments of 100.00 paid this month, 50.00 pending and 30.00 overdue. *)
Example getStats_example :
  paymentsService.getStats 0 leap_day None "g" three_payments_db
  = Fulfilled (paymentsService.mkStats (of_decimal 10000) (of_decimal 5000)
                 (of_decimal 3000) (of_decimal 10000)).
Proof. vm_compute. reflexivity. Qed.

Example getRevenueByMonth_example :
  paymentsService.getRevenueByMonth 0 leap_day None "g" 12 three_payments_db
  = Fulfilled {[ "2024-02" := of_decimal 10000 ]}.
Proof. vm_compute. reflexivity. Qed.

(** [setMonth] carries an overflowing day into the next month: one month
    back from 2023-03-31 is 2023-03-03. *)
Example setMonth_carries :
  let t := setMonth 0 1 (MakeDate (days_from_civil 2023 3 31) 0) in
  (getFullYear 0 t, getMonth 0 t + 1, getDate 0 t) = (2023, 3, 3).
Proof. vm_compute. reflexivity. Qed.

(* ===================================================================== *)
(** ** More of the code                                                   *)
(* ===================================================================== *)

(** *** The client counts as an invariant of the statements on [members] *)

Lemma refs_other c c' m : m_coach_id m = c' → c' ≠ Some c → refs c m = 0.
Proof. intros <- Hne. unfold refs. by rewrite decide_False. Qed.

Lemma refs_same c m : m_coach_id m = Some c → refs c m = 1.
Proof. intros Hc. unfold refs. by rewrite decide_True. Qed.

Lemma coaches_recount_lookup now c db y co :
  may_manage_coaches (auth_role db) = true →
  coaches (UPDATE_coaches_client_count now c db) !! y = Some co →
  (c = Some y ∧ c_client_count co = Some (count_members_of_coach y (members db)))
  ∨ (c ≠ Some y ∧ coaches db !! y = Some co).
Proof.
  intros Hr. unfold UPDATE_coaches_client_count.
  destruct c as [c|]; [rewrite Hr|]; simpl; [|by right].
  destruct (decide (c = y)) as [->|Hne].
  - rewrite lookup_alter_eq. destruct (coaches db !! y); [|done].
    intros [= <-]. by left.
  - rewrite lookup_alter_ne by done. right. split; [congruence|done].
Qed.

Lemma one_client_db_accurate : client_counts_accurate one_client_db.
Proof.
  intros c co Hc. unfold one_client_db in Hc. cbn [coaches] in Hc.
  apply lookup_insert_Some in Hc as [[<- <-]|[_ Hc]]; [reflexivity|].
  apply lookup_singleton_Some in Hc as [<- <-]. reflexivity.
Defined.

(** X1.  For a caller that is an owner, an admin or a manager, inserting a
    member with a fresh id (and, if it names a coach, one that exists) goes
    through and keeps the counts accurate: if every coach stored the number
    of members referencing it, every coach still does. *)
Theorem INSERT_member_keeps_counts
    (now : timestamptz) (NEW : member) (db : database) :
  may_manage_coaches (auth_role db) = true →
  members db !! m_id NEW = None →
  coach_fk_ok (m_coach_id NEW) db = true →
  client_counts_accurate db →
  ∃ db',
    INSERT_member now NEW db = Ok db'
    ∧ members db' = <[m_id NEW := NEW]> (members db)
    ∧ client_counts_accurate db'.
Proof.
  intros Hr Hfresh Hfk Hinv. unfold INSERT_member.
  rewrite bool_decide_eq_false_2 by (rewrite Hfresh; by intros [? ?]).
  rewrite Hfk. cbn [negb]. eexists. split; [done|].
  rewrite members_update_coach_client_count. split; [done|].
  intros y co Hy. rewrite members_update_coach_client_count. cbn [members with_members].
  unfold update_coach_client_count in Hy. cbn [coach_id_of mbind option_bind] in Hy.
  rewrite bool_decide_eq_true_2 in Hy by done. cbn [orb] in Hy.
  rewrite (bool_decide_eq_false_2 (INSERT = UPDATE)) in Hy by done.
  cbn [sql_and holds] in Hy.
  assert (Hcount : ∀ c', m_coach_id NEW ≠ Some c' →
            count_members_of_coach c' (<[m_id NEW := NEW]> (members db))
            = count_members_of_coach c' (members db)).
  { intros c' Hc'. rewrite count_members_insert, Hfresh. cbn [from_option].
    rewrite (refs_other c' _ NEW eq_refl Hc'). lia. }
  destruct (m_coach_id NEW) as [c|] eqn:Hc; cbn [sql_is_not_null holds] in Hy.
  - apply coaches_recount_lookup in Hy as [[[= ->] Hco]|[Hne Hy]];
      [done| |exact Hr].
    rewrite Hcount by done. by apply Hinv.
  - rewrite Hcount by done. by apply Hinv.
Qed.

Lemma INSERT_member_keeps_counts_witness :
  ∃ db',
    INSERT_member 60 (client "m2" (Some "A")) one_client_db = Ok db'
    ∧ client_counts_accurate db'.
Proof.
  destruct (INSERT_member_keeps_counts 60 (client "m2" (Some "A")) one_client_db)
    as (db' & Hrun & _ & Hinv).
  - reflexivity.
  - reflexivity.
  - reflexivity.
  - exact one_client_db_accurate.
  - exists db'. split; [exact Hrun|exact Hinv].
Defined.

(** X2.  For a caller that is an owner, an admin or a manager, deleting a
    member keeps the counts accurate, and the member is gone from
    [members]. *)
Theorem DELETE_member_keeps_counts (now : timestamptz) (x : uuid) (db : database) :
  may_manage_coaches (auth_role db) = true →
  client_counts_accurate db →
  client_counts_accurate (DELETE_member now x db)
  ∧ members (DELETE_member now x db) = delete x (members db).
Proof.
  intros Hr Hinv. unfold DELETE_member.
  destruct (members db !! x) as [OLD|] eqn:Hx.
  - rewrite members_update_coach_client_count. cbn [members with_members
      with_member_visits with_session_participants with_payments with_sessions].
    split; [|done].
    intros y co Hy. rewrite members_update_coach_client_count.
    cbn [members with_members with_member_visits with_session_participants
         with_payments with_sessions].
    unfold update_coach_client_count in Hy. cbn [coach_id_of mbind option_bind] in Hy.
    rewrite (bool_decide_eq_false_2 (DELETE = INSERT)) in Hy by done.
    rewrite (bool_decide_eq_false_2 (DELETE = UPDATE)) in Hy by done.
    rewrite (bool_decide_eq_true_2 (DELETE = DELETE)) in Hy by done.
    cbn [orb] in Hy.
    assert (Hcount : ∀ c', m_coach_id OLD ≠ Some c' →
              count_members_of_coach c' (delete x (members db))
              = count_members_of_coach c' (members db)).
    { intros c' Hc'. rewrite count_members_delete, Hx. cbn [from_option].
      rewrite (refs_other c' _ OLD eq_refl Hc'). lia. }
    destruct (m_coach_id OLD) as [c|] eqn:Hc; cbn [sql_is_not_null holds] in Hy.
    + apply coaches_recount_lookup in Hy as [[[= ->] Hco]|[Hne Hy]];
        [done| |exact Hr].
      cbn [coaches with_members with_member_visits with_session_participants
           with_payments with_sessions] in Hy.
      rewrite Hcount by done. by apply Hinv.
    + cbn [coaches with_members with_member_visits with_session_participants
           with_payments with_sessions] in Hy.
      rewrite Hcount by done. by apply Hinv.
  - split; [done|]. symmetry. by apply delete_id.
Qed.

Lemma DELETE_member_keeps_counts_witness :
  client_counts_accurate (DELETE_member 70 "m1" one_client_db).
Proof.
  apply (DELETE_member_keeps_counts 70 "m1" one_client_db).
  - reflexivity.
  - exact one_client_db_accurate.
Defined.

(** X3.  For a caller that is an owner, an admin or a manager, assigning a
    member to a coach that exists (a first assignment, a reassignment, or
    the coach it already has) goes through and keeps the counts accurate. *)
Theorem UPDATE_member_coach_keeps_counts
    (now : timestamptz) (M B : uuid) (db : database) (m : member) (b : coach) :
  may_manage_coaches (auth_role db) = true →
  members db !! M = Some m →
  coaches db !! B = Some b →
  client_counts_accurate db →
  ∃ db',
    UPDATE_member_coach now M (Some B) db = Ok db'
    ∧ members db' !! M = Some (update_members_updated_at now (set_m_coach_id (Some B) m))
    ∧ client_counts_accurate db'.
Proof.
  intros Hr HM HB Hinv.
  set (NEW := update_members_updated_at now (set_m_coach_id (Some B) m)).
  assert (Hcount : ∀ c', m_coach_id m ≠ Some c' → c' ≠ B →
            count_members_of_coach c' (<[M := NEW]> (members db))
            = count_members_of_coach c' (members db)).
  { intros c' Hc' HneB. rewrite count_members_insert, HM. cbn [from_option].
    rewrite (refs_other c' _ m eq_refl Hc').
    rewrite (refs_other c' (Some B) NEW) by (done || congruence). lia. }
  destruct (decide (m_coach_id m = Some B)) as [Hsame|Hne].
  - unfold UPDATE_member_coach.
    erewrite UPDATE_members_by_id_same_coach; [|exact HM|done|by rewrite Hsame].
    eexists. split; [done|]. rewrite members_update_coach_client_count.
    cbn [members with_members]. fold NEW. split; [by rewrite lookup_insert_eq|].
    intros y co Hy. rewrite members_update_coach_client_count. cbn [members with_members].
    unfold update_coach_client_count in Hy. cbn [coach_id_of mbind option_bind] in Hy.
    rewrite (bool_decide_eq_false_2 (UPDATE = INSERT)) in Hy by done.
    rewrite (bool_decide_eq_true_2 (UPDATE = UPDATE)) in Hy by done.
    cbn [orb] in Hy. rewrite Hsame in Hy. unfold NEW in Hy.
    cbn [m_coach_id update_members_updated_at set_m_updated_at set_m_coach_id
         sql_is_not_null sql_neq sql_and holds] in Hy.
    rewrite (bool_decide_eq_false_2 (B ≠ B)) in Hy by (intros H; by apply H).
    cbn [sql_and holds] in Hy.
    apply coaches_recount_lookup in Hy as [[[= ->] Hco]|[HneB Hy]];
      [done| |exact Hr].
    cbn [coaches with_members] in Hy.
    rewrite Hcount; [by apply Hinv|congruence|congruence].
  - rewrite (UPDATE_member_coach_assign now M B db m b HM HB Hne). fold NEW.
    eexists. split; [done|]. rewrite !members_UPDATE_coaches_client_count.
    cbn [members with_members]. split; [by rewrite lookup_insert_eq|].
    intros y co Hy. rewrite !members_UPDATE_coaches_client_count. cbn [members with_members].
    apply coaches_recount_lookup in Hy as [[HA Hco]|[HneA Hy]];
      [| |by rewrite auth_role_UPDATE_coaches_client_count].
    + rewrite members_UPDATE_coaches_client_count in Hco. exact Hco.
    + apply coaches_recount_lookup in Hy as [[[= ->] Hco]|[HneB Hy]];
        [done| |exact Hr].
      cbn [coaches with_members] in Hy.
      rewrite Hcount; [by apply Hinv|done|congruence].
Qed.

Lemma UPDATE_member_coach_keeps_counts_witness :
  ∃ db',
    UPDATE_member_coach 80 "m1" (Some "B") one_client_db = Ok db'
    ∧ client_counts_accurate db'.
Proof.
  destruct (UPDATE_member_coach_keeps_counts 80 "m1" "B" one_client_db
              (client "m1" (Some "A")) coach_B)
    as (db' & Hrun & _ & Hinv).
  - reflexivity.
  - reflexivity.
  - reflexivity.
  - exact one_client_db_accurate.
  - exists db'. split; [exact Hrun|exact Hinv].
Defined.

(** X4.  The update made by the visit trigger fires the client-count trigger
    in turn: for a caller that is an owner, an admin or a manager, a visit
    of a member of coach [A] recounts [A], so that a stored count that was
    off is right again; the other coaches are not touched. *)
Theorem visit_recounts_the_coach
    (now : timestamptz) (NEW : member_visit) (db : database)
    (m : member) (A : uuid) (a : coach) :
  may_manage_coaches (auth_role db) = true →
  member_visits db !! v_id NEW = None →
  members db !! v_member_id NEW = Some m →
  m_coach_id m = Some A →
  coaches db !! A = Some a →
  ∃ db' a',
    INSERT_member_visit now NEW db = Ok db'
    ∧ coaches db' !! A = Some a'
    ∧ c_client_count a' = Some (count_members_of_coach A (members db'))
    ∧ count_members_of_coach A (members db') = count_members_of_coach A (members db)
    ∧ ∀ y, y ≠ A → coaches db' !! y = coaches db !! y.
Proof.
  intros Hr Hfresh Hm HA Ha.
  rewrite (INSERT_member_visit_run now NEW db m Hfresh Hm).
  set (m1 := update_members_updated_at now _).
  set (db0 := with_member_visits _ db).
  assert (Hrun : update_coach_client_count now UPDATE (Some m) (Some m1)
                   (with_members (<[v_member_id NEW := m1]> (members db0)) db0)
                 = UPDATE_coaches_client_count now (Some A)
                     (with_members (<[v_member_id NEW := m1]> (members db0)) db0)).
  { unfold update_coach_client_count. cbn [coach_id_of mbind option_bind].
    rewrite (bool_decide_eq_false_2 (UPDATE = INSERT)) by done.
    rewrite (bool_decide_eq_true_2 (UPDATE = UPDATE)) by done. cbn [orb].
    unfold m1. cbn [m_coach_id update_members_updated_at set_m_updated_at
                    set_m_activity_status].
    rewrite HA. cbn [sql_is_not_null sql_neq sql_and holds].
    rewrite (bool_decide_eq_false_2 (A ≠ A)) by (intros H; by apply H). done. }
  rewrite Hrun.
  assert (Hcount : count_members_of_coach A (<[v_member_id NEW := m1]> (members db))
                   = count_members_of_coach A (members db)).
  { rewrite count_members_insert, Hm. cbn [from_option].
    rewrite (refs_same A m HA), (refs_same A m1) by (unfold m1; done). lia. }
  eexists _, _. split; [done|]. split; [by apply coaches_recount_eq|].
  rewrite members_UPDATE_coaches_client_count. cbn [members with_members].
  split; [done|]. split; [exact Hcount|].
  intros y Hy. by rewrite coaches_recount_ne.
Qed.

Lemma visit_recounts_the_coach_witness :
  ∃ db' a',
    INSERT_member_visit 90 (mkVisit "v1" "m2" "g" (Some 90) None) stale_count_db = Ok db'
    ∧ coaches db' !! "A" = Some a'
    ∧ c_client_count a' = Some 1.
Proof.
  destruct (visit_recounts_the_coach 90 (mkVisit "v1" "m2" "g" (Some 90) None)
              stale_count_db (client "m2" (Some "A")) "A"
              (set_c_client_count (Some 2) coach_A))
    as (db' & a' & Hrun & Ha' & Hcount & Hsame & _).
  - reflexivity.
  - reflexivity.
  - reflexivity.
  - reflexivity.
  - reflexivity.
  - exists db', a'. split; [exact Hrun|]. split; [exact Ha'|].
    rewrite Hcount, Hsame. reflexivity.
Defined.

(** *** The counters *)

(** X5.  [increment_visits]: for a member with [n] visits below the top of
    the [INTEGER] range it returns [n + 1], stores it with [last_visit] set
    to [NOW()], and leaves the other members alone; at the top of the range
    it raises; for an id that is no member it returns NULL and writes
    nothing. *)
Theorem increment_visits_effect (now : timestamptz) (x : uuid) (db : database) :
  (members db !! x = None → increment_visits now x db = Ok (db, None))
  ∧ (∀ m n,
       members db !! x = Some m →
       m_total_visits m = Some n →
       int4_min ≤ n < int4_max →
       ∃ db',
         increment_visits now x db = Ok (db', Some (n + 1))
         ∧ members db' !! x
           = Some (update_members_updated_at now
                     (set_m_last_visit (Some now) (set_m_total_visits (Some (n + 1)) m)))
         ∧ ∀ y, y ≠ x → members db' !! y = members db !! y)
  ∧ (∀ m,
       members db !! x = Some m →
       m_total_visits m = Some int4_max →
       increment_visits now x db = Err integer_out_of_range).
Proof.
  split; [|split].
  - intros Hx. unfold increment_visits, UPDATE_members_by_id. rewrite Hx.
    cbn [mbind option_bind]. by rewrite Hx.
  - intros m n Hx Hn Hr. unfold increment_visits.
    rewrite (UPDATE_members_by_id_same_coach now x _ db m
               (set_m_last_visit (Some now) (set_m_total_visits (Some (n + 1)) m)));
      [|exact Hx| |done].
    + rewrite members_update_coach_client_count. cbn [members with_members].
      rewrite lookup_insert_eq. cbn [mbind option_bind].
      eexists. split; [reflexivity|].
      rewrite members_update_coach_client_count. cbn [members with_members].
      split; [by rewrite lookup_insert_eq|].
      intros y Hy. by rewrite lookup_insert_ne.
    + rewrite Hn. cbn [int4_add]. unfold int4.
      by rewrite bool_decide_eq_true_2 by (unfold int4_min, int4_max in *; lia).
  - intros m Hx Hn. unfold increment_visits, UPDATE_members_by_id.
    rewrite Hx, Hn. reflexivity.
Qed.

Lemma increment_visits_effect_witness :
  ∃ db', increment_visits 100 "m1" (example_members_db None) = Ok (db', Some 13).
Proof.
  destruct (increment_visits_effect 100 "m1" (example_members_db None))
    as (_ & Hinc & _).
  destruct (Hinc (example_member None) 12) as (db' & Hrun & _).
  - reflexivity.
  - reflexivity.
  - unfold int4_min, int4_max. lia.
  - exists db'. exact Hrun.
Defined.

(** X6.  The tier never gets better by waiting and never worse by a later
    visit: it is monotone in [last_visit] and antitone in [NOW()], and a
    member never seen is in the lowest tier. *)
Theorem activity_case_monotone (now : timestamptz) :
  (∀ v1 v2, v1 ≤ v2 →
     tier_rank (activity_case now (Some v1)) ≤ tier_rank (activity_case now (Some v2)))
  ∧ (∀ later v, now ≤ later →
       tier_rank (activity_case later v) ≤ tier_rank (activity_case now v))
  ∧ (∀ v, tier_rank (activity_case now None) ≤ tier_rank (activity_case now v)).
Proof.
  unfold activity_case, INTERVAL_days, microseconds_per_day.
  split; [|split].
  - intros v1 v2 Hv. cbn [sql_ge holds].
    repeat case_bool_decide; cbn [tier_rank]; lia.
  - intros later [v|] Hl; cbn [sql_ge holds]; [|done].
    repeat case_bool_decide; cbn [tier_rank]; lia.
  - intros [v|]; cbn [sql_ge holds]; [|done].
    repeat case_bool_decide; cbn [tier_rank]; lia.
Qed.

Lemma activity_case_monotone_witness :
  tier_rank (activity_case (INTERVAL_days 40) (Some (INTERVAL_days 5)))
  ≤ tier_rank (activity_case (INTERVAL_days 40) (Some (INTERVAL_days 35))).
Proof.
  destruct (activity_case_monotone (INTERVAL_days 40)) as (Hmono & _).
  apply Hmono. unfold INTERVAL_days, microseconds_per_day. lia.
Defined.

(** X7.  On a count [c] with [0 ≤ c] below the top of the range, adding a
    participant and then removing one gives [c] back; removing one and then
    adding one gives [max(1, c)], so an empty session ends at 1. *)
Theorem increment_then_decrement
    (now1 now2 : timestamptz) (x : uuid) (db : database) (s : session) (c : Z) :
  sessions db !! x = Some s →
  s_current_participants s = Some c →
  0 ≤ c < int4_max →
  (∃ db1 db2 s2,
     increment_session_participants now1 x db = Ok db1
     ∧ decrement_session_participants now2 x db1 = Ok db2
     ∧ sessions db2 !! x = Some s2
     ∧ s_current_participants s2 = Some c)
  ∧ (∃ db1 db2 s2,
       decrement_session_participants now1 x db = Ok db1
       ∧ increment_session_participants now2 x db1 = Ok db2
       ∧ sessions db2 !! x = Some s2
       ∧ s_current_participants s2 = Some (Z.max 1 c)).
Proof.
  intros Hx Hs Hc. split.
  - rewrite (increment_session_participants_run now1 x db s c Hx Hs) by lia.
    rewrite bool_decide_eq_false_2 by lia.
    eexists _, _, _. split; [done|].
    erewrite (decrement_session_participants_run now2 x _ _ (c + 1));
      [|cbn [sessions with_sessions]; by rewrite lookup_insert_eq|done|lia].
    split; [done|]. cbn [sessions with_sessions]. rewrite lookup_insert_eq.
    split; [done|]. cbn [s_current_participants update_sessions_updated_at
      set_s_updated_at set_s_current_participants]. f_equal. lia.
  - rewrite (decrement_session_participants_run now1 x db s c Hx Hs) by lia.
    eexists _, _, _. split; [done|].
    erewrite (increment_session_participants_run now2 x _ _ (Z.max 0 (c - 1)));
      [|cbn [sessions with_sessions]; by rewrite lookup_insert_eq|done|lia].
    rewrite bool_decide_eq_false_2 by lia.
    split; [done|]. cbn [sessions with_sessions]. rewrite lookup_insert_eq.
    split; [done|]. cbn [s_current_participants update_sessions_updated_at
      set_s_updated_at set_s_current_participants]. f_equal. lia.
Qed.

Lemma increment_then_decrement_witness :
  ∃ db1 db2 s2,
    decrement_session_participants 10 "s1" empty_session_db = Ok db1
    ∧ increment_session_participants 20 "s1" db1 = Ok db2
    ∧ sessions db2 !! "s1" = Some s2
    ∧ s_current_participants s2 = Some 1.
Proof.
  destruct (increment_then_decrement 10 20 "s1" empty_session_db empty_session 0)
    as (_ & db1 & db2 & s2 & H1 & H2 & H3 & H4).
  - reflexivity.
  - reflexivity.
  - unfold int4_max. lia.
  - exists db1, db2, s2. split; [exact H1|]. split; [exact H2|].
    split; [exact H3|exact H4].
Defined.

(** X8.  Deleting a member leaves no row behind that references it: its
    visits, participations and payments are gone, and every visit,
    participation and payment of another member is kept as it was; its
    sessions are kept, with a NULL [member_id] and [updated_at] set to
    [NOW()], so that no session names it any more, and the sessions of the
    others are kept as they were. *)
Theorem DELETE_member_cascades (now : timestamptz) (x : uuid) (db : database) (m : member) :
  members db !! x = Some m →
  let db' := DELETE_member now x db in
  members db' !! x = None
  ∧ (∀ k v, member_visits db' !! k = Some v ↔
            member_visits db !! k = Some v ∧ v_member_id v ≠ x)
  ∧ (∀ k v, session_participants db' !! k = Some v ↔
            session_participants db !! k = Some v ∧ sp_member_id v ≠ x)
  ∧ (∀ k v, payments db' !! k = Some v ↔
            payments db !! k = Some v ∧ p_member_id v ≠ x)
  ∧ (∀ k s, sessions db' !! k = Some s → s_member_id s ≠ Some x)
  ∧ (∀ k s, sessions db !! k = Some s → s_member_id s ≠ Some x →
            sessions db' !! k = Some s)
  ∧ (∀ k s, sessions db !! k = Some s → s_member_id s = Some x →
            sessions db' !! k
            = Some (update_sessions_updated_at now (set_s_member_id None s))).
Proof.
  intros Hx db'. unfold db', DELETE_member. rewrite Hx.
  set (dbc := with_sessions _ _).
  assert (Hms : members (update_coach_client_count now DELETE (Some m) None dbc)
                = delete x (members db))
    by (by rewrite members_update_coach_client_count).
  assert (Hvs : member_visits (update_coach_client_count now DELETE (Some m) None dbc)
                = filter (λ kv : uuid * member_visit, v_member_id kv.2 ≠ x) (member_visits db))
    by (by rewrite member_visits_update_coach_client_count).
  assert (Hss : sessions (update_coach_client_count now DELETE (Some m) None dbc)
                = sessions dbc)
    by (by rewrite sessions_update_coach_client_count).
  assert (Hother : session_participants (update_coach_client_count now DELETE (Some m) None dbc)
                   = session_participants dbc
                   ∧ payments (update_coach_client_count now DELETE (Some m) None dbc)
                     = payments dbc).
  { unfold update_coach_client_count, UPDATE_coaches_client_count.
    by repeat case_match. }
  destruct Hother as [Hps Hpay].
  rewrite Hms, Hvs, Hps, Hpay, Hss. unfold dbc.
  cbn [members member_visits session_participants payments sessions with_members
       with_member_visits with_session_participants with_payments with_sessions].
  split; [apply lookup_delete_eq|].
  split; [intros k v; apply map_lookup_filter_Some|].
  split; [intros k v; apply map_lookup_filter_Some|].
  split; [intros k v; apply map_lookup_filter_Some|].
  split; [|split].
  - intros k s. rewrite lookup_fmap. destruct (sessions db !! k) as [s0|]; [|done].
    cbn [fmap option_fmap option_map]. intros [= <-].
    case_bool_decide; [done|done].
  - intros k s Hk Hne. rewrite lookup_fmap, Hk. cbn [fmap option_fmap option_map].
    by rewrite bool_decide_eq_false_2.
  - intros k s Hk Hs. rewrite lookup_fmap, Hk. cbn [fmap option_fmap option_map].
    by rewrite bool_decide_eq_true_2.
Qed.

Lemma DELETE_member_cascades_witness :
  members (DELETE_member 30 "m1" member_with_rows_db) !! "m1" = None
  ∧ s_member_id <$> (sessions (DELETE_member 30 "m1" member_with_rows_db) !! "s1")
    = Some None.
Proof.
  destruct (DELETE_member_cascades 30 "m1" member_with_rows_db (client "m1" (Some "A")))
    as (Hm & _ & _ & _ & _ & _ & Hs).
  - reflexivity.
  - split; [exact Hm|].
    pose proof (Hs "s1" (mkSession "s1" "g" "A" (Some "m1") 0 (Some scheduled)
                           (Some 8) (Some 1) 0) eq_refl eq_refl) as Hs1.
    cbv zeta in Hs1. exact (f_equal (fmap s_member_id) Hs1).
Defined.

(** *** Check-in, in general *)

(** X9.  [checkIn] for a member that exists, with a fresh visit id: the
    promise is fulfilled with the new visit row; [member_visits] gains
    exactly that row; the member keeps its [total_visits], [last_visit] and
    coach and gets the tier of the [last_visit] it had; every other member
    is left as it was. *)
Theorem checkIn_touches_one_member
    (env : membersService.checkIn_env) (memberId gymId : uuid)
    (db : database) (m : member) :
  member_visits db !! membersService.visit_id env = None →
  members db !! memberId = Some m →
  let NEW := mkVisit (membersService.visit_id env) memberId gymId
               (Some (timestamptz_of_Date (membersService.date_check_in env))) None in
  ∃ db',
    membersService.checkIn env memberId gymId db = (db', Fulfilled NEW)
    ∧ member_visits db' = <[membersService.visit_id env := NEW]> (member_visits db)
    ∧ members db' !! memberId
      = Some (update_members_updated_at (membersService.now_insert env)
                (set_m_activity_status
                   (Some (activity_case (membersService.now_insert env) (m_last_visit m)))
                   m))
    ∧ ∀ y, y ≠ memberId → members db' !! y = members db !! y.
Proof.
  intros Hfresh Hm NEW. unfold membersService.checkIn. fold NEW.
  rewrite (INSERT_member_visit_run _ NEW db m Hfresh Hm).
  set (db1 := update_coach_client_count _ _ _ _ _).
  assert (Hms : members db1
                = <[memberId := update_members_updated_at (membersService.now_insert env)
                      (set_m_activity_status
                         (Some (activity_case (membersService.now_insert env)
                                              (m_last_visit m))) m)]> (members db)).
  { unfold db1. by rewrite members_update_coach_client_count. }
  unfold update_members, UPDATE_members_by_id.
  rewrite Hms, lookup_insert_eq, checkIn_payload_refused.
  eexists. split; [done|]. split; [|split].
  - unfold db1. by rewrite member_visits_update_coach_client_count.
  - by rewrite Hms, lookup_insert_eq.
  - intros y Hy. by rewrite Hms, lookup_insert_ne.
Qed.

Lemma checkIn_touches_one_member_witness :
  ∃ db',
    membersService.checkIn checkIn_env_1 "m1" "g" two_members_db
      = (db', Fulfilled (mkVisit "v1" "m1" "g" (Some 86400000000) None))
    ∧ members db' !! "m2" = Some other_member.
Proof.
  destruct (checkIn_touches_one_member checkIn_env_1 "m1" "g" two_members_db
              (example_member None))
    as (db' & Hrun & _ & _ & Hframe).
  - reflexivity.
  - reflexivity.
  - exists db'. split; [exact Hrun|]. rewrite Hframe by discriminate. reflexivity.
Defined.

(** X10.  [checkIn] for an id that is no member is rejected with the foreign
    key violation of the insert, and nothing is written: no visit row is
    left behind. *)
Theorem checkIn_unknown_member
    (env : membersService.checkIn_env) (memberId gymId : uuid) (db : database) :
  member_visits db !! membersService.visit_id env = None →
  members db !! memberId = None →
  membersService.checkIn env memberId gymId db = (db, Rejected foreign_key_violation).
Proof.
  intros Hfresh Hm. unfold membersService.checkIn, INSERT_member_visit.
  cbn [v_id v_member_id].
  rewrite bool_decide_eq_false_2 by (rewrite Hfresh; by intros [? ?]).
  by rewrite bool_decide_eq_true_2.
Qed.

Lemma checkIn_unknown_member_witness :
  membersService.checkIn checkIn_env_1 "nobody" "g" two_members_db
  = (two_members_db, Rejected foreign_key_violation).
Proof.
  apply (checkIn_unknown_member checkIn_env_1 "nobody" "g" two_members_db);
    reflexivity.
Defined.

(** *** Payment statistics *)

Lemma filter_has_status_other st p l1 l2 :
  p_status p ≠ Some st →
  List.filter (paymentsService.has_status st) (l1 ++ p :: l2)
  = List.filter (paymentsService.has_status st) (l1 ++ l2).
Proof.
  intros Hst. rewrite !List.filter_app. cbn [List.filter].
  unfold paymentsService.has_status at 2. by rewrite bool_decide_eq_false_2.
Qed.

Lemma filter_paid_since_other start p l1 l2 :
  p_status p ≠ Some paid →
  List.filter (paymentsService.paid_since start) (l1 ++ p :: l2)
  = List.filter (paymentsService.paid_since start) (l1 ++ l2).
Proof.
  intros Hst. rewrite !List.filter_app. cbn [List.filter].
  unfold paymentsService.paid_since at 2, paymentsService.has_status.
  by rewrite bool_decide_eq_false_2.
Qed.

(** X11.  [getStats]: a failed read is thrown; otherwise [pendingAmount],
    [overdueAmount] and [totalPaid] are the sums of [amount] over the gym's
    payments of that status, the sums of the numbers in the order of the rows
    read.  A payment of another status, or of none, changes none of the
    three, and one that is not paid does not change [revenueThisMonth]. *)
Theorem getStats_sums (tza now : Z) (gymId : uuid) (db : database) :
  (∀ e, paymentsService.getStats tza now (Some e) gymId db = Rejected e)
  ∧ (∃ st,
       paymentsService.getStats tza now None gymId db = Fulfilled st
       ∧ paymentsService.pendingAmount st
         = number_sum amount (List.filter (paymentsService.has_status pending)
                                (paymentsService.payments_of_gym gymId db))
       ∧ paymentsService.overdueAmount st
         = number_sum amount (List.filter (paymentsService.has_status overdue)
                                (paymentsService.payments_of_gym gymId db))
       ∧ paymentsService.totalPaid st
         = number_sum amount (List.filter (paymentsService.has_status paid)
                                (paymentsService.payments_of_gym gymId db)))
  ∧ (∀ start p (l1 l2 : list payment),
       let st := paymentsService.stats_of start (l1 ++ p :: l2)%list in
       let st' := paymentsService.stats_of start (l1 ++ l2)%list in
       (p_status p ≠ Some pending →
        paymentsService.pendingAmount st = paymentsService.pendingAmount st')
       ∧ (p_status p ≠ Some overdue →
          paymentsService.overdueAmount st = paymentsService.overdueAmount st')
       ∧ (p_status p ≠ Some paid →
          paymentsService.totalPaid st = paymentsService.totalPaid st'
          ∧ paymentsService.revenueThisMonth st = paymentsService.revenueThisMonth st')).
Proof.
  split; [done|]. split.
  - eexists. split; [reflexivity|].
    unfold paymentsService.stats_of.
    cbn [paymentsService.pendingAmount paymentsService.overdueAmount
         paymentsService.totalPaid].
    rewrite !reduce_sum_number_sum.
    rewrite !(number_sum_ext _ _ _ amount_or_0_amount). done.
  - intros start p l1 l2. cbn zeta. unfold paymentsService.stats_of.
    cbn [paymentsService.pendingAmount paymentsService.overdueAmount
         paymentsService.totalPaid paymentsService.revenueThisMonth].
    split; [|split].
    + intros Hst. by rewrite filter_has_status_other.
    + intros Hst. by rewrite filter_has_status_other.
    + intros Hst.
      by rewrite filter_has_status_other, filter_paid_since_other.
Qed.

(** X12.  The two services agree: for the same gym and the same clock,
    [getOverview] reports the [revenueThisMonth] and the [overdueAmount] of
    [getStats], and its [pendingPayments] and [overduePayments] count the
    payments whose amounts [getStats] adds up. *)
Theorem getOverview_agrees_with_getStats
    (tza now now_today : Z) (fm fc fs fa : option failure)
    (gymId : uuid) (db : database) :
  ∃ st ov,
    paymentsService.getStats tza now None gymId db = Fulfilled st
    ∧ dashboardService.getOverview tza now now_today
        (dashboardService.mkFaults fm fc None fs fa) gymId db = Fulfilled ov
    ∧ dashboardService.revenueThisMonth ov = paymentsService.revenueThisMonth st
    ∧ dashboardService.overdueAmount ov = paymentsService.overdueAmount st
    ∧ dashboardService.pendingPayments ov
      = length_of (List.filter (paymentsService.has_status pending)
                     (paymentsService.payments_of_gym gymId db))
    ∧ dashboardService.overduePayments ov
      = length_of (List.filter (paymentsService.has_status overdue)
                     (paymentsService.payments_of_gym gymId db)).
Proof.
  rewrite getOverview_queries. eexists _, _.
  split; [reflexivity|]. split; [reflexivity|]. repeat split.
Qed.

(** *** Member counts *)

Lemma length_by_activity (ms : list member) :
  length_of ms
  = length_of (List.filter (dashboardService.has_activity active) ms)
    + length_of (List.filter (dashboardService.has_activity moderate) ms)
    + length_of (List.filter (dashboardService.has_activity inactive) ms)
    + length_of (List.filter (λ m, bool_decide (m_activity_status m = None)) ms).
Proof.
  unfold length_of, dashboardService.has_activity.
  induction ms as [|m ms IH]; [done|]. cbn [List.filter].
  destruct (m_activity_status m) as [[]|];
    repeat (first [rewrite bool_decide_eq_true_2 by done
                  |rewrite bool_decide_eq_false_2 by done]);
    cbn [length]; lia.
Qed.

Lemma length_by_membership (ms : list member) :
  length_of ms
  = length_of (List.filter (membersService.has_membership basic) ms)
    + length_of (List.filter (membersService.has_membership premium) ms)
    + length_of (List.filter (membersService.has_membership vip) ms)
    + length_of (List.filter (membersService.has_membership trial) ms)
    + length_of (List.filter (λ m, bool_decide (m_membership_type m = None)) ms).
Proof.
  unfold length_of, membersService.has_membership.
  induction ms as [|m ms IH]; [done|]. cbn [List.filter].
  destruct (m_membership_type m) as [[]|];
    repeat (first [rewrite bool_decide_eq_true_2 by done
                  |rewrite bool_decide_eq_false_2 by done]);
    cbn [length]; lia.
Qed.

(** X13.  In the overview the three tiers partition the members whose
    [activity_status] is not NULL: [totalMembers] is the sum of
    [activeMembers], [moderateMembers], [inactiveMembers] and the number of
    members without a status; so the three add up to [totalMembers] exactly
    when every member has a status. *)
Theorem overview_member_counts
    (tza now_month now_today : Z) (fc fp fs fa : option failure)
    (gymId : uuid) (db : database) :
  ∃ ov,
    dashboardService.getOverview tza now_month now_today
      (dashboardService.mkFaults None fc fp fs fa) gymId db = Fulfilled ov
    ∧ dashboardService.totalMembers ov
      = dashboardService.activeMembers ov + dashboardService.moderateMembers ov
        + dashboardService.inactiveMembers ov
        + length_of (List.filter (λ m, bool_decide (m_activity_status m = None))
                       (members_of_gym gymId db))
    ∧ 0 ≤ dashboardService.activeMembers ov
    ∧ 0 ≤ dashboardService.moderateMembers ov
    ∧ 0 ≤ dashboardService.inactiveMembers ov
    ∧ dashboardService.activeMembers ov + dashboardService.moderateMembers ov
      + dashboardService.inactiveMembers ov ≤ dashboardService.totalMembers ov.
Proof.
  rewrite getOverview_queries. eexists. split; [reflexivity|].
  unfold dashboardService.compose.
  cbn [dashboardService.totalMembers dashboardService.activeMembers
       dashboardService.moderateMembers dashboardService.inactiveMembers
       dashboardService.fault_members select data from_option id].
  pose proof (length_by_activity (members_of_gym gymId db)) as Hsum.
  split; [exact Hsum|]. unfold length_of in *. lia.
Qed.

(** X14.  [membersService.getStats]: a failed read is thrown; otherwise its
    counts by tier are those of the overview, and its counts by membership
    add up to [total] less the members without a membership type. *)
Theorem member_stats_counts
    (tza now_month now_today : Z) (fc fp fs fa : option failure)
    (gymId : uuid) (db : database) :
  (∀ e, membersService.getStats (Some e) gymId db = Rejected e)
  ∧ ∃ st ov,
      membersService.getStats None gymId db = Fulfilled st
      ∧ dashboardService.getOverview tza now_month now_today
          (dashboardService.mkFaults None fc fp fs fa) gymId db = Fulfilled ov
      ∧ membersService.n_total st = dashboardService.totalMembers ov
      ∧ membersService.n_active st = dashboardService.activeMembers ov
      ∧ membersService.n_moderate st = dashboardService.moderateMembers ov
      ∧ membersService.n_inactive st = dashboardService.inactiveMembers ov
      ∧ membersService.n_total st
        = membersService.by_basic st + membersService.by_premium st
          + membersService.by_vip st + membersService.by_trial st
          + length_of (List.filter (λ m, bool_decide (m_membership_type m = None))
                         (members_of_gym gymId db)).
Proof.
  split; [done|]. rewrite getOverview_queries. eexists _, _.
  split; [reflexivity|]. split; [reflexivity|].
  split; [done|]. split; [done|]. split; [done|]. split; [done|].
  apply (length_by_membership (members_of_gym gymId db)).
Qed.

(** A member without a status is in [totalMembers] and in none of the tiers. *)
Example overview_member_counts_example :
  ∃ ov,
    dashboardService.getOverview 0 leap_day leap_day dashboardService.no_fault
      "g" three_members_db = Fulfilled ov
    ∧ dashboardService.totalMembers ov = 3
    ∧ dashboardService.activeMembers ov + dashboardService.moderateMembers ov
      + dashboardService.inactiveMembers ov = 2.
Proof. eexists. split; [reflexivity|]. split; vm_compute; reflexivity. Qed.

(** *** Alerts *)

Lemma unread_alerts_spec gymId db a :
  a ∈ dashboardService.unread_alerts gymId db →
  a ∈ rows (alerts db) ∧ a_gym_id a = gymId ∧ a_is_read a = Some false.
Proof.
  unfold dashboardService.unread_alerts. intros Ha.
  apply elem_of_take in Ha as (i & Ha & _).
  apply list_elem_of_lookup_2 in Ha. rewrite merge_sort_Permutation in Ha.
  apply list_elem_of_In, filter_In in Ha as [Hin Hp].
  apply andb_true_iff in Hp as [Hg Hr].
  apply bool_decide_eq_true in Hg. apply bool_decide_eq_true in Hr.
  split; [by apply list_elem_of_In|done].
Qed.

Lemma rows_elem_of {A} (t : gmap uuid A) (x : A) :
  x ∈ rows t ↔ ∃ k, t !! k = Some x.
Proof.
  unfold rows. rewrite list_elem_of_fmap. split.
  - intros [[k y] [-> Hky]]. exists k. by apply elem_of_map_to_list in Hky.
  - intros [k Hk]. exists (k, x). split; [done|]. by apply elem_of_map_to_list.
Qed.

Lemma created_at_desc_total : Total dashboardService.created_at_desc.
Proof. intros a b. unfold dashboardService.created_at_desc. lia. Qed.

Lemma created_at_desc_trans : Transitive dashboardService.created_at_desc.
Proof. intros a b c. unfold dashboardService.created_at_desc. lia. Qed.

Lemma StronglySorted_take {A} (R : relation A) (n : nat) (l : list A) :
  StronglySorted R l → StronglySorted R (take n l).
Proof.
  intros Hl. rewrite <- (take_drop n l) in Hl.
  by apply StronglySorted_app_1_l in Hl.
Qed.

(** X15.  The alerts of the overview are at most five, each an unread alert
    of the gym asked for, newest first. *)
Theorem overview_alerts
    (tza now_month now_today : Z) (fm fc fp fs : option failure)
    (gymId : uuid) (db : database) :
  ∃ ov,
    dashboardService.getOverview tza now_month now_today
      (dashboardService.mkFaults fm fc fp fs None) gymId db = Fulfilled ov
    ∧ (length (dashboardService.alerts ov) ≤ 5)%nat
    ∧ (∀ a, a ∈ dashboardService.alerts ov →
            a_gym_id a = gymId ∧ a_is_read a = Some false
            ∧ ∃ k, alerts db !! k = Some a)
    ∧ StronglySorted dashboardService.created_at_desc (dashboardService.alerts ov).
Proof.
  rewrite getOverview_queries. eexists. split; [reflexivity|].
  unfold dashboardService.compose.
  cbn [dashboardService.alerts dashboardService.fault_alerts select data from_option id].
  split; [|split].
  - unfold dashboardService.unread_alerts. rewrite length_take. lia.
  - intros a Ha. apply unread_alerts_spec in Ha as (Hin & Hg & Hr).
    split; [done|]. split; [done|]. by apply rows_elem_of.
  - unfold dashboardService.unread_alerts.
    apply StronglySorted_take.
    apply (@Sorted_StronglySorted _ _ created_at_desc_trans).
    apply (@Sorted_merge_sort _ _ _ created_at_desc_total).
Qed.

(** X16.  After [dismissAllAlerts] for a gym the overview of that gym shows
    no alert, and the alerts of the other gyms are as before; a failed
    request is thrown and writes nothing. *)
Theorem dismissAllAlerts_clears_overview
    (tza now_month now_today : Z) (fm fc fp fs : option failure)
    (gymId : uuid) (db : database) :
  (∀ e, dashboardService.dismissAllAlerts (Some e) gymId db = (db, Rejected e))
  ∧ ∃ db' ov,
      dashboardService.dismissAllAlerts None gymId db = (db', Fulfilled ())
      ∧ dashboardService.getOverview tza now_month now_today
          (dashboardService.mkFaults fm fc fp fs None) gymId db' = Fulfilled ov
      ∧ dashboardService.alerts ov = []
      ∧ ∀ k a, alerts db !! k = Some a → a_gym_id a ≠ gymId →
               alerts db' !! k = Some a.
Proof.
  split; [done|]. eexists _, _. split; [reflexivity|].
  rewrite getOverview_queries. split; [reflexivity|].
  unfold dashboardService.compose.
  cbn [dashboardService.alerts dashboardService.fault_alerts select data from_option id].
  split.
  - destruct (dashboardService.unread_alerts gymId (UPDATE_alerts_read_of_gym gymId db))
      as [|a l] eqn:Hl; [done|].
    assert (Ha : a ∈ dashboardService.unread_alerts gymId
                       (UPDATE_alerts_read_of_gym gymId db))
      by (rewrite Hl; left).
    apply unread_alerts_spec in Ha as (Hin & Hg & Hr).
    apply rows_elem_of in Hin as [k Hk].
    unfold UPDATE_alerts_read_of_gym in Hk. cbn [alerts with_alerts] in Hk.
    rewrite lookup_fmap in Hk.
    destruct (alerts db !! k) as [a0|]; [|done].
    cbn [fmap option_fmap option_map] in Hk. injection Hk as <-.
    case_bool_decide as Hg0; [done|]. done.
  - intros k a Hk Hne. unfold UPDATE_alerts_read_of_gym. cbn [alerts with_alerts].
    rewrite lookup_fmap, Hk. cbn [fmap option_fmap option_map].
    by rewrite bool_decide_eq_false_2.
Qed.

(** X17.  [markAlertAsRead] marks the alert with that id and no other; the
    overview then does not list it any more.  For an id that is no alert
    nothing changes, and a failed request is thrown and writes nothing. *)
Theorem markAlertAsRead_marks_one
    (tza now_month now_today : Z) (fm fc fp fs : option failure)
    (alertId gymId : uuid) (db : database) :
  (∀ e, dashboardService.markAlertAsRead (Some e) alertId db = (db, Rejected e))
  ∧ ∃ db' ov,
      dashboardService.markAlertAsRead None alertId db = (db', Fulfilled ())
      ∧ alerts db' !! alertId = set_a_is_read (Some true) <$> alerts db !! alertId
      ∧ (∀ k, k ≠ alertId → alerts db' !! k = alerts db !! k)
      ∧ dashboardService.getOverview tza now_month now_today
          (dashboardService.mkFaults fm fc fp fs None) gymId db' = Fulfilled ov
      ∧ ∀ a, a ∈ dashboardService.alerts ov → alerts db' !! alertId ≠ Some a.
Proof.
  split; [done|]. eexists _, _. split; [reflexivity|].
  unfold UPDATE_alert_read. cbn [alerts with_alerts].
  split; [apply lookup_alter_eq|]. split; [intros k Hk; by apply lookup_alter_ne|].
  rewrite getOverview_queries. split; [reflexivity|].
  unfold dashboardService.compose.
  cbn [dashboardService.alerts dashboardService.fault_alerts select data from_option id].
  intros a Ha Hx. apply unread_alerts_spec in Ha as (_ & _ & Hr).
  rewrite lookup_alter_eq in Hx.
  destruct (alerts db !! alertId) as [a0|]; [|done].
  cbn [fmap option_fmap option_map] in Hx. injection Hx as <-. done.
Qed.

Example dismissAllAlerts_example :
  ∃ ov db' ov',
    dashboardService.getOverview 0 leap_day leap_day dashboardService.no_fault "g" alerts_db
      = Fulfilled ov
    ∧ a_title <$> dashboardService.alerts ov = ["Payment overdue"; "Member inactive"]
    ∧ dashboardService.dismissAllAlerts None "g" alerts_db = (db', Fulfilled ())
    ∧ dashboardService.getOverview 0 leap_day leap_day dashboardService.no_fault "h" db'
      = Fulfilled ov'
    ∧ a_title <$> dashboardService.alerts ov' = ["Other gym"].
Proof.
  eexists _, _, _. split; [reflexivity|]. split; [vm_compute; reflexivity|].
  split; [reflexivity|]. split; [reflexivity|]. vm_compute. reflexivity.
Qed.

(** *** Today's sessions *)

Lemma MakeDay_in_month (y m date : Z) :
  1 ≤ m ≤ 12 → MakeDay y (m - 1) date = days_from_civil y m 1 + date - 1.
Proof.
  intros Hm. unfold MakeDay.
  rewrite Z.div_small, Z.mod_small by lia.
  replace (y + 0) with y by lia. by replace (m - 1 + 1) with m by lia.
Qed.

Lemma today_local (tza now : Z) :
  LocalTime tza (sessionsService.today tza now) = MakeDate (Day (LocalTime tza now)) 0.
Proof.
  unfold sessionsService.today, setHours0. rewrite !LocalTime_eq. unfold UTC. lia.
Qed.

Lemma tomorrow_local (tza now : Z) :
  LocalTime tza (sessionsService.tomorrow tza now)
  = MakeDate (Day (LocalTime tza now) + 1) 0.
Proof.
  unfold sessionsService.tomorrow, setDate, getDate.
  rewrite (today_local tza now).
  set (z := Day (LocalTime tza now)).
  unfold YearFromTime, MonthFromTime, DateFromTime, TimeWithinDay.
  rewrite (Day_MakeDate z 0) by done.
  pose proof (civil_from_days_spec z) as Hspec.
  destruct (civil_from_days z) as [[y m] d]. cbn [fst snd].
  destruct Hspec as (Hdfc & Hm & Hd & _).
  rewrite MakeDay_in_month by done.
  rewrite (days_from_civil_day y m d) in Hdfc.
  replace (days_from_civil y m 1 + (d + 1) - 1) with (z + 1) by lia.
  replace (MakeDate z 0 `mod` msPerDay) with 0.
  - rewrite LocalTime_eq. unfold UTC. lia.
  - unfold MakeDate. rewrite Z.add_0_r. symmetry. by apply Z.mod_mul.
Qed.

(** The day of [now], local time: it starts at [today], at local midnight,
    and [tomorrow] is 24 hours later. *)
Lemma today_window (tza now : Z) :
  sessionsService.tomorrow tza now = sessionsService.today tza now + msPerDay
  ∧ sessionsService.today tza now ≤ now < sessionsService.tomorrow tza now
  ∧ TimeWithinDay (LocalTime tza (sessionsService.today tza now)) = 0.
Proof.
  pose proof (today_local tza now) as Ht.
  pose proof (tomorrow_local tza now) as Hm.
  pose proof (MakeDate_Day_le (LocalTime tza now)) as Hle.
  assert (Hlt : LocalTime tza now < MakeDate (Day (LocalTime tza now) + 1) 0).
  { unfold MakeDate, Day.
    pose proof (Z.div_mod (LocalTime tza now) msPerDay ltac:(done)) as Hdm.
    pose proof (Z.mod_pos_bound (LocalTime tza now) msPerDay ltac:(done)) as Hb.
    lia. }
  assert (Hday : MakeDate (Day (LocalTime tza now) + 1) 0
                 = MakeDate (Day (LocalTime tza now)) 0 + msPerDay)
    by (unfold MakeDate; lia).
  split; [|split].
  - revert Ht Hm Hday. rewrite !LocalTime_eq.
    generalize (sessionsService.today tza now) (sessionsService.tomorrow tza now)
               (MakeDate (Day (now + tza)) 0) (MakeDate (Day (now + tza) + 1) 0).
    intros. lia.
  - revert Ht Hm Hle Hlt. rewrite !LocalTime_eq.
    generalize (sessionsService.today tza now) (sessionsService.tomorrow tza now)
               (MakeDate (Day (now + tza)) 0) (MakeDate (Day (now + tza) + 1) 0).
    intros. lia.
  - rewrite Ht. unfold TimeWithinDay, MakeDate. rewrite Z.add_0_r. by apply Z.mod_mul.
Qed.

Lemma filter_andb {A} (a b : A → bool) (xs : list A) :
  List.filter (λ x, a x && b x) xs = List.filter b (List.filter a xs).
Proof.
  induction xs as [|x xs IH]; [done|]. cbn [List.filter].
  destruct (a x); cbn [andb List.filter]; [|done]. by rewrite IH.
Qed.

Lemma todaySessionsCount_eq tza now_month now_today members coaches payments
    (sessions : response (list session)) alerts :
  dashboardService.todaySessionsCount
    (dashboardService.compose tza now_month now_today members coaches payments
       sessions alerts)
  = length_of
      (List.filter
         (λ s, bool_decide (sessionsService.today tza now_today
                            ≤ Date_of_timestamptz (s_start_time s))
               && bool_decide (Date_of_timestamptz (s_start_time s)
                               < sessionsService.tomorrow tza now_today))
         (default [] (data sessions))).
Proof.
  unfold dashboardService.compose, sessionsService.tomorrow, sessionsService.today.
  cbn [dashboardService.todaySessionsCount]. reflexivity.
Qed.

Lemma in_day_ms_us (t t' s : Z) :
  bool_decide (t ≤ Date_of_timestamptz s) && bool_decide (Date_of_timestamptz s < t')
  = bool_decide (timestamptz_of_Date t ≤ s) && bool_decide (s < timestamptz_of_Date t').
Proof.
  unfold Date_of_timestamptz, timestamptz_of_Date.
  pose proof (Z.div_mod s 1000 ltac:(done)) as Hdm.
  pose proof (Z.mod_pos_bound s 1000 ltac:(done)) as Hb.
  f_equal; apply bool_decide_ext; lia.
Qed.

(** X18.  [todaySessionsCount] counts the sessions of the gym that start on
    the local calendar day of the clock: from [today], which is midnight
    local time and not after now, up to but not including the instant 24
    hours later; it never exceeds [totalSessions]. *)
Theorem todaySessionsCount_counts_the_day
    (tza now_month now_today : Z) (fm fc fp fa : option failure)
    (gymId : uuid) (db : database) :
  ∃ ov,
    dashboardService.getOverview tza now_month now_today
      (dashboardService.mkFaults fm fc fp None fa) gymId db = Fulfilled ov
    ∧ dashboardService.todaySessionsCount ov
      = length_of
          (List.filter
             (λ s, bool_decide
                     (sessionsService.today tza now_today
                      ≤ Date_of_timestamptz (s_start_time s)
                      < sessionsService.today tza now_today + msPerDay))
             (List.filter (λ s, bool_decide (s_gym_id s = gymId)) (rows (sessions db))))
    ∧ sessionsService.today tza now_today ≤ now_today
      < sessionsService.today tza now_today + msPerDay
    ∧ TimeWithinDay (LocalTime tza (sessionsService.today tza now_today)) = 0
    ∧ 0 ≤ dashboardService.todaySessionsCount ov ≤ dashboardService.totalSessions ov.
Proof.
  rewrite getOverview_queries. eexists. split; [reflexivity|].
  destruct (today_window tza now_today) as (Htom & Hnow & Hmid).
  rewrite todaySessionsCount_eq.
  cbn [dashboardService.fault_sessions select data from_option id].
  rewrite Htom in *.
  split; [|split; [done|split; [done|]]].
  - f_equal. apply List.filter_ext. intros s.
    repeat case_bool_decide; cbn [andb]; try done; lia.
  - unfold dashboardService.compose. cbn [dashboardService.totalSessions
      dashboardService.fault_sessions select data from_option id].
    unfold length_of. pose proof (List.filter_length_le
      (λ s, bool_decide (sessionsService.today tza now_today
                         ≤ Date_of_timestamptz (s_start_time s))
            && bool_decide (Date_of_timestamptz (s_start_time s)
                            < sessionsService.today tza now_today + msPerDay))
      (List.filter (λ s, bool_decide (s_gym_id s = gymId)) (rows (sessions db)))).
    lia.
Qed.

(** X19.  [getTodaySessions]: a failed read is thrown; otherwise it returns,
    in order of start, exactly the sessions that [getOverview] counts in
    [todaySessionsCount] for the same gym and clock. *)
Theorem getTodaySessions_matches_overview
    (tza now_month now : Z) (fm fc fp fa : option failure)
    (gymId : uuid) (db : database) :
  (∀ e, sessionsService.getTodaySessions tza now (Some e) gymId db = Rejected e)
  ∧ ∃ l ov,
      sessionsService.getTodaySessions tza now None gymId db = Fulfilled (Some l)
      ∧ dashboardService.getOverview tza now_month now
          (dashboardService.mkFaults fm fc fp None fa) gymId db = Fulfilled ov
      ∧ dashboardService.todaySessionsCount ov = length_of l
      ∧ (∀ s, s ∈ l ↔
              s ∈ rows (sessions db) ∧ s_gym_id s = gymId
              ∧ sessionsService.today tza now ≤ Date_of_timestamptz (s_start_time s)
                < sessionsService.tomorrow tza now)
      ∧ StronglySorted sessionsService.start_time_asc l.
Proof.
  split; [done|]. rewrite getOverview_queries.
  exists (sessionsService.sessions_of_today tza now gymId db). eexists.
  split; [done|]. split; [done|].
  rewrite todaySessionsCount_eq.
  cbn [dashboardService.fault_sessions select data from_option id].
  unfold sessionsService.sessions_of_today.
  assert (Hfilter :
    List.filter
      (λ s, bool_decide (s_gym_id s = gymId)
            && bool_decide (timestamptz_of_Date (sessionsService.today tza now)
                            ≤ s_start_time s)
            && bool_decide (s_start_time s
                            < timestamptz_of_Date (sessionsService.tomorrow tza now)))
      (rows (sessions db))
    = List.filter
        (λ s, bool_decide (sessionsService.today tza now
                           ≤ Date_of_timestamptz (s_start_time s))
              && bool_decide (Date_of_timestamptz (s_start_time s)
                              < sessionsService.tomorrow tza now))
        (List.filter (λ s, bool_decide (s_gym_id s = gymId)) (rows (sessions db)))).
  { rewrite <- filter_andb. apply List.filter_ext. intros s.
    rewrite <- andb_assoc. f_equal. symmetry. apply in_day_ms_us. }
  rewrite Hfilter. split; [|split].
  - unfold length_of. by rewrite merge_sort_Permutation.
  - intros s. rewrite merge_sort_Permutation.
    rewrite list_elem_of_In, filter_In, filter_In, <- list_elem_of_In.
    rewrite andb_true_iff, !bool_decide_eq_true. tauto.
  - apply (@Sorted_StronglySorted _ _ (λ a b c, Z.le_trans _ _ _)).
    apply (@Sorted_merge_sort _ _ _ (λ a b, Z.le_ge_cases _ _)).
Qed.

(** *** Upcoming sessions *)

Lemma start_time_asc_sorted (l : list session) :
  StronglySorted sessionsService.start_time_asc (merge_sort sessionsService.start_time_asc l).
Proof.
  apply (@Sorted_StronglySorted _ _ (λ a b c, Z.le_trans _ _ _)).
  apply (@Sorted_merge_sort _ _ _ (λ a b, Z.le_ge_cases _ _)).
Qed.

Lemma upcoming_candidates now gymId db s :
  s ∈ merge_sort sessionsService.start_time_asc
        (List.filter
           (λ s, bool_decide (s_gym_id s = gymId)
                 && bool_decide (s_status s = Some scheduled)
                 && bool_decide (timestamptz_of_Date now ≤ s_start_time s))
           (rows (sessions db)))
  ↔ s ∈ rows (sessions db) ∧ s_gym_id s = gymId ∧ s_status s = Some scheduled
    ∧ timestamptz_of_Date now ≤ s_start_time s.
Proof.
  rewrite merge_sort_Permutation, list_elem_of_In, filter_In, <- list_elem_of_In.
  rewrite !andb_true_iff, !bool_decide_eq_true. tauto.
Qed.

(** X20.  [getUpcoming] and [getUpcomingSessions] send the same query: a
    failed read is thrown; otherwise the result has at most [limit]
    sessions, each a scheduled session of the gym that starts at the clock
    or later, in order of start.  No session that qualifies and was left
    out starts before one that was returned, and none is left out while the
    result has fewer than [limit] rows. *)
Theorem getUpcoming_soonest_first
    (now : Z) (gymId : uuid) (limit : nat) (db : database) :
  (∀ fault, dashboardService.getUpcomingSessions now fault gymId limit db
            = sessionsService.getUpcoming now fault gymId limit db)
  ∧ (∀ e, sessionsService.getUpcoming now (Some e) gymId limit db = Rejected e)
  ∧ ∃ l,
      sessionsService.getUpcoming now None gymId limit db = Fulfilled (Some l)
      ∧ (length l ≤ limit)%nat
      ∧ StronglySorted sessionsService.start_time_asc l
      ∧ (∀ s, s ∈ l →
              s ∈ rows (sessions db) ∧ s_gym_id s = gymId
              ∧ s_status s = Some scheduled
              ∧ timestamptz_of_Date now ≤ s_start_time s)
      ∧ (∀ s', s' ∈ rows (sessions db) → s_gym_id s' = gymId →
               s_status s' = Some scheduled →
               timestamptz_of_Date now ≤ s_start_time s' →
               s' ∉ l →
               length l = limit ∧ ∀ s, s ∈ l → s_start_time s ≤ s_start_time s').
Proof.
  split; [done|]. split; [done|].
  exists (sessionsService.upcoming_sessions now gymId limit db).
  split; [done|]. unfold sessionsService.upcoming_sessions.
  set (sorted := merge_sort _ _).
  assert (Hsorted : StronglySorted sessionsService.start_time_asc sorted)
    by apply start_time_asc_sorted.
  split; [rewrite length_take; lia|].
  split; [by apply StronglySorted_take|].
  split.
  - intros s Hs. apply (upcoming_candidates now gymId db).
    apply elem_of_take in Hs as (i & Hs & _). by eapply list_elem_of_lookup_2.
  - intros s' Hin Hg Hst Hnow Hout.
    assert (Hs' : s' ∈ sorted) by (by apply upcoming_candidates).
    rewrite <- (take_drop limit sorted) in Hs', Hsorted.
    apply elem_of_app in Hs' as [Hs'|Hs']; [done|].
    split.
    + rewrite length_take. apply Nat.min_l.
      destruct (decide (limit ≤ length sorted)%nat) as [|Hlt]; [done|].
      rewrite drop_ge in Hs' by lia. by apply elem_of_nil in Hs'.
    + intros s Hs. by eapply (StronglySorted_app_1_elem_of _ _ _ _ _ Hsorted).
Qed.

(** *** Participants of a session *)

Lemma Exists_rows {A} (P : A → Prop) (t : gmap uuid A) :
  Exists P (rows t) ↔ ∃ k x, t !! k = Some x ∧ P x.
Proof.
  rewrite Exists_exists. split.
  - intros (x & Hx & HP). apply rows_elem_of in Hx as [k Hk]. eauto.
  - intros (k & x & Hk & HP). exists x. split; [|done]. apply rows_elem_of. eauto.
Qed.

(** X21.  [addParticipant] either is rejected and writes nothing, or stores
    one row for the pair, which was not there before.  In both cases every
    session keeps its [current_participants]: the increment is asked for
    under the argument name [session_id], which the function does not have,
    and the answer is not looked at.  After a successful call a second one
    for the same pair is rejected as a duplicate, and [removeParticipant]
    gives back the table of participants as it was. *)
Theorem addParticipant_stores_without_counting
    (now : timestamptz) (pid sessionId memberId : uuid) (db : database) :
  ∃ db' r,
    sessionsService.addParticipant now pid sessionId memberId db = (db', r)
    ∧ sessions db' = sessions db
    ∧ (∀ e, r = Rejected e → db' = db)
    ∧ (∀ sp, r = Fulfilled sp →
         sp = mkParticipant pid sessionId memberId (Some false)
         ∧ session_participants db !! pid = None
         ∧ is_Some (sessions db !! sessionId) ∧ is_Some (members db !! memberId)
         ∧ session_participants db' = <[pid := sp]> (session_participants db)
         ∧ (∀ pid', sessionsService.addParticipant now pid' sessionId memberId db'
                    = (db', Rejected unique_violation))
         ∧ session_participants
             (sessionsService.removeParticipant now None sessionId memberId db').1
           = session_participants db).
Proof.
  unfold sessionsService.addParticipant.
  destruct (bool_decide (is_Some (session_participants db !! pid))
            || bool_decide (Exists (λ sp, sp_session_id sp = sessionId
                                          ∧ sp_member_id sp = memberId)
                                   (rows (session_participants db)))) eqn:Hdup.
  { eexists _, _. split; [reflexivity|]. split; [done|]. split; [done|]. done. }
  destruct (bool_decide (sessions db !! sessionId = None)
            || bool_decide (members db !! memberId = None)) eqn:Hfk.
  { eexists _, _. split; [reflexivity|]. split; [done|]. split; [done|]. done. }
  rewrite await_rpc_session_id.
  eexists _, _. split; [reflexivity|]. split; [done|]. split; [done|].
  intros sp [= <-].
  apply orb_false_iff in Hdup as [Hpid Hpair].
  apply bool_decide_eq_false in Hpid. apply bool_decide_eq_false in Hpair.
  apply orb_false_iff in Hfk as [Hs Hm].
  apply bool_decide_eq_false in Hs. apply bool_decide_eq_false in Hm.
  assert (Hnone : session_participants db !! pid = None).
  { destruct (session_participants db !! pid) eqn:E; [|done]. by destruct Hpid. }
  split; [done|]. split; [done|].
  split; [by destruct (sessions db !! sessionId)|].
  split; [by destruct (members db !! memberId)|].
  split; [done|]. split.
  - intros pid'. cbn [session_participants with_session_participants].
    rewrite (orb_true_intro _ (bool_decide _)); [done|]. right.
    apply bool_decide_eq_true. apply Exists_rows.
    exists pid, (mkParticipant pid sessionId memberId (Some false)).
    by rewrite lookup_insert_eq.
  - unfold sessionsService.removeParticipant. rewrite await_rpc_session_id.
    cbn [fst session_participants with_session_participants].
    rewrite map_filter_insert_False by (cbn; tauto).
    rewrite map_filter_delete. rewrite delete_id
      by (apply map_lookup_filter_None; by left).
    apply map_filter_id. intros k sp Hk. cbn. intros Hp. apply Hpair.
    apply Exists_rows. eauto.
Qed.

(** X22.  [removeParticipant]: a failed request is thrown and writes
    nothing; otherwise the rows of that session and member are gone, every
    other row of participants is kept, and every session keeps its
    [current_participants]: the decrement is asked for under the argument
    name [session_id], which the function does not have.  Doing it twice is
    doing it once. *)
Theorem removeParticipant_deletes_without_counting
    (now : timestamptz) (sessionId memberId : uuid) (db : database) :
  (∀ e, sessionsService.removeParticipant now (Some e) sessionId memberId db
        = (db, Rejected e))
  ∧ ∃ db',
      sessionsService.removeParticipant now None sessionId memberId db
        = (db', Fulfilled ())
      ∧ sessions db' = sessions db
      ∧ (∀ k sp, session_participants db' !! k = Some sp ↔
                 session_participants db !! k = Some sp
                 ∧ ¬ (sp_session_id sp = sessionId ∧ sp_member_id sp = memberId))
      ∧ sessionsService.removeParticipant now None sessionId memberId db'
        = (db', Fulfilled ()).
Proof.
  split; [done|]. unfold sessionsService.removeParticipant.
  rewrite !await_rpc_session_id.
  eexists. split; [reflexivity|]. split; [done|]. split.
  - intros k sp. cbn [session_participants with_session_participants].
    by rewrite map_lookup_filter_Some.
  - rewrite await_rpc_session_id. f_equal.
    cbn [session_participants with_session_participants].
    unfold with_session_participants. cbn. f_equal.
    apply map_filter_id. intros k sp Hk. by apply map_lookup_filter_Some in Hk as [_ Hp].
Qed.

Example addParticipant_example :
  ∃ db' sp,
    sessionsService.addParticipant 50 "sp2" "s1" "m1"
      (with_session_participants ∅ member_with_rows_db) = (db', Fulfilled sp)
    ∧ session_participants db' !! "sp2" = Some sp
    ∧ s_current_participants <$> sessions db' !! "s1" = Some (Some 1)
    ∧ sessionsService.addParticipant 60 "sp3" "s1" "m1" db'
      = (db', Rejected unique_violation).
Proof.
  eexists _, _. split; [vm_compute; reflexivity|].
  split; [vm_compute; reflexivity|]. split; vm_compute; reflexivity.
Qed.

(** *** Occupancy *)

(** [setDate] on a local midnight moves it by whole days. *)
Lemma setDate_midnight_local (tza date now : Z) :
  LocalTime tza (setDate tza date (setHours0 tza now))
  = MakeDate (Day (LocalTime tza now) + (date - getDate tza (setHours0 tza now))) 0.
Proof.
  unfold setDate, getDate.
  pose proof (today_local tza now) as Ht. unfold sessionsService.today in Ht.
  rewrite Ht.
  set (z := Day (LocalTime tza now)).
  unfold YearFromTime, MonthFromTime, DateFromTime, TimeWithinDay.
  rewrite (Day_MakeDate z 0) by done.
  pose proof (civil_from_days_spec z) as Hspec.
  destruct (civil_from_days z) as [[y m] d]. cbn [fst snd].
  destruct Hspec as (Hdfc & Hm & Hd & _).
  rewrite MakeDay_in_month by done.
  rewrite (days_from_civil_day y m d) in Hdfc.
  replace (days_from_civil y m 1 + date - 1) with (z + (date - d)) by lia.
  replace (MakeDate z 0 `mod` msPerDay) with 0.
  - rewrite LocalTime_eq. unfold UTC. lia.
  - unfold MakeDate. rewrite Z.add_0_r. symmetry. by apply Z.mod_mul.
Qed.

Lemma weekAgo_eq (tza now : Z) :
  setDate tza (getDate tza (setHours0 tza now) - 7) (setHours0 tza now)
  = setHours0 tza now - 7 * msPerDay.
Proof.
  pose proof (setDate_midnight_local tza
                (getDate tza (setHours0 tza now) - 7) now) as Hw.
  pose proof (today_local tza now) as Ht. unfold sessionsService.today in Ht.
  revert Hw Ht. rewrite !LocalTime_eq. unfold MakeDate.
  generalize (getDate tza (setHours0 tza now)). intros g.
  generalize (setDate tza (g - 7) (setHours0 tza now)).
  generalize (setHours0 tza now). generalize (Day (now + tza)).
  intros. lia.
Qed.

Lemma count_visit_keys tza hd v : (dashboardService.count_visit tza hd v).*1 = hd.*1.
Proof.
  unfold dashboardService.count_visit.
  destruct (_ && _); [|done].
  rewrite <- list_fmap_compose. apply list_fmap_ext. intros i kc _. cbn.
  by case_bool_decide.
Qed.

(** The counters after the [forEach]: each hour from 6 to 22 has counted the
    visits of its hour. *)
Lemma fold_count_visit tza data hd :
  Forall (λ h, 6 ≤ h ≤ 22) hd.*1 →
  fold_left (dashboardService.count_visit tza) data hd
  = (λ kc : Z * Z,
       (kc.1,
        kc.2 + length_of
                 (List.filter
                    (λ v, bool_decide (getHours tza (Date_of_nullable (v_check_in v)) = kc.1))
                    data)))
    <$> hd.
Proof.
  revert hd. induction data as [|v data IH]; intros hd Hhd.
  - cbn [fold_left List.filter]. unfold length_of. cbn [length].
    rewrite <- (list_fmap_id hd) at 1. apply list_fmap_ext. intros i [k c] _.
    cbn. f_equal. lia.
  - cbn [fold_left]. rewrite IH by (by rewrite count_visit_keys).
    unfold dashboardService.count_visit.
    remember (getHours tza (Date_of_nullable (v_check_in v))) as h eqn:Hh.
    destruct (bool_decide (6 ≤ h) && bool_decide (h ≤ 22)) eqn:Hrange.
    + rewrite <- list_fmap_compose. apply list_fmap_ext. intros i [k c] _.
      cbn [compose fst snd List.filter]. rewrite <- Hh.
      destruct (decide (k = h)) as [->|Hk].
      * rewrite !(bool_decide_eq_true_2 (h = h)) by done. cbn [fst snd].
        unfold length_of. cbn [length]. f_equal. lia.
      * rewrite (bool_decide_eq_false_2 (k = h)) by done.
        rewrite (bool_decide_eq_false_2 (h = k)) by done. done.
    + apply Forall_fmap_ext_1. rewrite Forall_fmap in Hhd.
      eapply Forall_impl; [exact Hhd|]. intros [k c] Hk. cbn in Hk.
      cbn [fst snd List.filter]. rewrite <- Hh.
      rewrite bool_decide_eq_false_2; [done|].
      intros ->. apply andb_false_iff in Hrange as [Hr|Hr];
        apply bool_decide_eq_false in Hr; lia.
Qed.

Lemma Math_round_quotient_7 (n : Z) :
  7 * dashboardService.Math_round_quotient n 7 - 3 ≤ n
  ≤ 7 * dashboardService.Math_round_quotient n 7 + 3.
Proof.
  unfold dashboardService.Math_round_quotient.
  pose proof (Z.div_mod (2 * n + 7) (2 * 7) ltac:(done)) as Hdm.
  pose proof (Z.mod_pos_bound (2 * n + 7) (2 * 7) ltac:(done)) as Hb.
  lia.
Qed.

(** X23.  [getOccupancyData]: a failed read is thrown; otherwise the result
    has one entry for each hour from 6 to 22, in this order, and the entry
    of hour [h] holds the number of visits of the gym checked in at local
    hour [h] since local midnight seven times 24 hours before today's,
    divided by 7 and rounded to the nearest integer.  Visits at the other
    hours are in no entry. *)
Theorem getOccupancyData_hourly_average (tza now : Z) (gymId : uuid) (db : database) :
  (∀ e, dashboardService.getOccupancyData tza now (Some e) gymId db = Rejected e)
  ∧ ∃ l,
      dashboardService.getOccupancyData tza now None gymId db = Fulfilled l
      ∧ dashboardService.hour <$> l
        = ["6:00"; "7:00"; "8:00"; "9:00"; "10:00"; "11:00"; "12:00"; "13:00"; "14:00";
           "15:00"; "16:00"; "17:00"; "18:00"; "19:00"; "20:00"; "21:00"; "22:00"]
      ∧ ∀ h, 6 ≤ h ≤ 22 →
          ∃ o, l !! Z.to_nat (h - 6) = Some o
               ∧ dashboardService.hour o = String_of h +:+ ":00"
               ∧ 0 ≤ dashboardService.visits o
               ∧ 7 * dashboardService.visits o - 3
                 ≤ length_of
                     (List.filter
                        (λ v, bool_decide (v_gym_id v = gymId)
                              && match v_check_in v with
                                 | Some t =>
                                     bool_decide
                                       (timestamptz_of_Date (setHours0 tza now - 7 * msPerDay) ≤ t)
                                     && bool_decide (getHours tza (Date_of_timestamptz t) = h)
                                 | None => false
                                 end)
                        (rows (member_visits db)))
                 ≤ 7 * dashboardService.visits o + 3.
Proof.
  split; [done|]. unfold dashboardService.getOccupancyData.
  cbn [select error data]. eexists. split; [reflexivity|].
  rewrite weekAgo_eq. unfold dashboardService.occupancy_of.
  rewrite fold_count_visit
    by (unfold dashboardService.hourlyData_init; vm_compute; repeat constructor; done).
  rewrite <- !list_fmap_compose.
  split; [reflexivity|].
  intros h Hh. rewrite list_lookup_fmap.
  unfold dashboardService.hourlyData_init. rewrite list_lookup_fmap.
  rewrite lookup_seqZ_lt by lia. cbn [fmap option_fmap option_map compose fst snd].
  eexists. split; [reflexivity|]. cbn [dashboardService.hour dashboardService.visits].
  replace (6 + Z.of_nat (Z.to_nat (h - 6))) with h by lia.
  split; [done|]. rewrite Z.add_0_l.
  assert (Hcount :
    List.filter
      (λ v, bool_decide (getHours tza (Date_of_nullable (v_check_in v)) = h))
      (dashboardService.visits_since (setHours0 tza now - 7 * msPerDay) gymId db)
    = List.filter
        (λ v, bool_decide (v_gym_id v = gymId)
              && match v_check_in v with
                 | Some t =>
                     bool_decide
                       (timestamptz_of_Date (setHours0 tza now - 7 * msPerDay) ≤ t)
                     && bool_decide (getHours tza (Date_of_timestamptz t) = h)
                 | None => false
                 end)
        (rows (member_visits db))).
  { unfold dashboardService.visits_since. rewrite <- filter_andb.
    apply List.filter_ext. intros v. unfold sql_ge, holds, Date_of_nullable.
    destruct (v_check_in v) as [t|]; [|by rewrite !andb_false_r].
    destruct (bool_decide (v_gym_id v = gymId)); [|done]. cbn [andb].
    by destruct (bool_decide (timestamptz_of_Date _ ≤ t)). }
  rewrite <- Hcount.
  set (n := length_of _).
  pose proof (Math_round_quotient_7 n) as Hr.
  split; [|done].
  unfold dashboardService.Math_round_quotient.
  apply Z.div_pos; [|done]. unfold n, length_of. lia.
Qed.

(** *** Peak time *)

Lemma peak_fold (a : dashboardService.occupancy) (l : list dashboardService.occupancy) :
  let p := fold_left (λ max d, if bool_decide (dashboardService.visits max
                                                < dashboardService.visits d)
                               then d else max) l a in
  (p = a ∧ Forall (λ d, dashboardService.visits d ≤ dashboardService.visits a) l)
  ∨ (dashboardService.visits a < dashboardService.visits p
     ∧ ∃ i, l !! i = Some p
            ∧ (∀ j d, (j < i)%nat → l !! j = Some d →
                      dashboardService.visits d < dashboardService.visits p)
            ∧ ∀ d, d ∈ l → dashboardService.visits d ≤ dashboardService.visits p).
Proof.
  revert a. induction l as [|d l IH]; intros a; cbn [fold_left].
  { left. by split. }
  case_bool_decide as Hd.
  - right. destruct (IH d) as [[Hp Hall]|(Hlt & i & Hi & Hbefore & Hmax)].
    + cbn zeta in Hp. rewrite Hp. split; [done|]. exists 0%nat.
      split; [done|]. split; [intros j d' Hj; lia|].
      intros d' [->|Hd']%elem_of_cons; [done|].
      by apply (proj1 (Forall_forall _ _) Hall).
    + split; [lia|]. exists (S i). split; [done|]. split.
      * intros [|j] d' Hj Hd'; [by injection Hd' as <-|].
        apply (Hbefore j d'); [lia|done].
      * intros d' [->|Hd']%elem_of_cons; [lia|by apply Hmax].
  - destruct (IH a) as [[Hp Hall]|(Hlt & i & Hi & Hbefore & Hmax)].
    + left. split; [done|]. constructor; [lia|done].
    + right. split; [done|]. exists (S i). split; [done|]. split.
      * intros [|j] d' Hj Hd'; [injection Hd' as <-; lia|].
        apply (Hbefore j d'); [lia|done].
      * intros d' [->|Hd']%elem_of_cons; [lia|by apply Hmax].
Qed.

(** X24.  The peak time shown on the analytics page is the earliest entry
    with the most visits; when no entry has a visit it is ["18:00"] with 0
    visits. *)
Theorem peakHour_is_first_maximum (l : list dashboardService.occupancy) :
  (∀ d, d ∈ l →
        dashboardService.visits d ≤ dashboardService.visits (AnalyticsReports.peakHour l))
  ∧ (Forall (λ d, dashboardService.visits d ≤ 0) l ↔
     AnalyticsReports.peakHour l = dashboardService.mkOccupancy "18:00" 0)
  ∧ (Exists (λ d, 0 < dashboardService.visits d) l ↔
     ∃ i, l !! i = Some (AnalyticsReports.peakHour l)
          ∧ 0 < dashboardService.visits (AnalyticsReports.peakHour l)
          ∧ ∀ j d, (j < i)%nat → l !! j = Some d →
                   dashboardService.visits d
                   < dashboardService.visits (AnalyticsReports.peakHour l)).
Proof.
  unfold AnalyticsReports.peakHour.
  destruct (peak_fold (dashboardService.mkOccupancy "18:00" 0) l)
    as [[Hp Hall]|(Hlt & i & Hi & Hbefore & Hmax)];
    cbn zeta in *; cbn [dashboardService.visits] in *.
  - rewrite Hp. cbn [dashboardService.visits]. split; [|split].
    + intros d Hd. by apply (proj1 (Forall_forall _ _) Hall).
    + done.
    + split.
      * intros Hex. apply Exists_exists in Hex as (d & Hd & Hpos).
        apply (proj1 (Forall_forall _ _) Hall) in Hd. lia.
      * intros (i & _ & Hpos & _). lia.
  - split; [done|]. split.
    + split.
      * intros Hall. apply list_elem_of_lookup_2 in Hi.
        apply (proj1 (Forall_forall _ _) Hall) in Hi. lia.
      * intros Hp. rewrite Hp in Hlt. cbn in Hlt. lia.
    + split; [|intros _; apply Exists_exists; eexists; split;
                 [by eapply list_elem_of_lookup_2|done]].
      intros _. exists i. done.
Qed.

(** *** Revenue by month *)

Lemma append_nil (t : string) : "" +:+ t = t.
Proof. reflexivity. Qed.

Lemma append_cons (a : Ascii.ascii) (s t : string) :
  String a s +:+ t = String a (s +:+ t).
Proof. reflexivity. Qed.

Lemma string_length_app (s t : string) :
  String.length (s +:+ t) = (String.length s + String.length t)%nat.
Proof.
  induction s as [|a s IH]; [done|].
  rewrite append_cons. cbn [String.length]. by rewrite IH.
Qed.

(** Two texts that end in parts of the same length are equal part by part. *)
Lemma string_app_inj_suffix (s1 s2 t1 t2 : string) :
  String.length t1 = String.length t2 →
  s1 +:+ t1 = s2 +:+ t2 → s1 = s2 ∧ t1 = t2.
Proof.
  intros Hlen. revert s2. induction s1 as [|a s1 IH]; intros [|b s2] Heq.
  - done.
  - exfalso. rewrite append_nil, append_cons in Heq. rewrite Heq in Hlen.
    cbn [String.length] in Hlen. rewrite string_length_app in Hlen. lia.
  - exfalso. rewrite append_nil, append_cons in Heq. rewrite <- Heq in Hlen.
    cbn [String.length] in Hlen. rewrite string_length_app in Hlen. lia.
  - rewrite !append_cons in Heq. injection Heq as -> Heq.
    destruct (IH _ Heq) as [-> ->]. done.
Qed.

Lemma padStart2_month_inj (m1 m2 : Z) :
  1 ≤ m1 ≤ 12 → 1 ≤ m2 ≤ 12 →
  padStart2 (String_of m1) = padStart2 (String_of m2) → m1 = m2.
Proof.
  intros H1 H2.
  assert (m1 = 1 ∨ m1 = 2 ∨ m1 = 3 ∨ m1 = 4 ∨ m1 = 5 ∨ m1 = 6 ∨ m1 = 7 ∨ m1 = 8
          ∨ m1 = 9 ∨ m1 = 10 ∨ m1 = 11 ∨ m1 = 12) as C1 by lia.
  assert (m2 = 1 ∨ m2 = 2 ∨ m2 = 3 ∨ m2 = 4 ∨ m2 = 5 ∨ m2 = 6 ∨ m2 = 7 ∨ m2 = 8
          ∨ m2 = 9 ∨ m2 = 10 ∨ m2 = 11 ∨ m2 = 12) as C2 by lia.
  clear H1 H2. intros Heq.
  repeat (destruct C1 as [->|C1]); try subst m1;
    repeat (destruct C2 as [->|C2]); try subst m2;
    first [reflexivity | vm_compute in Heq; discriminate Heq].
Qed.

(** The key tells the year and the month. *)
Lemma month_key_inv (tza d1 d2 : Z) :
  paymentsService.month_key tza d1 = paymentsService.month_key tza d2 →
  getFullYear tza d1 = getFullYear tza d2 ∧ getMonth tza d1 = getMonth tza d2.
Proof.
  unfold paymentsService.month_key. intros Heq.
  apply string_app_inj_suffix in Heq as [Hy Hm].
  - apply (inj pretty) in Hy. split; [done|].
    apply (inj (String.append "-")) in Hm.
    apply padStart2_month_inj in Hm; [lia|apply getMonth_range..].
  - rewrite !append_cons, !append_nil. cbn [String.length].
    by rewrite !padStart2_month by apply getMonth_range.
Qed.

(** X25.  Two dates get the same key exactly when they are in the same
    month of the same year, local time: no bucket of [getRevenueByMonth]
    mixes two months, and no month is split over two buckets. *)
Theorem month_key_injective (tza d1 d2 : Z) :
  paymentsService.month_key tza d1 = paymentsService.month_key tza d2
  ↔ getFullYear tza d1 = getFullYear tza d2 ∧ getMonth tza d1 = getMonth tza d2.
Proof.
  split.
  - apply month_key_inv.
  - intros [Hy Hm]. unfold paymentsService.month_key.
    rewrite Hy, Hm. reflexivity.
Qed.

Lemma existsb_filter {A} (f : A → bool) (l : list A) :
  existsb f l = match List.filter f l with [] => false | _ => true end.
Proof.
  induction l as [|x l IH]; [done|]. cbn [existsb List.filter].
  by destruct (f x).
Qed.

Lemma in_month_same_month tza date q :
  in_month tza (paymentsService.month_key tza date) q = same_month tza date q.
Proof.
  unfold in_month, same_month. destruct (p_paid_date q) as [d|]; [|done].
  rewrite <- bool_decide_and. apply bool_decide_ext. split.
  - apply month_key_inv.
  - intros [Hy Hm]. unfold paymentsService.month_key. by rewrite Hy, Hm.
Qed.

(** The rows [getRevenueByMonth] reads. *)
Lemma paid_payments_since_Permutation start gymId db :
  paymentsService.paid_payments_since start gymId db
  ≡ₚ List.filter (paid_from start) (paymentsService.payments_of_gym gymId db).
Proof.
  unfold paymentsService.paid_payments_since, paymentsService.payments_of_gym.
  rewrite merge_sort_Permutation, <- filter_andb.
  erewrite List.filter_ext; [done|]. intros p. cbn beta.
  unfold paid_from, paymentsService.has_status, sql_ge, holds.
  rewrite <- andb_assoc. f_equal. f_equal.
  destruct (p_paid_date p) as [d|]; [|done].
  by destruct (bool_decide _).
Qed.

Lemma getRevenueByMonth_eq tza now gymId months db :
  paymentsService.getRevenueByMonth tza now None gymId months db
  = Fulfilled
      (paymentsService.group_by_month tza
         (paymentsService.paid_payments_since
            (paymentsService.startOfMonth tza
               (setMonth tza (getMonth tza now - months) now))
            gymId db)).
Proof.
  unfold paymentsService.getRevenueByMonth, paymentsService.startOfMonth.
  cbn [select error data]. reflexivity.
Qed.

Lemma paid_date_asc_total : Total paymentsService.paid_date_asc.
Proof.
  intros a b. unfold paymentsService.paid_date_asc.
  destruct (p_paid_date a), (p_paid_date b); try tauto. lia.
Qed.

Lemma paid_date_asc_trans : Transitive paymentsService.paid_date_asc.
Proof.
  intros a b c. unfold paymentsService.paid_date_asc.
  destruct (p_paid_date a), (p_paid_date b), (p_paid_date c); try tauto. lia.
Qed.

(** X26.  [getRevenueByMonth], in a time zone whose offset from UTC does not
    change: a failed read is thrown; otherwise the rows read are the paid
    payments of the gym dated from [start] on, the first day of a month at
    midnight, local time, in the order of their [paid_date].  The bucket of
    a month holds the sum of the amounts of the rows dated in that month,
    added as numbers in the order of the rows, a month without one has no
    bucket, and every bucket is the bucket of a month. *)
Theorem getRevenueByMonth_buckets (tza now : Z) (gymId : uuid) (months : Z)
    (db : database) :
  (∀ e, paymentsService.getRevenueByMonth tza now (Some e) gymId months db = Rejected e)
  ∧ ∃ rev start data,
      paymentsService.getRevenueByMonth tza now None gymId months db = Fulfilled rev
      ∧ start = paymentsService.startOfMonth tza
                  (setMonth tza (getMonth tza now - months) now)
      ∧ getDate tza start = 1
      ∧ TimeWithinDay (LocalTime tza start) = 0
      ∧ data = paymentsService.paid_payments_since start gymId db
      ∧ data ≡ₚ List.filter (paid_from start) (paymentsService.payments_of_gym gymId db)
      ∧ StronglySorted paymentsService.paid_date_asc data
      ∧ (∀ date,
           rev !! paymentsService.month_key tza date
           = match List.filter (same_month tza date) data with
             | [] => None
             | p :: ps => Some (add_to_bucket zero (amount <$> p :: ps))
             end)
      ∧ (∀ key, is_Some (rev !! key) → ∃ date, key = paymentsService.month_key tza date).
Proof.
  split; [done|].
  set (start := paymentsService.startOfMonth tza
                  (setMonth tza (getMonth tza now - months) now)).
  exists (paymentsService.group_by_month tza
            (paymentsService.paid_payments_since start gymId db)), start,
         (paymentsService.paid_payments_since start gymId db).
  split; [apply getRevenueByMonth_eq|]. split; [done|].
  split; [apply startOfMonth_date|]. split; [apply startOfMonth_midnight|].
  split; [done|]. split; [apply paid_payments_since_Permutation|].
  split.
  { unfold paymentsService.paid_payments_since.
    apply (@Sorted_StronglySorted _ _ paid_date_asc_trans).
    apply (@Sorted_merge_sort _ _ _ paid_date_asc_total). }
  set (data := paymentsService.paid_payments_since start gymId db).
  split.
  - intros date. rewrite group_by_month_lookup, existsb_filter.
    unfold month_revenue.
    erewrite (List.filter_ext (in_month _ _)) by apply in_month_same_month.
    by destruct (List.filter (same_month tza date) data).
  - intros key [v Hv]. rewrite group_by_month_lookup in Hv.
    destruct (existsb (in_month tza key) data) eqn:He; [|done].
    apply existsb_exists in He as (q & _ & Hkey).
    unfold in_month in Hkey. destruct (p_paid_date q) as [d|]; [|done].
    apply bool_decide_eq_true in Hkey. by exists (Date_of_timestamptz d).
Qed.

(** *** The first month of the revenue by month *)

Lemma month_ok_era : all_from month_ok 0 (Z.to_nat 4800) = true.
Proof. vm_cast_no_check (eq_refl true). Qed.

Lemma civil_from_days_shift (z k : Z) :
  civil_from_days (z + 146097 * k)
  = ((civil_from_days z).1.1 + 400 * k, (civil_from_days z).1.2, (civil_from_days z).2).
Proof.
  unfold civil_from_days.
  replace (z + 146097 * k + 719468) with (z + 719468 + k * 146097) by lia.
  rewrite Z.div_add, Z.mod_add by done.
  rewrite (civil_of_doe_shift (_ + k)), (civil_of_doe_shift (_ `div` _)).
  cbn [fst snd]. f_equal. f_equal. lia.
Qed.

Lemma month_ok_spec (ym k : Z) :
  month_ok ym = true → 0 ≤ k < 28 →
  civil_from_days (days_from_civil (ym `div` 12) (ym `mod` 12 + 1) 1 + k)
  = (ym `div` 12, ym `mod` 12 + 1, k + 1).
Proof.
  unfold month_ok. intros Hok Hk.
  pose proof (all_from_spec _ 0 28 Hok k ltac:(lia)) as Hk0. cbn beta in Hk0.
  destruct (civil_from_days _) as [[y' m'] d'].
  apply andb_true_iff in Hk0 as [Hk0 Hd]. apply andb_true_iff in Hk0 as [Hy' Hm'].
  f_equal; [f_equal|]; lia.
Qed.

(** The first 28 days of a month. *)
Lemma civil_from_days_in_month (y m k : Z) :
  1 ≤ m ≤ 12 → 0 ≤ k < 28 →
  civil_from_days (days_from_civil y m 1 + k) = (y, m, k + 1).
Proof.
  intros Hm Hk.
  pose proof (Z.div_mod y 400 ltac:(done)) as Hy.
  pose proof (Z.mod_pos_bound y 400 ltac:(done)) as Hy0.
  set (e := y `div` 400) in *. set (y0 := y `mod` 400) in *.
  assert (Hok : month_ok (y0 * 12 + (m - 1)) = true).
  { apply (all_from_spec month_ok 0 (Z.to_nat 4800) month_ok_era). lia. }
  apply month_ok_spec with (k := k) in Hok; [|done].
  replace ((y0 * 12 + (m - 1)) `div` 12) with y0 in Hok
    by (apply Z.div_unique with (r := m - 1); lia).
  replace ((y0 * 12 + (m - 1)) `mod` 12 + 1) with m in Hok
    by (rewrite <- (Z.mod_unique (y0 * 12 + (m - 1)) 12 y0 (m - 1)); lia).
  replace y with (y0 + 400 * e) by lia.
  rewrite days_from_civil_shift.
  replace (days_from_civil y0 m 1 + 146097 * e + k)
    with (days_from_civil y0 m 1 + k + 146097 * e) by lia.
  rewrite civil_from_days_shift, Hok. cbn [fst snd]. done.
Qed.

(** [setMonth] on one of the first 28 days of a month keeps the day. *)
Lemma setMonth_date (tza month now : Z) :
  getDate tza now ≤ 28 →
  getFullYear tza (setMonth tza month now) = getFullYear tza now + month `div` 12
  ∧ getMonth tza (setMonth tza month now) = month `mod` 12.
Proof.
  unfold getDate, getFullYear, getMonth, setMonth.
  unfold DateFromTime, YearFromTime, MonthFromTime.
  set (lt := LocalTime tza now).
  pose proof (civil_from_days_spec (Day lt)) as Hspec.
  destruct (civil_from_days (Day lt)) as [[y m] d]. cbn [fst snd].
  destruct Hspec as (_ & _ & Hd & _). intros Hd28.
  pose proof (Z.mod_pos_bound month 12 ltac:(done)) as Hmn.
  replace (LocalTime tza (UTC tza (MakeDate (MakeDay y month d) (TimeWithinDay lt))))
    with (MakeDate (MakeDay y month d) (TimeWithinDay lt))
    by (rewrite LocalTime_eq; unfold UTC; lia).
  rewrite Day_MakeDate by apply TimeWithinDay_bound.
  unfold MakeDay.
  replace (days_from_civil (y + month `div` 12) (month `mod` 12 + 1) 1 + d - 1)
    with (days_from_civil (y + month `div` 12) (month `mod` 12 + 1) 1 + (d - 1)) by lia.
  rewrite civil_from_days_in_month by lia. cbn [fst snd]. lia.
Qed.

(** X27.  In a time zone whose offset from UTC does not change: on one of
    the first 28 days of a month, local time, [getRevenueByMonth] reads the
    payments from the first day, at midnight, of the month [months] months
    before the current one. *)
Theorem getRevenueByMonth_starts_months_back
    (tza now months : Z) (gymId : uuid) (db : database) :
  getDate tza now ≤ 28 →
  ∃ start,
    paymentsService.getRevenueByMonth tza now None gymId months db
    = Fulfilled (paymentsService.group_by_month tza
                   (paymentsService.paid_payments_since start gymId db))
    ∧ 12 * getFullYear tza start + getMonth tza start
      = 12 * getFullYear tza now + getMonth tza now - months
    ∧ getDate tza start = 1
    ∧ TimeWithinDay (LocalTime tza start) = 0.
Proof.
  intros Hd.
  exists (paymentsService.startOfMonth tza
            (setMonth tza (getMonth tza now - months) now)).
  split; [apply getRevenueByMonth_eq|].
  destruct (startOfMonth_date tza (setMonth tza (getMonth tza now - months) now))
    as (Hy & Hm & Hd1).
  destruct (setMonth_date tza (getMonth tza now - months) now Hd) as (Hy' & Hm').
  split; [|split; [exact Hd1|apply startOfMonth_midnight]].
  rewrite Hy, Hm, Hy', Hm'.
  pose proof (Z.div_mod (getMonth tza now - months) 12 ltac:(done)) as Hdm.
  revert Hdm.
  generalize ((getMonth tza now - months) `div` 12)
             ((getMonth tza now - months) `mod` 12)
             (getFullYear tza now) (getMonth tza now).
  intros. lia.
Qed.

Lemma getRevenueByMonth_starts_months_back_witness :
  ∃ start,
    paymentsService.getRevenueByMonth 0 0 None "g" 6 three_payments_db
    = Fulfilled (paymentsService.group_by_month 0
                   (paymentsService.paid_payments_since start "g" three_payments_db))
    ∧ 12 * getFullYear 0 start + getMonth 0 start = 12 * 1970 + 0 - 6.
Proof.
  destruct (getRevenueByMonth_starts_months_back 0 0 6 "g" three_payments_db)
    as (start & Hrun & Hmonth & _).
  - vm_compute. discriminate.
  - exists start. split; [exact Hrun|]. rewrite Hmonth. vm_compute. reflexivity.
Defined.

(** On the 31st of March the month before has no such day: [setMonth]
    carries over into March, and the payments are read from the first of
    March, not of February. *)
Example getRevenueByMonth_start_on_the_31st :
  getDate 0 (MakeDate (days_from_civil 2024 3 31) 0) = 31
  ∧ paymentsService.startOfMonth 0
      (setMonth 0 (getMonth 0 (MakeDate (days_from_civil 2024 3 31) 0) - 1)
                (MakeDate (days_from_civil 2024 3 31) 0))
    = MakeDate (days_from_civil 2024 3 1) 0.
Proof. split; vm_compute; reflexivity. Qed.

(** *** Membership distribution *)

Lemma or_0_Some (n : Z) : or_0 (Some n) = n.
Proof. rewrite or_0_default. done. Qed.

Lemma bump_keys (k : string) (c : list (string * Z)) :
  (AnalyticsReports.bump k c).*1 = if bool_decide (k ∈ c.*1) then c.*1 else (c.*1 ++ [k])%list.
Proof.
  induction c as [|[k' n] c IH]; [done|]. cbn [AnalyticsReports.bump].
  destruct (decide (k' = k)) as [->|Hk].
  - rewrite (bool_decide_eq_true_2 (k = k)) by done. cbn [fmap list_fmap fst].
    rewrite bool_decide_eq_true_2 by left. done.
  - rewrite (bool_decide_eq_false_2 (k' = k)) by done. cbn [fmap list_fmap fst].
    fold (fmap (M := list) (@fst string Z)). rewrite IH.
    destruct (decide (k ∈ c.*1)) as [Hin|Hout].
    + rewrite !bool_decide_eq_true_2; [done|by right|done].
    + rewrite !bool_decide_eq_false_2; [done| |done].
      intros [?|?]%elem_of_cons; [by subst|done].
Qed.

Lemma bump_NoDup (k : string) (c : list (string * Z)) :
  NoDup c.*1 → NoDup (AnalyticsReports.bump k c).*1.
Proof.
  intros Hc. rewrite bump_keys. case_bool_decide as Hk; [done|].
  apply NoDup_app. split; [done|]. split; [|apply NoDup_singleton].
  intros x Hx ->%list_elem_of_singleton. done.
Qed.

Lemma bump_sum (k : string) (c : list (string * Z)) :
  sum_of snd (AnalyticsReports.bump k c) = sum_of snd c + 1.
Proof.
  unfold sum_of. induction c as [|[k' n] c IH]; [done|].
  cbn [AnalyticsReports.bump]. case_bool_decide; cbn [foldr snd].
  - rewrite or_0_Some. lia.
  - rewrite IH. lia.
Qed.

Lemma bump_other (k k' : string) (n' : Z) (c : list (string * Z)) :
  k' ≠ k → (k', n') ∈ AnalyticsReports.bump k c ↔ (k', n') ∈ c.
Proof.
  intros Hne. induction c as [|[k0 n0] c IH]; cbn [AnalyticsReports.bump].
  - rewrite list_elem_of_singleton, elem_of_nil. split; [|done]. by intros [= -> _].
  - case_bool_decide as Hk.
    + rewrite !elem_of_cons. subst k0. split; (intros [[= -> _]|?]; [done|by right]).
    + by rewrite !elem_of_cons, IH.
Qed.

Lemma bump_same (k : string) (n' : Z) (c : list (string * Z)) :
  NoDup c.*1 →
  (k, n') ∈ AnalyticsReports.bump k c
  ↔ (∃ n, (k, n) ∈ c ∧ n' = n + 1) ∨ ((k ∉ c.*1) ∧ n' = 1).
Proof.
  induction c as [|[k0 n0] c IH]; intros Hc; cbn [AnalyticsReports.bump].
  - rewrite list_elem_of_singleton. cbn. split.
    + intros [= ->]. right. split; [apply not_elem_of_nil|done].
    + intros [(n & Hn & _)|[_ ->]]; [by apply elem_of_nil in Hn|done].
  - cbn [fmap list_fmap fst] in Hc. apply NoDup_cons in Hc as [Hk0 Hc].
    case_bool_decide as Hk.
    + subst k0. rewrite or_0_Some. rewrite elem_of_cons. split.
      * intros [[= ->]|Hin].
        -- left. exists n0. split; [left|done].
        -- exfalso. apply Hk0. apply list_elem_of_fmap. by exists (k, n').
      * intros [(n & Hn & ->)|[Hout _]].
        -- apply elem_of_cons in Hn as [[= ->]|Hn]; [by left|].
           exfalso. apply Hk0. apply list_elem_of_fmap. by exists (k, n).
        -- exfalso. apply Hout. cbn. left.
    + rewrite elem_of_cons, (IH Hc). cbn [fmap list_fmap fst].
      rewrite not_elem_of_cons. split.
      * intros [[= -> _]|[(n & Hn & ->)|[Hout ->]]]; [done| |].
        -- left. exists n. split; [by right|done].
        -- right. split; [split; [congruence|done]|done].
      * intros [(n & Hn & ->)|[[_ Hout] ->]].
        -- apply elem_of_cons in Hn as [[= -> _]|Hn]; [done|].
           right. left. by exists n.
        -- right. right. done.
Qed.

Lemma label_type_key_inj (t1 t2 : option membership_type) :
  AnalyticsReports.label (AnalyticsReports.type_key t1)
  = AnalyticsReports.label (AnalyticsReports.type_key t2) → t1 = t2.
Proof. destruct t1 as [[]|], t2 as [[]|]; vm_compute; congruence. Qed.

(** The counts after the [forEach]. *)
Lemma membership_counts (ms : list member) :
  let c := fold_left (λ counts m,
                        AnalyticsReports.bump
                          (AnalyticsReports.type_key (m_membership_type m)) counts)
                     ms [] in
  NoDup c.*1
  ∧ sum_of snd c = length_of ms
  ∧ ∀ k n, (k, n) ∈ c ↔
           0 < n
           ∧ n = length_of
                   (List.filter
                      (λ m, bool_decide
                              (AnalyticsReports.type_key (m_membership_type m) = k))
                      ms).
Proof.
  induction ms as [|m ms IH] using rev_ind; cbn zeta in *.
  - cbn [fold_left]. split; [constructor|]. split; [done|].
    intros k n. rewrite elem_of_nil. cbn. unfold length_of. cbn. lia.
  - rewrite fold_left_app. cbn [fold_left].
    destruct IH as (Hnd & Hsum & Hin).
    set (c := fold_left _ ms []) in *.
    set (k0 := AnalyticsReports.type_key (m_membership_type m)).
    split; [by apply bump_NoDup|]. split.
    { rewrite bump_sum, Hsum. unfold length_of. rewrite length_app. cbn. lia. }
    intros k n. rewrite List.filter_app. cbn [List.filter]. fold k0.
    unfold length_of. rewrite length_app.
    destruct (decide (k = k0)) as [->|Hne].
    + rewrite bool_decide_eq_true_2 by done. cbn [length].
      rewrite bump_same by done. split.
      * intros [(n0 & Hn0 & ->)|[Hout ->]].
        -- apply Hin in Hn0 as [Hpos ->]. unfold length_of. lia.
        -- split; [done|].
           destruct (List.filter _ ms) as [|m' l] eqn:Hf; [done|]. exfalso.
           apply Hout. apply list_elem_of_fmap.
           exists (k0, length_of (List.filter
                     (λ m, bool_decide
                             (AnalyticsReports.type_key (m_membership_type m) = k0)) ms)).
           split; [done|]. apply Hin. split; [|done].
           rewrite Hf. unfold length_of. cbn. lia.
      * intros [Hpos ->].
        destruct (List.filter
                    (λ m, bool_decide
                            (AnalyticsReports.type_key (m_membership_type m) = k0)) ms)
          as [|m' l] eqn:Hf.
        -- right. split; [|done]. intros Hk.
           apply list_elem_of_fmap in Hk as ([k' n'] & Hk' & Hk).
           cbn [fst] in Hk'. subst k'. apply Hin in Hk as [Hpos' Hn'].
           rewrite Hf in Hn'. unfold length_of in Hn'. cbn in Hn'. lia.
        -- left. exists (length_of (m' :: l)). split; [|unfold length_of; lia].
           apply Hin. rewrite Hf. split; [unfold length_of; cbn; lia|done].
    + rewrite bool_decide_eq_false_2 by done. cbn [length].
      rewrite bump_other by done. rewrite Hin. unfold length_of. rewrite Nat.add_0_r. done.
Qed.

(** X28.  The membership chart of the analytics page counts every member
    once: it has one entry for each membership type that some member has,
    with the number of these members, and one named ["null"] for the
    members without a type; the values add up to the number of members. *)
Theorem membershipData_counts (members : list member) :
  NoDup (AnalyticsReports.name <$> AnalyticsReports.membershipData members)
  ∧ sum_of AnalyticsReports.value (AnalyticsReports.membershipData members)
    = length_of members
  ∧ (∀ s, s ∈ AnalyticsReports.membershipData members →
          ∃ t, AnalyticsReports.name s
               = AnalyticsReports.label (AnalyticsReports.type_key t))
  ∧ ∀ t n,
      AnalyticsReports.mkSlice (AnalyticsReports.label (AnalyticsReports.type_key t)) n
        ∈ AnalyticsReports.membershipData members
      ↔ 0 < n
        ∧ n = length_of (List.filter (λ m, bool_decide (m_membership_type m = t)) members).
Proof.
  unfold AnalyticsReports.membershipData. cbn zeta.
  destruct (membership_counts members) as (Hnd & Hsum & Hin). cbn zeta in *.
  set (c := fold_left _ members []) in *.
  assert (Hkey : ∀ k n, (k, n) ∈ c → ∃ t, k = AnalyticsReports.type_key t).
  { intros k n [Hpos ->]%Hin.
    destruct (List.filter _ members) as [|m l] eqn:Hf;
      [unfold length_of in Hpos; cbn in Hpos; lia|].
    assert (Hm : In m (List.filter
                         (λ m, bool_decide
                                 (AnalyticsReports.type_key (m_membership_type m) = k))
                         members)) by (rewrite Hf; left; done).
    apply filter_In in Hm as [_ Hm]. apply bool_decide_eq_true in Hm. eauto. }
  assert (Hcount : ∀ t,
    List.filter (λ m, bool_decide
                        (AnalyticsReports.type_key (m_membership_type m)
                         = AnalyticsReports.type_key t)) members
    = List.filter (λ m, bool_decide (m_membership_type m = t)) members).
  { intros t. apply List.filter_ext. intros m. apply bool_decide_ext. split.
    - intros Hk. apply label_type_key_inj. by rewrite Hk.
    - by intros ->. }
  split; [|split; [|split]].
  - rewrite <- list_fmap_compose.
    rewrite (list_fmap_ext _ (AnalyticsReports.label ∘ fst) c) by (by intros i [k n] _).
    rewrite list_fmap_compose. apply NoDup_fmap_2_strong; [|done].
    intros k1 k2 Hk1 Hk2 Heq.
    apply list_elem_of_fmap in Hk1 as ([k1' n1] & -> & Hk1).
    apply list_elem_of_fmap in Hk2 as ([k2' n2] & -> & Hk2).
    cbn [fst] in *.
    apply Hkey in Hk1 as [t1 ->]. apply Hkey in Hk2 as [t2 ->].
    by rewrite (label_type_key_inj _ _ Heq).
  - rewrite <- Hsum. clear. induction c as [|[k n] c IH]; [done|].
    unfold sum_of in *. cbn. by rewrite IH.
  - intros s Hs. apply list_elem_of_fmap in Hs as ([k n] & -> & Hkn).
    cbn [AnalyticsReports.name fst]. apply Hkey in Hkn as [t ->]. eauto.
  - intros t n. rewrite <- Hcount, <- Hin. rewrite list_elem_of_fmap. split.
    + intros ([k n'] & [= Hl ->] & Hkn). cbn [fst snd] in *.
      destruct (Hkey _ _ Hkn) as [t' ->].
      by rewrite (label_type_key_inj _ _ Hl).
    + intros Hkn. by exists (AnalyticsReports.type_key t, n).
Qed.

Example membershipData_example :
  AnalyticsReports.membershipData
    [example_member None; other_member; member_without_status; example_member None]
  = [AnalyticsReports.mkSlice "Basic" 2; AnalyticsReports.mkSlice "Premium" 1;
     AnalyticsReports.mkSlice "null" 1].
Proof. vm_compute. reflexivity. Qed.

(** *** Check-ins, one after the other *)

Lemma checkIn_step env memberId gymId db x m :
  members db !! x = Some m →
  ∃ m',
    members (membersService.checkIn env memberId gymId db).1 !! x = Some m'
    ∧ m_last_visit m' = m_last_visit m
    ∧ m_total_visits m' = m_total_visits m
    ∧ m_coach_id m' = m_coach_id m
    ∧ (m_activity_status m' = m_activity_status m
       ∨ m_activity_status m'
         = Some (activity_case (membersService.now_insert env) (m_last_visit m))).
Proof.
  intros Hx. unfold membersService.checkIn.
  set (NEW := mkVisit _ _ _ _ _).
  destruct (decide (is_Some (member_visits db !! v_id NEW))) as [Hdup|Hfresh].
  { unfold INSERT_member_visit. rewrite bool_decide_eq_true_2 by done.
    exists m. cbn [fst]. by repeat split; try left. }
  destruct (members db !! memberId) as [m0|] eqn:Hm; cycle 1.
  { unfold INSERT_member_visit. rewrite bool_decide_eq_false_2 by done.
    rewrite bool_decide_eq_true_2 by done.
    exists m. cbn [fst]. by repeat split; try left. }
  assert (Hnone : member_visits db !! v_id NEW = None).
  { destruct (member_visits db !! v_id NEW) eqn:E; [|done]. by destruct Hfresh. }
  rewrite (INSERT_member_visit_run _ NEW db m0 Hnone Hm).
  set (m1 := update_members_updated_at _ _).
  set (db1 := update_coach_client_count _ _ _ _ _).
  assert (Hms : members db1 = <[memberId := m1]> (members db)).
  { unfold db1. by rewrite members_update_coach_client_count. }
  unfold update_members, UPDATE_members_by_id.
  rewrite Hms, lookup_insert_eq, checkIn_payload_refused. cbn [fst].
  rewrite Hms. destruct (decide (x = memberId)) as [->|Hne].
  - rewrite lookup_insert_eq. exists m1. rewrite Hx in Hm. injection Hm as <-.
    split; [done|]. split; [done|]. split; [done|]. split; [done|]. by right.
  - rewrite lookup_insert_ne by done. exists m. by repeat split; try left.
Qed.

(** X29.  Check-ins never record a visit on the member: after any run of
    [checkIn] calls every member is still there with the [last_visit], the
    [total_visits] and the coach it had, and with the tier it had or the
    tier of that old [last_visit] at the time of one of the calls.  So a
    member never seen, listed as inactive, stays inactive however often it
    checks in. *)
Theorem checkIns_never_record_a_visit
    (calls : list (membersService.checkIn_env * uuid * uuid))
    (db : database) (x : uuid) (m : member) :
  members db !! x = Some m →
  ∃ m',
    members (checkIns calls db) !! x = Some m'
    ∧ m_last_visit m' = m_last_visit m
    ∧ m_total_visits m' = m_total_visits m
    ∧ m_coach_id m' = m_coach_id m
    ∧ (m_activity_status m' = m_activity_status m
       ∨ ∃ call, call ∈ calls
                 ∧ m_activity_status m'
                   = Some (activity_case (membersService.now_insert call.1.1)
                                         (m_last_visit m)))
    ∧ (m_last_visit m = None → m_activity_status m = Some inactive →
       m_activity_status m' = Some inactive).
Proof.
  unfold checkIns. revert db m.
  induction calls as [|[[env memberId] gymId] calls IH]; intros db m Hx.
  - cbn [fold_left]. exists m. repeat split; try done. by left.
  - cbn [fold_left fst snd].
    destruct (checkIn_step env memberId gymId db x m Hx)
      as (m1 & Hx1 & Hlv1 & Htv1 & Hc1 & Hst1).
    destruct (IH _ m1 Hx1) as (m' & Hx' & Hlv & Htv & Hc & Hst & Hina).
    exists m'. split; [done|]. split; [congruence|]. split; [congruence|].
    split; [congruence|]. split.
    + destruct Hst as [Hst|(call & Hcall & Hst)].
      * destruct Hst1 as [Hst1|Hst1].
        -- left. congruence.
        -- right. exists (env, memberId, gymId). split; [left|].
           cbn [fst]. congruence.
      * right. exists call. split; [by right|]. by rewrite <- Hlv1.
    + intros Hnone Hinactive. apply Hina; [congruence|].
      destruct Hst1 as [Hst1|Hst1]; [congruence|].
      rewrite Hst1, Hnone. reflexivity.
Qed.

Lemma checkIns_never_record_a_visit_witness :
  ∃ m',
    members (checkIns [(checkIn_env_1, "m1", "g"); (checkIn_env_1, "m1", "g")]
                      two_members_db) !! "m1" = Some m'
    ∧ m_last_visit m' = m_last_visit (example_member None)
    ∧ m_total_visits m' = Some 12.
Proof.
  destruct (checkIns_never_record_a_visit
              [(checkIn_env_1, "m1", "g"); (checkIn_env_1, "m1", "g")]
              two_members_db "m1" (example_member None))
    as (m' & Hx & Hlv & Htv & _).
  - reflexivity.
  - exists m'. split; [exact Hx|]. split; [exact Hlv|]. rewrite Htv. reflexivity.
Defined.

(** *** Callers that may not write [coaches] *)

Lemma UPDATE_members_by_id_coaches_refused now x set_ db db' :
  may_manage_coaches (auth_role db) = false →
  UPDATE_members_by_id now x set_ db = Ok db' →
  coaches db' = coaches db ∧ auth_role db' = auth_role db.
Proof.
  intros Hr. unfold UPDATE_members_by_id.
  destruct (members db !! x) as [OLD|]; [|by intros [= <-]].
  destruct (set_ OLD) as [NEW0|e]; [|done].
  case_match; [done|]. intros [= <-].
  by rewrite update_coach_client_count_refused.
Qed.

Lemma INSERT_member_visit_coaches_refused now NEW db db' :
  may_manage_coaches (auth_role db) = false →
  INSERT_member_visit now NEW db = Ok db' →
  coaches db' = coaches db ∧ auth_role db' = auth_role db.
Proof.
  intros Hr. unfold INSERT_member_visit, update_member_activity_status.
  repeat case_match; try done. intros Hrun.
  by apply UPDATE_members_by_id_coaches_refused in Hrun.
Qed.

(** X30.  For a caller whose role is coach or receptionist, or who has no
    role, no statement on [members] or [member_visits] writes to [coaches]:
    after an insert, an update or a delete of a member, after a visit and
    after [checkIn], every coach row is as it was.  So the counts go stale:
    after such a caller has inserted a member for a coach whose count was
    right, the counts are not accurate any more. *)
Theorem coaches_untouched_without_role (now : timestamptz) (db : database) :
  may_manage_coaches (auth_role db) = false →
  (∀ NEW db', INSERT_member now NEW db = Ok db' → coaches db' = coaches db)
  ∧ (∀ x set_ db', UPDATE_members_by_id now x set_ db = Ok db' →
                   coaches db' = coaches db)
  ∧ (∀ x, coaches (DELETE_member now x db) = coaches db)
  ∧ (∀ NEW db', INSERT_member_visit now NEW db = Ok db' → coaches db' = coaches db)
  ∧ (∀ env memberId gymId,
       coaches (membersService.checkIn env memberId gymId db).1 = coaches db)
  ∧ (∀ NEW c co,
       members db !! m_id NEW = None →
       m_coach_id NEW = Some c →
       coaches db !! c = Some co →
       client_counts_accurate db →
       ∃ db', INSERT_member now NEW db = Ok db' ∧ ¬ client_counts_accurate db').
Proof.
  intros Hr.
  assert (Hinsert : ∀ NEW db', INSERT_member now NEW db = Ok db' →
                               db' = with_members (<[m_id NEW := NEW]> (members db)) db).
  { intros NEW db'. unfold INSERT_member. repeat case_match; try done.
    intros [= <-]. by rewrite update_coach_client_count_refused. }
  split; [|split; [|split; [|split; [|split]]]].
  - intros NEW db' Hrun. by rewrite (Hinsert _ _ Hrun).
  - intros x set_ db' Hrun.
    by apply UPDATE_members_by_id_coaches_refused in Hrun as [? _].
  - intros x. unfold DELETE_member. destruct (members db !! x) as [OLD|]; [|done].
    by rewrite update_coach_client_count_refused.
  - intros NEW db' Hrun.
    by apply INSERT_member_visit_coaches_refused in Hrun as [? _].
  - intros env memberId gymId. unfold membersService.checkIn.
    destruct (INSERT_member_visit _ _ db) as [db1|e] eqn:Hrun; [|done].
    apply INSERT_member_visit_coaches_refused in Hrun as [Hc1 Hr1]; [|done].
    unfold update_members.
    destruct (UPDATE_members_by_id _ _ _ db1) as [db2|e] eqn:Hup; cbn [fst]; [|done].
    apply UPDATE_members_by_id_coaches_refused in Hup as [Hc2 _]; [|congruence].
    congruence.
  - intros NEW c co Hfresh Hc Hco Hinv.
    assert (Hrun : INSERT_member now NEW db
                   = Ok (with_members (<[m_id NEW := NEW]> (members db)) db)).
    { unfold INSERT_member.
      rewrite bool_decide_eq_false_2 by (rewrite Hfresh; by intros [? ?]).
      unfold coach_fk_ok. rewrite Hc, Hco.
      rewrite (bool_decide_eq_true_2 (is_Some (Some co))) by by eexists.
      cbn [negb]. by rewrite update_coach_client_count_refused. }
    eexists. split; [exact Hrun|]. intros Hacc.
    specialize (Hacc c co Hco). cbn [members with_members] in Hacc.
    rewrite (Hinv c co Hco) in Hacc. injection Hacc as Hacc.
    rewrite count_members_insert, Hfresh in Hacc. cbn [from_option] in Hacc.
    rewrite (refs_same c NEW Hc) in Hacc. lia.
Qed.

Lemma coaches_untouched_without_role_witness :
  ∃ db',
    INSERT_member 60 (client "m2" (Some "A"))
      (with_auth_role (Some receptionist) one_client_db) = Ok db'
    ∧ coaches db' = coaches one_client_db
    ∧ count_members_of_coach "A" (members db') = 2.
Proof.
  destruct (coaches_untouched_without_role 60
              (with_auth_role (Some receptionist) one_client_db))
    as (Hinsert & _).
  - reflexivity.
  - eexists. split; [reflexivity|]. split.
    + apply (Hinsert (client "m2" (Some "A"))). reflexivity.
    + vm_compute. reflexivity.
Defined.
